(** * Switchboard Solana SDK: oracle account wrapper and token utilities

    A shallow embedding of
      - [javascript/solana.js/src/accounts/oracleAccount.ts] (class [OracleAccount])
      - [libraries/sbv2-utils/src/token.ts]
    together with the properties of these two files that the SDK description
    states.

    The TypeScript code is a sequence of awaited RPC calls around a few pure
    payload constructions.  Awaited calls are threaded through a small state
    and exception monad over the state of the cluster; instruction builders of
    the client libraries are kept as constructors carrying their arguments. *)

From Stdlib Require Import ZArith NArith List String Ascii Bool Lia.
From Stdlib Require Import Floats.SpecFloat.
From Stdlib Require Strings.Byte.
Import ListNotations.

Set Implicit Arguments.
Local Open Scope N_scope.

(** ** JavaScript values *)

Module JS.

(** A JS [number] is an IEEE 754 binary64 value. *)
Definition number := spec_float.

Definition prec : Z := 53.
Definition emax : Z := 1024.

Definition zero : number := S754_zero false.
Definition NaN : number := S754_nan.

(** [Number(z)] for a bigint [z], and integer literals. *)
Definition Number (z : Z) : number := binary_normalize prec emax z 0 false.

(** [BigInt(x)] for a number [x]: the integer that [x] is, and a RangeError
    ([None]) for NaN, an infinity or a number with a fractional part. *)
Definition BigInt (x : number) : option Z :=
  match x with
  | S754_zero _ => Some 0%Z
  | S754_finite s m e =>
    let magnitude :=
      if (0 <=? e)%Z then Some (Z.shiftl (Z.pos m) e)
      else if (Z.pos m mod 2 ^ (- e) =? 0)%Z then Some (Z.shiftr (Z.pos m) (- e))
      else None in
    option_map (fun v => if s then (- v)%Z else v) magnitude
  | _ => None
  end.

(** [x > y], [x <= y] on numbers: false as soon as one side is NaN. *)
Definition gt (x y : number) : bool := SFltb y x.
Definition le (x y : number) : bool := SFleb x y.

Definition is_zero (x : number) : bool :=
  match x with S754_zero _ => true | _ => false end.
Definition is_nan (x : number) : bool :=
  match x with S754_nan => true | _ => false end.
Definition is_negative (x : number) : bool := SFltb x zero.

(** ToBoolean on a number: [0], [-0] and [NaN] are falsy. *)
Definition truthy (x : number) : bool := negb (is_zero x || is_nan x).

(** An optional property [p?: T] holds [undefined] or a value. *)
Definition optional (T : Type) := option T.

(** [a ?? b] *)
Definition nullish {T} (a : optional T) (b : T) : T :=
  match a with Some v => v | None => b end.

(** ToBoolean on an optional number. *)
Definition truthy_opt (a : optional number) : bool :=
  match a with Some v => truthy v | None => false end.

(** [a > 0] and [a <= 0] where [a] may be [undefined]: ToNumber(undefined)
    is NaN, so both comparisons are false. *)
Definition gt0 (a : optional number) : bool :=
  match a with Some v => gt v zero | None => false end.
Definition le0 (a : optional number) : bool :=
  match a with Some v => le v zero | None => false end.

(** A JS string is a sequence of UTF-16 code units. *)
Definition str := list N.

(** An ASCII literal as a JS string. *)
Definition lit (s : string) : str := map N_of_ascii (list_ascii_of_string s).

(** [a[i]]: [undefined] outside of the array. *)
Definition index {T} (a : list T) (i : N) : optional T := nth_error a (N.to_nat i).

End JS.

(** ** Buffers *)

Module Buffer.

Definition t := list Byte.byte.

Definition u8 (n : N) : Byte.byte :=
  match Byte.of_N (N.land n 255) with Some b => b | None => Byte.x00 end.

Definition is_high_surrogate (c : N) : bool := (0xD800 <=? c) && (c <=? 0xDBFF).
Definition is_low_surrogate (c : N) : bool := (0xDC00 <=? c) && (c <=? 0xDFFF).

(** U+FFFD, written for a surrogate that has no partner. *)
Definition replacement : t := [u8 0xEF; u8 0xBF; u8 0xBD].

Definition encode_code_point (cp : N) : t :=
  if cp <? 0x80 then [u8 cp]
  else if cp <? 0x800 then
    [u8 (N.lor 0xC0 (N.shiftr cp 6)); u8 (N.lor 0x80 (N.land cp 0x3F))]
  else if cp <? 0x10000 then
    [u8 (N.lor 0xE0 (N.shiftr cp 12));
     u8 (N.lor 0x80 (N.land (N.shiftr cp 6) 0x3F));
     u8 (N.lor 0x80 (N.land cp 0x3F))]
  else
    [u8 (N.lor 0xF0 (N.shiftr cp 18));
     u8 (N.lor 0x80 (N.land (N.shiftr cp 12) 0x3F));
     u8 (N.lor 0x80 (N.land (N.shiftr cp 6) 0x3F));
     u8 (N.lor 0x80 (N.land cp 0x3F))].

(** [Buffer.from(s, 'utf8')] *)
Fixpoint from_utf8 (s : JS.str) : t :=
  match s with
  | [] => []
  | c :: rest =>
    if is_high_surrogate c then
      match rest with
      | d :: rest' =>
        if is_low_surrogate d
        then encode_code_point (0x10000 + (c - 0xD800) * 0x400 + (d - 0xDC00))
               ++ from_utf8 rest'
        else replacement ++ from_utf8 rest
      | [] => replacement
      end
    else if is_low_surrogate c then replacement ++ from_utf8 rest
    else encode_code_point c ++ from_utf8 rest
  end.

(** [buf.slice(0, n)] *)
Definition slice0 (buf : t) (n : nat) : t := firstn n buf.

End Buffer.

(** ** Keys, mints and the program handle *)

(** A key wraps a 256-bit big number, as web3.js does. *)
Record PublicKey := { _bn : N }.

Definition PublicKey_equals (a b : PublicKey) : bool := _bn a =? _bn b.

(** The [len] low-order bytes of [n], most significant first. *)
Fixpoint be_bytes (len : nat) (n : N) : Buffer.t :=
  match len with
  | O => []
  | S k => be_bytes k (N.shiftr n 8) ++ [Buffer.u8 n]
  end.

(** [key.toBuffer()] *)
Definition toBuffer (k : PublicKey) : Buffer.t := be_bytes 32 (_bn k).

Module Keypair.
Record t := { publicKey : PublicKey; secretKey : Buffer.t }.
End Keypair.

Module Mint.
Record t := { address : PublicKey; decimals : N }.
End Mint.

Record Connection := { rpcEndpoint : string }.

(** What a callee outside the two files raised. *)
Record Fault := { reason : string }.

(** The fields of the decoded accounts that the wrapper reads. *)
Module types.

Record OracleAccountData := {
  name : Buffer.t;
  metadata : Buffer.t;
  oracleAuthority : PublicKey;
  tokenAccount : PublicKey;
  queuePubkey : PublicKey
}.

Record OracleQueueAccountData := {
  authority : PublicKey;
  dataBuffer : PublicKey;
  gcIdx : N
}.

Record PermissionAccountData := {
  granter : PublicKey;
  grantee : PublicKey;
  permissions : N
}.

Record OracleInitParams := {
  init_name : Buffer.t;
  init_metadata : Buffer.t;
  oracleBump : N;
  stateBump : N
}.

Record OracleInitAccounts := {
  init_oracle : PublicKey;
  init_oracleAuthority : PublicKey;
  init_wallet : PublicKey;
  init_programState : PublicKey;
  init_queue : PublicKey;
  init_payer : PublicKey;
  init_systemProgram : PublicKey
}.

Record OracleHeartbeatParams := { permissionBump : N }.

Record OracleHeartbeatAccounts := {
  hb_oracle : PublicKey;
  hb_oracleAuthority : PublicKey;
  hb_tokenAccount : PublicKey;
  hb_gcOracle : JS.optional PublicKey;
  hb_oracleQueue : PublicKey;
  hb_permission : PublicKey;
  hb_dataBuffer : PublicKey
}.

End types.

Module ProgramState.
Record t := { publicKey : PublicKey; bump : N }.
End ProgramState.

Module SwitchboardProgram.
Record t := {
  programId : PublicKey;
  walletPubkey : PublicKey;
  connection : Connection;
  mint : Mint.t;
  programState : ProgramState.t;
  (** [program.coder.decode(accountName, data)] *)
  coder_decode : string -> Buffer.t -> Fault + types.OracleAccountData
}.
End SwitchboardProgram.

(** ** Instructions and transactions *)

Inductive AuthorityType := MintTokens | FreezeAccount | AccountOwner | CloseAccount.

(** [number | bigint] *)
Inductive Amount :=
| amount_number (n : JS.number)
| amount_bigint (z : Z).

(** One constructor per instruction builder that the two files call, holding
    the arguments of the call in their order. *)
Inductive TransactionInstruction :=
| SystemProgram_createAccount
    (fromPubkey newAccountPubkey : PublicKey) (space : N) (lamports : JS.number)
    (programId : PublicKey)
| SystemProgram_transfer (fromPubkey toPubkey : PublicKey) (lamports : JS.number)
| createInitializeAccountInstruction (account mint owner : PublicKey)
| createSetAuthorityInstruction
    (account currentAuthority : PublicKey) (authorityType : AuthorityType)
    (newAuthority : PublicKey)
| createTransferInstruction
    (source destination owner : PublicKey) (amount : Amount)
    (multiSigners : list Keypair.t) (programId : JS.optional PublicKey)
| createAssociatedTokenAccountInstruction
    (payer associatedToken owner mint programId associatedTokenProgramId : PublicKey)
| createSyncNativeInstruction (account programId : PublicKey)
| createCloseAccountInstruction
    (account destination authority : PublicKey) (multiSigners : list Keypair.t)
    (programId : PublicKey)
| oracleInit (args : types.OracleInitParams) (accounts : types.OracleInitAccounts)
| oracleHeartbeat
    (args : types.OracleHeartbeatParams) (accounts : types.OracleHeartbeatAccounts).

(** Modelled from the spec: the transaction composition helper of
    [../transaction], which is not among the sources.  A transaction object
    holds its fee payer, a sequence of instructions and the signers. *)
Module TransactionObject.
Record t := {
  payer : PublicKey;
  ixns : list TransactionInstruction;
  signers : list Keypair.t
}.

(** [txn.add(ixn)] appends an instruction. *)
Definition add (txn : t) (ixn : TransactionInstruction) : t :=
  {| payer := payer txn; ixns := ixns txn ++ [ixn]; signers := signers txn |}.
End TransactionObject.

Module QueueAccount.
Record t := { program : SwitchboardProgram.t; publicKey : PublicKey }.
End QueueAccount.

Module PermissionAccount.
Record t := { program : SwitchboardProgram.t; publicKey : PublicKey }.
End PermissionAccount.

Definition TransactionSignature := string.

(** ** Exceptions *)

Inductive Error :=
| Error_ (message : string)
| AccountNotFoundError (address : PublicKey)
| IncorrectAuthority (expected received : PublicKey)
| Rejected (f : Fault).

Definition Result (A : Type) : Type := Error + A.

(** A synchronous call into a library that may raise. *)
Definition call {A} (r : Fault + A) : Result A :=
  match r with inl f => inl (Rejected f) | inr a => inr a end.

(** [try { body } catch { handler }] *)
Definition try_catch {A} (body : Result A) (handler : Error -> Result A) : Result A :=
  match body with inl e => handler e | inr a => inr a end.

(** ** What the two files import *)

Module anchor.
Record Program := { programId : PublicKey; provider_connection : Connection }.
End anchor.

Module ProgramStateAccount.
Record t := { program : anchor.Program; publicKey : PublicKey }.
End ProgramStateAccount.

Module spl.
(** The token account that [getAccount] and
    [getOrCreateAssociatedTokenAccount] return. *)
Record Account := { address : PublicKey; owner : PublicKey; amount : Z }.
End spl.

(** Synchronous functions and constants of the client libraries and of the
    SDK modules that are not among the sources.  They are parameters of the
    development. *)
Record Library := {
  ACCOUNT_SIZE : N;
  TOKEN_PROGRAM_ID : PublicKey;
  ASSOCIATED_TOKEN_PROGRAM_ID : PublicKey;
  NATIVE_MINT : PublicKey;
  SystemProgram_programId : PublicKey;
  (** [anchor.utils.publicKey.findProgramAddressSync(seeds, programId)] *)
  findProgramAddressSync : list Buffer.t -> PublicKey -> PublicKey * N;
  (** [new PublicKey(base58)] *)
  new_PublicKey : JS.str -> Fault + PublicKey;
  (** [types.OracleAccountData.decode(data)], the generated codec *)
  OracleAccountData_decode : Buffer.t -> Fault + types.OracleAccountData;
  (** [PermissionAccount.fromSeed(program, authority, granter, grantee)] *)
  PermissionAccount_fromSeed :
    SwitchboardProgram.t -> PublicKey -> PublicKey -> PublicKey -> PermissionAccount.t * N;
  (** [TransactionObject.pack(txns)] *)
  pack : list TransactionObject.t -> list TransactionObject.t;
  (** [program.mint.toTokenAmount(amount)] *)
  toTokenAmount : Mint.t -> JS.number -> Z;
  (** [programWallet(program)] *)
  programWallet : anchor.Program -> Keypair.t;
  (** [ProgramStateAccount.fromSeed(program)] *)
  ProgramStateAccount_fromSeed : anchor.Program -> ProgramStateAccount.t * N;
  (** [spl.getAssociatedTokenAddress(mint, owner)] *)
  getAssociatedTokenAddress : PublicKey -> PublicKey -> Fault + PublicKey
}.

(** Calls whose answer depends on the cluster, on the wallet or on the
    entropy source.  [S] is the state of all of these; a call answers or
    raises, and leaves a new state. *)
Record Cluster (S : Type) := {
  (** [Keypair.generate()] *)
  Keypair_generate : S -> Keypair.t * S;
  (** [connection.getMinimumBalanceForRentExemption(space)] *)
  getMinimumBalanceForRentExemption : Connection -> N -> S -> (Fault + JS.number) * S;
  (** [connection.getBalance(key)] *)
  getBalance : Connection -> PublicKey -> S -> (Fault + JS.number) * S;
  (** [types.OracleAccountData.fetch(program, address)]: [null] when the
      account does not exist *)
  OracleAccountData_fetch :
    SwitchboardProgram.t -> PublicKey -> S -> (Fault + option types.OracleAccountData) * S;
  (** [queueAccount.loadData()] *)
  QueueAccount_loadData : QueueAccount.t -> S -> (Fault + types.OracleQueueAccountData) * S;
  (** [queueAccount.loadOracles()] *)
  QueueAccount_loadOracles : QueueAccount.t -> S -> (Fault + list PublicKey) * S;
  (** [permissionAccount.loadData()] *)
  PermissionAccount_loadData :
    PermissionAccount.t -> S -> (Fault + types.PermissionAccountData) * S;
  (** [program.mint.getOrCreateWrappedUserInstructions(payer, { fundUpTo }, user)] *)
  getOrCreateWrappedUserInstructions :
    SwitchboardProgram.t -> PublicKey -> JS.number -> JS.optional Keypair.t ->
    S -> (Fault + PublicKey * TransactionObject.t) * S;
  (** what the cluster answers to [program.signAndSend(txn)] *)
  signAndSend_reply :
    SwitchboardProgram.t -> JS.optional TransactionObject.t ->
    S -> (Fault + TransactionSignature) * S;
  (** [spl.getOrCreateAssociatedTokenAccount(connection, payer, mint, owner, ...)] *)
  getOrCreateAssociatedTokenAccount :
    Connection -> Keypair.t -> PublicKey -> PublicKey -> S -> (Fault + spl.Account) * S;
  (** what the cluster answers to [sendAndConfirmTransaction(connection, tx, signers)] *)
  sendAndConfirmTransaction_reply :
    Connection -> list TransactionInstruction -> list Keypair.t ->
    S -> (Fault + TransactionSignature) * S;
  (** [spl.getAccount(connection, address)] *)
  getAccount : Connection -> PublicKey -> S -> (Fault + spl.Account) * S;
  (** [programState.getTokenMint()] *)
  getTokenMint : ProgramStateAccount.t -> S -> (Fault + JS.optional Mint.t) * S
}.

(** ** The monad of asynchronous functions *)

(** What was handed over for signature and submission, oldest first. *)
Inductive Submission :=
| Signed_and_sent (program : SwitchboardProgram.t) (txn : JS.optional TransactionObject.t)
| Sent_and_confirmed
    (connection : Connection) (tx : list TransactionInstruction) (signers : list Keypair.t).

Record World (S : Type) := { state : S; outbox : list Submission }.

Definition Async (S A : Type) : Type := World S -> Result A * World S.

Definition ret {S A} (a : A) : Async S A := fun w => (inr a, w).

Definition throw {S A} (e : Error) : Async S A := fun w => (inl e, w).

Definition bind {S A B} (m : Async S A) (k : A -> Async S B) : Async S B :=
  fun w => match m w with
           | (inr a, w') => k a w'
           | (inl e, w') => (inl e, w')
           end.

(** A synchronous result inside an asynchronous function. *)
Definition lift {S A} (r : Result A) : Async S A := fun w => (r, w).

(** A call that always answers. *)
Definition draw {S A} (f : S -> A * S) : Async S A :=
  fun w => let (a, s) := f (state w) in (inr a, {| state := s; outbox := outbox w |}).

(** [await f(...)]: the answer, or the exception of the callee. *)
Definition await {S A} (f : S -> (Fault + A) * S) : Async S A :=
  fun w => let (r, s) := f (state w) in (call r, {| state := s; outbox := outbox w |}).

(** Record a submission. *)
Definition submit {S} (x : Submission) : Async S unit :=
  fun w => (inr tt, {| state := state w; outbox := outbox w ++ [x] |}).

(** [try { await body } catch (e) { handler }] *)
Definition try_await {S A} (body : Async S A) (handler : Error -> Async S A) : Async S A :=
  fun w => match body w with
           | (inl e, w') => handler e w'
           | (inr a, w') => (inr a, w')
           end.

Declare Scope async_scope.
Delimit Scope async_scope with async.
Notation "x <- m ;; k" := (bind m (fun x => k))
  (at level 61, m at next level, right associativity) : async_scope.
Notation "' p <- m ;; k" := (bind m (fun x => match x with p => k end))
  (at level 61, p pattern, m at next level, right associativity) : async_scope.
Notation "m ;;; k" := (bind m (fun _ => k))
  (at level 61, right associativity) : async_scope.

Local Open Scope string_scope.
Local Open Scope list_scope.
Local Open Scope N_scope.
Local Open Scope async_scope.

(** ** accounts/oracleAccount.ts *)

Module OracleInitParams.
Record t := {
  name : JS.optional JS.str;
  metadata : JS.optional JS.str;
  authority : JS.optional Keypair.t
}.
End OracleInitParams.

Module OracleStakeParams.
Record t := {
  stakeAmount : JS.optional JS.number;
  funderTokenAccount : JS.optional PublicKey;
  funderAuthority : JS.optional Keypair.t
}.
End OracleStakeParams.

Module OracleWithdrawParams.
Record t := {
  amount : JS.number;
  withdrawAccount : JS.optional PublicKey;
  authority : JS.optional Keypair.t
}.
End OracleWithdrawParams.

(** ** Object literals *)

(** A JS object as its properties in insertion order.  Writing a property
    that exists replaces its value in place. *)
Module JSObject.
Section Properties.

Variable V : Type.

Definition t := list (string * V).

Fixpoint set (k : string) (v : V) (o : t) : t :=
  match o with
  | [] => [(k, v)]
  | (k', v') :: rest =>
    if String.eqb k k' then (k, v) :: rest else (k', v') :: set k v rest
  end.

(** [o[k]] *)
Fixpoint get (k : string) (o : t) : JS.optional V :=
  match o with
  | [] => None
  | (k', v') :: rest => if String.eqb k k' then Some v' else get k rest
  end.

(** [{ ...dst, ...src }]: the properties of [src] written into [dst]. *)
Definition spread (src dst : t) : t :=
  fold_left (fun acc p => set (fst p) (snd p) acc) src dst.

End Properties.
End JSObject.

Local Unset Elimination Schemes.

(** The values found in the JSON form of the accounts. *)
Inductive JSON :=
| JSON_number (n : JS.number)
| JSON_text (s : JS.str)
| JSON_key (k : PublicKey)
| JSON_object (properties : list (string * JSON))
| JSON_array (items : list JSON).

Local Set Elimination Schemes.

(** ** The withdraw instruction *)

Module OracleWithdraw.

Record Params := {
  stateBump : N;
  permissionBump : N;
  amount : Z
}.

Record Accounts := {
  oracle : PublicKey;
  oracleAuthority : PublicKey;
  tokenAccount : PublicKey;
  withdrawAccount : PublicKey;
  oracleQueue : PublicKey;
  permission : PublicKey;
  tokenProgram : PublicKey;
  programState : PublicKey;
  payer : PublicKey;
  systemProgram : PublicKey
}.

(** [types.oracleWithdraw(program, { params }, accounts)] *)
Inductive Instruction := oracleWithdraw (args : Params) (accounts : Accounts).

(** The transaction object that [withdrawInstruction] builds: fee payer,
    withdraw instructions, signers. *)
Record Transaction := {
  txn_payer : PublicKey;
  txn_ixns : list Instruction;
  txn_signers : list Keypair.t
}.

End OracleWithdraw.

(** Further imports of [oracleAccount.ts], not among the sources: the balance
    query and the conversions of the mint wrapper, and the generated JSON
    forms. *)
Record Further (S : Type) := {
  (** [program.mint.getBalance(tokenAccount)]: [null] when there is no such
      token account *)
  mint_getBalance :
    SwitchboardProgram.t -> PublicKey -> S -> (Fault + option JS.number) * S;
  (** [program.mint.toTokenAmountBN(amount)] *)
  toTokenAmountBN : Mint.t -> JS.number -> Z;
  (** [program.mint.getAssociatedAddress(owner)] *)
  mint_getAssociatedAddress : Mint.t -> PublicKey -> PublicKey;
  (** [oracle.toJSON()] *)
  OracleAccountData_toJSON : types.OracleAccountData -> JSObject.t JSON;
  (** [permission.toJSON()] *)
  PermissionAccountData_toJSON : types.PermissionAccountData -> JSObject.t JSON
}.

Module OracleAccount.

Record t := { program : SwitchboardProgram.t; publicKey : PublicKey }.

Definition accountName : string := "OracleAccountData".

(** The [params] of [createInstructions] and [create]. *)
Module CreateParams.
Record t := {
  queueAccount : QueueAccount.t;
  init : OracleInitParams.t;
  stake : OracleStakeParams.t
}.
End CreateParams.

(** The [params] of [stakeInstructions] and [stake]. *)
Module StakeParams.
Record t := {
  stake : OracleStakeParams.t;
  tokenAccount : JS.optional PublicKey
}.
End StakeParams.

(** The [params] of [heartbeatInstruction]. *)
Module HeartbeatIxParams.
Record t := {
  tokenWallet : PublicKey;
  gcOracle : JS.optional PublicKey;
  oracleQueue : PublicKey;
  dataBuffer : PublicKey;
  permission : PermissionAccount.t * N;
  authority : JS.optional PublicKey
}.
End HeartbeatIxParams.

(** The [params] of [heartbeat]. *)
Module HeartbeatParams.
Record t := {
  queueAccount : QueueAccount.t;
  tokenWallet : JS.optional PublicKey;
  queueAuthority : JS.optional PublicKey;
  queue : JS.optional types.OracleQueueAccountData;
  permission : JS.optional (PermissionAccount.t * N);
  authority : JS.optional Keypair.t
}.
End HeartbeatParams.

Section Methods.

Variable S : Type.
Variable lib : Library.
Variable net : Cluster S.

(** [loadData] *)
Definition loadData (this : t) : Async S types.OracleAccountData :=
  data <- await (OracleAccountData_fetch net (program this) (publicKey this)) ;;
  match data with
  | None => throw (AccountNotFoundError (publicKey this))
  | Some data => ret data
  end.

(** [load]: the key comes as a [PublicKey] or as its base58 string. *)
Definition load (program : SwitchboardProgram.t) (publicKey : PublicKey + JS.str)
  : Async S (t * types.OracleAccountData) :=
  key <- lift (match publicKey with
               | inr s => call (new_PublicKey lib s)
               | inl k => inr k
               end) ;;
  let account := {| program := program; publicKey := key |} in
  state <- loadData account ;;
  ret (account, state).

(** [decode] *)
Definition decode (this : t) (data : Buffer.t) : Result types.OracleAccountData :=
  try_catch
    (call (OracleAccountData_decode lib data))
    (fun _ => call (SwitchboardProgram.coder_decode (program this) accountName data)).

(** [fromSeed] *)
Definition fromSeed (program : SwitchboardProgram.t) (queue wallet : PublicKey) : t * N :=
  let '(publicKey, bump) :=
    findProgramAddressSync lib
      [Buffer.from_utf8 (JS.lit "OracleAccountData"); toBuffer queue; toBuffer wallet]
      (SwitchboardProgram.programId program) in
  ({| program := program; publicKey := publicKey |}, bump).

(** [getPermissions] *)
Definition getPermissions (this : t)
    (_oracle : JS.optional types.OracleAccountData)
    (_queueAccount : JS.optional QueueAccount.t)
    (_queue : JS.optional types.OracleQueueAccountData)
  : Async S (PermissionAccount.t * N * types.PermissionAccountData) :=
  oracle <- match _oracle with Some o => ret o | None => loadData this end ;;
  let queueAccount :=
    JS.nullish _queueAccount
      {| QueueAccount.program := program this;
         QueueAccount.publicKey := types.queuePubkey oracle |} in
  queue <- match _queue with
           | Some q => ret q
           | None => await (QueueAccount_loadData net queueAccount)
           end ;;
  let '(permissionAccount, permissionBump) :=
    PermissionAccount_fromSeed lib (program this) (types.authority queue)
      (QueueAccount.publicKey queueAccount) (publicKey this) in
  permission <- await (PermissionAccount_loadData net permissionAccount) ;;
  ret (permissionAccount, permissionBump, permission).

(** [stakeInstructions] *)
Definition stakeInstructions (this : t) (payer : PublicKey) (params : StakeParams.t)
  : Async S TransactionObject.t :=
  let stakeAmount := OracleStakeParams.stakeAmount (StakeParams.stake params) in
  if negb (JS.truthy_opt stakeAmount) || JS.le0 stakeAmount
  then throw (Error_ "stake amount should be greater than 0")
  else
    match stakeAmount with
    | None =>
      (* not reached: [!undefined] holds *)
      throw (Error_ "stake amount should be greater than 0")
    | Some stakeAmount =>
      tokenWallet <- match StakeParams.tokenAccount params with
                     | Some k => ret k
                     | None => data <- loadData this ;; ret (types.tokenAccount data)
                     end ;;
      let funderAuthority :=
        JS.nullish
          (option_map Keypair.publicKey
             (OracleStakeParams.funderAuthority (StakeParams.stake params)))
          payer in
      ' (funderTokenAccount, wrapFundsTxn) <-
        await (getOrCreateWrappedUserInstructions net (program this) payer stakeAmount
                 (OracleStakeParams.funderAuthority (StakeParams.stake params))) ;;
      ret (TransactionObject.add wrapFundsTxn
             (createTransferInstruction funderTokenAccount tokenWallet funderAuthority
                (amount_bigint
                   (toTokenAmount lib (SwitchboardProgram.mint (program this)) stakeAmount))
                [] None))
    end.

(** [program.signAndSend(txn)] *)
Definition signAndSend (program : SwitchboardProgram.t)
    (txn : JS.optional TransactionObject.t) : Async S TransactionSignature :=
  submit (Signed_and_sent program txn) ;;;
  await (signAndSend_reply net program txn).

(** [stake] *)
Definition stake (this : t) (params : StakeParams.t) : Async S TransactionSignature :=
  stakeTxn <- stakeInstructions this (SwitchboardProgram.walletPubkey (program this)) params ;;
  signAndSend (program this) (Some stakeTxn).


(** [createInstructions], up to the call of [TransactionObject.pack]: the
    account derived for the fresh token wallet and the array [txns]. *)
Definition createInstructions_txns
    (program : SwitchboardProgram.t) (payer : PublicKey) (params : CreateParams.t)
  : Async S (t * list TransactionObject.t) :=
  let init := CreateParams.init params in
  let stake := CreateParams.stake params in
  tokenWallet <- draw (Keypair_generate net) ;;
  let authority :=
    JS.nullish (option_map Keypair.publicKey (OracleInitParams.authority init)) payer in
  let '(oracleAccount, oracleBump) :=
    fromSeed program
      (QueueAccount.publicKey (CreateParams.queueAccount params))
      (Keypair.publicKey tokenWallet) in
  lamports <-
    await (getMinimumBalanceForRentExemption net
             (SwitchboardProgram.connection program) (ACCOUNT_SIZE lib)) ;;
  let oracleInit :=
    {| TransactionObject.payer := payer;
       TransactionObject.ixns :=
         [ SystemProgram_createAccount payer (Keypair.publicKey tokenWallet)
             (ACCOUNT_SIZE lib) lamports (TOKEN_PROGRAM_ID lib);
           createInitializeAccountInstruction (Keypair.publicKey tokenWallet)
             (Mint.address (SwitchboardProgram.mint program)) authority;
           createSetAuthorityInstruction (Keypair.publicKey tokenWallet) authority
             AccountOwner
             (ProgramState.publicKey (SwitchboardProgram.programState program));
           oracleInit
             {| types.init_name :=
                  Buffer.slice0
                    (Buffer.from_utf8 (JS.nullish (OracleInitParams.name init) (JS.lit "")))
                    32;
                types.init_metadata :=
                  Buffer.slice0
                    (Buffer.from_utf8
                       (JS.nullish (OracleInitParams.metadata init) (JS.lit "")))
                    128;
                types.oracleBump := oracleBump;
                types.stateBump :=
                  ProgramState.bump (SwitchboardProgram.programState program) |}
             {| types.init_oracle := publicKey oracleAccount;
                types.init_oracleAuthority := authority;
                types.init_wallet := Keypair.publicKey tokenWallet;
                types.init_programState :=
                  ProgramState.publicKey (SwitchboardProgram.programState program);
                types.init_queue :=
                  QueueAccount.publicKey (CreateParams.queueAccount params);
                types.init_payer := payer;
                types.init_systemProgram := SystemProgram_programId lib |} ];
       TransactionObject.signers :=
         match OracleInitParams.authority init with
         | Some authority => [authority; tokenWallet]
         | None => [tokenWallet]
         end |} in
  let txns := [oracleInit] in
  if JS.truthy_opt (OracleStakeParams.stakeAmount stake)
     && JS.gt0 (OracleStakeParams.stakeAmount stake)
  then
    depositTxn <-
      stakeInstructions oracleAccount payer
        {| StakeParams.stake := stake;
           StakeParams.tokenAccount := Some (Keypair.publicKey tokenWallet) |} ;;
    ret (oracleAccount, txns ++ [depositTxn])
  else ret (oracleAccount, txns).

(** [createInstructions]: [packed[0]] is [undefined] for an empty [packed]. *)
Definition createInstructions
    (program : SwitchboardProgram.t) (payer : PublicKey) (params : CreateParams.t)
  : Async S (t * JS.optional TransactionObject.t) :=
  ' (oracleAccount, txns) <- createInstructions_txns program payer params ;;
  let packed := pack lib txns in
  if (1 <? List.length packed)%nat
  then throw (Error_ "Expected a single TransactionObject")
  else ret (oracleAccount, JS.index packed 0).

(** [create] *)
Definition create (program : SwitchboardProgram.t) (params : CreateParams.t)
  : Async S (t * TransactionSignature) :=
  ' (oracleAccount, txnObject) <-
    createInstructions program (SwitchboardProgram.walletPubkey program) params ;;
  txnSignature <- signAndSend program txnObject ;;
  ret (oracleAccount, txnSignature).

(** [heartbeatInstruction] *)
Definition heartbeatInstruction (this : t) (payer : PublicKey) (params : HeartbeatIxParams.t)
  : TransactionInstruction :=
  let '(permissionAccount, permissionBump) := HeartbeatIxParams.permission params in
  oracleHeartbeat
    {| types.permissionBump := permissionBump |}
    {| types.hb_oracle := publicKey this;
       types.hb_oracleAuthority := JS.nullish (HeartbeatIxParams.authority params) payer;
       types.hb_tokenAccount := HeartbeatIxParams.tokenWallet params;
       types.hb_gcOracle := HeartbeatIxParams.gcOracle params;
       types.hb_oracleQueue := HeartbeatIxParams.oracleQueue params;
       types.hb_permission := PermissionAccount.publicKey permissionAccount;
       types.hb_dataBuffer := HeartbeatIxParams.dataBuffer params |}.

(** [params?.field] *)
Definition opt_field {P T} (params : JS.optional P) (field : P -> JS.optional T)
  : JS.optional T :=
  match params with Some p => field p | None => None end.

(** [heartbeat] *)
Definition heartbeat (this : t) (params : JS.optional HeartbeatParams.t)
  : Async S TransactionSignature :=
  oracle <- loadData this ;;
  let tokenWallet :=
    JS.nullish (opt_field params HeartbeatParams.tokenWallet) (types.tokenAccount oracle) in
  let queueAccount :=
    JS.nullish (option_map HeartbeatParams.queueAccount params)
      {| QueueAccount.program := program this;
         QueueAccount.publicKey := types.queuePubkey oracle |} in
  queue <- match opt_field params HeartbeatParams.queue with
           | Some q => ret q
           | None => await (QueueAccount_loadData net queueAccount)
           end ;;
  oracles <- await (QueueAccount_loadOracles net queueAccount) ;;
  let lastPubkey :=
    if negb (List.length oracles =? 0)%nat
    then JS.index oracles (types.gcIdx queue)
    else Some (publicKey this) in
  let '(permissionAccount, permissionBump) :=
    JS.nullish (opt_field params HeartbeatParams.permission)
      (PermissionAccount_fromSeed lib (program this) (types.authority queue)
         (QueueAccount.publicKey queueAccount) (publicKey this)) in
  try_await
    (await (PermissionAccount_loadData net permissionAccount))
    (fun _ =>
       throw (Error_ "A requested oracle permission pda account has not been initialized.")) ;;;
  match opt_field params HeartbeatParams.authority with
  | Some authority =>
    if negb (PublicKey_equals (types.oracleAuthority oracle) (Keypair.publicKey authority))
    then throw (IncorrectAuthority (types.oracleAuthority oracle) (Keypair.publicKey authority))
    else ret tt
  | None => ret tt
  end ;;;
  let heartbeatTxn :=
    {| TransactionObject.payer := SwitchboardProgram.walletPubkey (program this);
       TransactionObject.ixns :=
         [ heartbeatInstruction this (SwitchboardProgram.walletPubkey (program this))
             {| HeartbeatIxParams.tokenWallet := tokenWallet;
                HeartbeatIxParams.gcOracle := lastPubkey;
                HeartbeatIxParams.oracleQueue := QueueAccount.publicKey queueAccount;
                HeartbeatIxParams.dataBuffer := types.dataBuffer queue;
                HeartbeatIxParams.permission := (permissionAccount, permissionBump);
                HeartbeatIxParams.authority := Some (types.oracleAuthority oracle) |} ];
       TransactionObject.signers :=
         match opt_field params HeartbeatParams.authority with
         | Some authority => [authority]
         | None => []
         end |} in
  signAndSend (program this) (Some heartbeatTxn).

End Methods.

Section FurtherMethods.

Variable S : Type.
Variable lib : Library.
Variable net : Cluster S.
Variable more : Further S.

(** [getBalance] *)
Definition getBalance (this : t) (stakingWallet : JS.optional PublicKey)
  : Async S JS.number :=
  tokenAccount <- match stakingWallet with
                  | Some k => ret k
                  | None => data <- loadData net this ;; ret (types.tokenAccount data)
                  end ;;
  amount <- await (mint_getBalance more (program this) tokenAccount) ;;
  match amount with
  | None => throw (Error_ "Failed to fetch oracle staking wallet balance")
  | Some amount => ret amount
  end.

(** [withdrawInstruction] *)
Definition withdrawInstruction (this : t) (payer : PublicKey)
    (params : OracleWithdrawParams.t) : Async S OracleWithdraw.Transaction :=
  let tokenAmount :=
    toTokenAmountBN more (SwitchboardProgram.mint (program this))
      (OracleWithdrawParams.amount params) in
  oracle <- loadData net this ;;
  let queueAccount :=
    {| QueueAccount.program := program this;
       QueueAccount.publicKey := types.queuePubkey oracle |} in
  queue <- await (QueueAccount_loadData net queueAccount) ;;
  ' (permissionAccount, permissionBump, _) <-
    getPermissions lib net this (Some oracle) (Some queueAccount) (Some queue) ;;
  let withdrawAccount :=
    JS.nullish (OracleWithdrawParams.withdrawAccount params)
      (mint_getAssociatedAddress more (SwitchboardProgram.mint (program this)) payer) in
  let withdrawIxn :=
    OracleWithdraw.oracleWithdraw
      {| OracleWithdraw.stateBump :=
           ProgramState.bump (SwitchboardProgram.programState (program this));
         OracleWithdraw.permissionBump := permissionBump;
         OracleWithdraw.amount := tokenAmount |}
      {| OracleWithdraw.oracle := publicKey this;
         OracleWithdraw.oracleAuthority := types.oracleAuthority oracle;
         OracleWithdraw.tokenAccount := types.tokenAccount oracle;
         OracleWithdraw.withdrawAccount := withdrawAccount;
         OracleWithdraw.oracleQueue := QueueAccount.publicKey queueAccount;
         OracleWithdraw.permission := PermissionAccount.publicKey permissionAccount;
         OracleWithdraw.tokenProgram := TOKEN_PROGRAM_ID lib;
         OracleWithdraw.programState :=
           ProgramState.publicKey (SwitchboardProgram.programState (program this));
         OracleWithdraw.payer := payer;
         OracleWithdraw.systemProgram := SystemProgram_programId lib |} in
  ret {| OracleWithdraw.txn_payer := payer;
         OracleWithdraw.txn_ixns := [withdrawIxn];
         OracleWithdraw.txn_signers :=
           match OracleWithdrawParams.authority params with
           | Some authority => [authority]
           | None => []
           end |}.

(** [toAccountsJSON] *)
Definition toAccountsJSON (this : t)
    (_oracle : JS.optional types.OracleAccountData)
    (_permissionAccount : JS.optional PermissionAccount.t)
    (_permission : JS.optional types.PermissionAccountData)
  : Async S (JSObject.t JSON) :=
  oracle <- match _oracle with Some o => ret o | None => loadData net this end ;;
  ' (permissionAccount, permission) <-
    match _permissionAccount, _permission with
    | Some permissionAccount, Some permission => ret (permissionAccount, permission)
    | _, _ =>
      let queueAccount :=
        {| QueueAccount.program := program this;
           QueueAccount.publicKey := types.queuePubkey oracle |} in
      queue <- await (QueueAccount_loadData net queueAccount) ;;
      let '(permissionAccount, _) :=
        PermissionAccount_fromSeed lib (program this) (types.authority queue)
          (QueueAccount.publicKey queueAccount) (publicKey this) in
      permission <- await (PermissionAccount_loadData net permissionAccount) ;;
      ret (permissionAccount, permission)
    end ;;
  oracleBalance <-
    (balance <- await (mint_getBalance more (program this) (types.tokenAccount oracle)) ;;
     ret (JS.nullish balance JS.zero)) ;;
  ret (JSObject.set "permission"
         (JSON_object
            (JSObject.spread (PermissionAccountData_toJSON more permission)
               (JSObject.set "publicKey"
                  (JSON_key (PermissionAccount.publicKey permissionAccount)) [])))
         (JSObject.spread (OracleAccountData_toJSON more oracle)
            (JSObject.set "balance" (JSON_number oracleBalance)
               (JSObject.set "publicKey" (JSON_key (publicKey this)) [])))).

End FurtherMethods.
End OracleAccount.

(** ** sbv2-utils/src/token.ts *)

Module token.
Section Functions.

Variable S : Type.
Variable lib : Library.
Variable net : Cluster S.

(** What the 64-bit layout of the instruction data does with an amount: the
    bytes it writes, or its exception for an amount it cannot hold.  It
    belongs to the client libraries and is a parameter. *)
Variable u64 : Z -> Fault + Buffer.t.

(** The exception of [BigInt(amount)]. *)
Definition RangeError : Fault := {| reason := "RangeError" |}.

(** What the instruction builders do with a number amount before they return
    an instruction: [BigInt(amount)], then the 64-bit layout. *)
Definition encode_amount (amount : JS.number) : Result Buffer.t :=
  match JS.BigInt amount with
  | None => inl (Rejected RangeError)
  | Some z => call (u64 z)
  end.

(** [SystemProgram.transfer({ fromPubkey, toPubkey, lamports })] *)
Definition SystemProgram_transfer_call (fromPubkey toPubkey : PublicKey)
    (lamports : JS.number) : Result TransactionInstruction :=
  match encode_amount lamports with
  | inl e => inl e
  | inr _ => inr (SystemProgram_transfer fromPubkey toPubkey lamports)
  end.

(** [spl.createTransferInstruction(source, destination, owner, amount,
    multiSigners, programId)] for a number amount *)
Definition createTransferInstruction_call (source destination owner : PublicKey)
    (amount : JS.number) (multiSigners : list Keypair.t) (programId : PublicKey)
  : Result TransactionInstruction :=
  match encode_amount amount with
  | inl e => inl e
  | inr _ =>
    inr (createTransferInstruction source destination owner (amount_number amount)
           multiSigners (Some programId))
  end.

(** [sendAndConfirmTransaction(connection, tx, signers)] *)
Definition sendAndConfirmTransaction
    (connection : Connection) (tx : list TransactionInstruction) (signers : list Keypair.t)
  : Async S TransactionSignature :=
  submit (Sent_and_confirmed connection tx signers) ;;;
  await (sendAndConfirmTransaction_reply net connection tx signers).

(** The inner [getAssociatedAddress] of [getOrCreateSwitchboardTokenAccount]. *)
Definition getAssociatedAddress (program : anchor.Program) (payer : Keypair.t) (mint : Mint.t)
  : Async S PublicKey :=
  tokenAccount <-
    await (getOrCreateAssociatedTokenAccount net (anchor.provider_connection program)
             payer (Mint.address mint) (Keypair.publicKey payer)) ;;
  ret (spl.address tokenAccount).

(** [getOrCreateSwitchboardTokenAccount]; [payer] defaults to
    [programWallet(program)]. *)
Definition getOrCreateSwitchboardTokenAccount
    (program : anchor.Program) (switchboardMint : JS.optional Mint.t)
    (payer : JS.optional Keypair.t)
  : Async S PublicKey :=
  let payer := JS.nullish payer (programWallet lib program) in
  let mint := switchboardMint in
  match mint with
  | Some mint => getAssociatedAddress program payer mint
  | None =>
    let '(programState, _) := ProgramStateAccount_fromSeed lib program in
    mint <- await (getTokenMint net programState) ;;
    match mint with
    | Some mint => getAssociatedAddress program payer mint
    | None => throw (Error_ "failed to get associated token account")
    end
  end.

(** [transferWrappedSol].  The five instructions are built in the order of
    the array; the two that carry [amount] can raise, and the others only
    hold their arguments. *)
Definition transferWrappedSol
    (connection : Connection) (payerKeypair : Keypair.t) (amount : JS.number)
  : Async S JS.number :=
  payerBalance <- await (getBalance net connection (Keypair.publicKey payerKeypair)) ;;
  payerAssociatedWallet <-
    (account <-
       await (getOrCreateAssociatedTokenAccount net connection payerKeypair
                (NATIVE_MINT lib) (Keypair.publicKey payerKeypair)) ;;
     ret (spl.address account)) ;;
  ephemeralAccount <- draw (Keypair_generate net) ;;
  ephemeralWallet <-
    lift (call (getAssociatedTokenAddress lib (NATIVE_MINT lib)
                  (Keypair.publicKey ephemeralAccount))) ;;
  transferIx <-
    lift (SystemProgram_transfer_call (Keypair.publicKey payerKeypair) ephemeralWallet
            amount) ;;
  tokenTransferIx <-
    lift (createTransferInstruction_call ephemeralWallet payerAssociatedWallet
            (Keypair.publicKey payerKeypair) amount
            [payerKeypair; ephemeralAccount] (TOKEN_PROGRAM_ID lib)) ;;
  let tx :=
    [ createAssociatedTokenAccountInstruction
        (Keypair.publicKey payerKeypair) ephemeralWallet (Keypair.publicKey payerKeypair)
        (NATIVE_MINT lib) (TOKEN_PROGRAM_ID lib) (ASSOCIATED_TOKEN_PROGRAM_ID lib);
      transferIx;
      createSyncNativeInstruction ephemeralWallet (TOKEN_PROGRAM_ID lib);
      tokenTransferIx;
      createCloseAccountInstruction ephemeralWallet
        (Keypair.publicKey payerKeypair) (Keypair.publicKey payerKeypair)
        [payerKeypair; ephemeralAccount] (TOKEN_PROGRAM_ID lib) ] in
  txn <- sendAndConfirmTransaction connection tx [payerKeypair; ephemeralAccount] ;;
  finalBalance <- await (getAccount net connection payerAssociatedWallet) ;;
  ret (JS.Number (spl.amount finalBalance)).

End Functions.
End token.

(** ** Vocabulary of the stated properties *)

(** A stake amount that is absent, zero or negative. *)
Definition absent_zero_or_negative (a : JS.optional JS.number) : bool :=
  match a with
  | None => true
  | Some v => JS.is_zero v || JS.is_negative v
  end.

(** The queue account that [heartbeat] works with once it has read the
    oracle: [params?.queueAccount], or the queue of the oracle. *)
Definition heartbeat_queueAccount (this : OracleAccount.t)
    (params : JS.optional OracleAccount.HeartbeatParams.t)
    (oracle : types.OracleAccountData) : QueueAccount.t :=
  JS.nullish (option_map OracleAccount.HeartbeatParams.queueAccount params)
    {| QueueAccount.program := OracleAccount.program this;
       QueueAccount.publicKey := types.queuePubkey oracle |}.

(** The permission account and bump that [heartbeat] works with once it has
    read the queue: [params?.permission], or the derived one. *)
Definition heartbeat_permission (lib : Library) (this : OracleAccount.t)
    (params : JS.optional OracleAccount.HeartbeatParams.t)
    (oracle : types.OracleAccountData) (queue : types.OracleQueueAccountData)
  : PermissionAccount.t * N :=
  JS.nullish (OracleAccount.opt_field params OracleAccount.HeartbeatParams.permission)
    (PermissionAccount_fromSeed lib (OracleAccount.program this) (types.authority queue)
       (QueueAccount.publicKey (heartbeat_queueAccount this params oracle))
       (OracleAccount.publicKey this)).

(** The transaction that [heartbeat] submits, from what it has read. *)
Definition heartbeat_transaction (lib : Library) (this : OracleAccount.t)
    (params : JS.optional OracleAccount.HeartbeatParams.t)
    (oracle : types.OracleAccountData) (queue : types.OracleQueueAccountData)
    (oracles : list PublicKey) : TransactionObject.t :=
  {| TransactionObject.payer := SwitchboardProgram.walletPubkey (OracleAccount.program this);
     TransactionObject.ixns :=
       [ oracleHeartbeat
           {| types.permissionBump := snd (heartbeat_permission lib this params oracle queue) |}
           {| types.hb_oracle := OracleAccount.publicKey this;
              types.hb_oracleAuthority := types.oracleAuthority oracle;
              types.hb_tokenAccount :=
                JS.nullish
                  (OracleAccount.opt_field params OracleAccount.HeartbeatParams.tokenWallet)
                  (types.tokenAccount oracle);
              types.hb_gcOracle :=
                match oracles with
                | [] => Some (OracleAccount.publicKey this)
                | _ :: _ => JS.index oracles (types.gcIdx queue)
                end;
              types.hb_oracleQueue :=
                QueueAccount.publicKey (heartbeat_queueAccount this params oracle);
              types.hb_permission :=
                PermissionAccount.publicKey
                  (fst (heartbeat_permission lib this params oracle queue));
              types.hb_dataBuffer := types.dataBuffer queue |} ];
     TransactionObject.signers :=
       match OracleAccount.opt_field params OracleAccount.HeartbeatParams.authority with
       | Some authority => [authority]
       | None => []
       end |}.

(** ** A small cluster to run the functions on

    Keys are small numbers.  The state of the cluster is a counter that feeds
    [Keypair.generate] and advances with every submission.  One oracle
    account exists, at key 7, on the queue at key 20; the queue at key 60 has
    no oracle.  Permission accounts exist below key 100. *)

Module Demo.

Definition key (n : N) : PublicKey := {| _bn := n |}.

Definition keypair (n : N) : Keypair.t :=
  {| Keypair.publicKey := key n; Keypair.secretKey := [] |}.

Definition fault (what : string) : Fault := {| reason := what |}.

Definition oracle7 : types.OracleAccountData :=
  {| types.name := Buffer.from_utf8 (JS.lit "oracle");
     types.metadata := [];
     types.oracleAuthority := key 11;
     types.tokenAccount := key 12;
     types.queuePubkey := key 20 |}.

Definition queue20 : types.OracleQueueAccountData :=
  {| types.authority := key 21; types.dataBuffer := key 22; types.gcIdx := 1 |}.

Definition wsol : Mint.t := {| Mint.address := key 1003; Mint.decimals := 9 |}.

Definition lib : Library :=
  {| ACCOUNT_SIZE := 165;
     TOKEN_PROGRAM_ID := key 1001;
     ASSOCIATED_TOKEN_PROGRAM_ID := key 1002;
     NATIVE_MINT := key 1003;
     SystemProgram_programId := key 0;
     findProgramAddressSync := fun seeds programId =>
       (key (2000 + N.of_nat (List.length (List.concat seeds)) + _bn programId), 255);
     new_PublicKey := fun s =>
       match s with
       | [] => inl (fault "Invalid public key input")
       | c :: _ => inr (key (c - 48))
       end;
     OracleAccountData_decode := fun data =>
       match data with
       | [] => inl (fault "invalid account discriminator")
       | _ => inr oracle7
       end;
     PermissionAccount_fromSeed := fun program authority granter grantee =>
       ({| PermissionAccount.program := program;
           PermissionAccount.publicKey := key (_bn granter + _bn grantee) |}, 254);
     pack := fun txns => txns;
     toTokenAmount := fun mint amount =>
       match amount with
       | S754_finite false m e =>
         Z.shiftl (Z.pos m * 10 ^ Z.of_N (Mint.decimals mint)) e
       | _ => 0%Z
       end;
     programWallet := fun _ => keypair 42;
     ProgramStateAccount_fromSeed := fun program =>
       ({| ProgramStateAccount.program := program;
           ProgramStateAccount.publicKey := key (70 + _bn (anchor.programId program)) |},
        253);
     getAssociatedTokenAddress := fun mint owner => inr (key (_bn mint + _bn owner)) |}.

Definition net : Cluster N :=
  {| Keypair_generate := fun s => (keypair (5000 + s), s + 1);
     getMinimumBalanceForRentExemption := fun _ _ s => (inr (JS.Number 2039280), s);
     getBalance := fun _ _ s => (inr (JS.Number 1000000000), s);
     OracleAccountData_fetch := fun _ k s =>
       (inr (if _bn k =? 7 then Some oracle7 else None), s);
     QueueAccount_loadData := fun _ s => (inr queue20, s);
     QueueAccount_loadOracles := fun q s =>
       (inr (if _bn (QueueAccount.publicKey q) =? 60 then [] else [key 6; key 7; key 8]), s);
     PermissionAccount_loadData := fun p s =>
       (if _bn (PermissionAccount.publicKey p) <? 100
        then inr {| types.granter := key 20; types.grantee := key 7; types.permissions := 1 |}
        else inl (fault "account not found"), s);
     getOrCreateWrappedUserInstructions := fun program payer fundUpTo user s =>
       (inr (key 300,
             {| TransactionObject.payer := payer;
                TransactionObject.ixns :=
                  [SystemProgram_transfer payer (key 300) fundUpTo;
                   createSyncNativeInstruction (key 300) (key 1001)];
                TransactionObject.signers :=
                  match user with Some u => [u] | None => [] end |}), s);
     signAndSend_reply := fun _ _ s => (inr "signature", s + 1);
     getOrCreateAssociatedTokenAccount := fun _ _ mint owner s =>
       (inr {| spl.address := key (_bn mint + _bn owner);
               spl.owner := owner; spl.amount := 0 |}, s);
     sendAndConfirmTransaction_reply := fun _ _ _ s => (inr "signature", s + 1);
     getAccount := fun _ a s =>
       (inr {| spl.address := a; spl.owner := key 42; spl.amount := Z.of_N s |}, s);
     getTokenMint := fun ps s =>
       (inr (if _bn (ProgramStateAccount.publicKey ps) =? 71 then Some wsol else None), s) |}.

(** Eight bytes, least significant first, for an amount from 0 to 2^64 - 1. *)
Definition u64 (z : Z) : Fault + Buffer.t :=
  if ((0 <=? z) && (z <? 2 ^ 64))%Z
  then inr (rev (be_bytes 8 (Z.to_N z)))
  else inl (fault "amount does not fit in 64 bits").

(** 1.5 *)
Definition one_and_a_half : JS.number := S754_finite false 6755399441055744 (-52).

Definition devnet : Connection := {| rpcEndpoint := "https://api.devnet.solana.com" |}.

Definition program : SwitchboardProgram.t :=
  {| SwitchboardProgram.programId := key 900;
     SwitchboardProgram.walletPubkey := key 42;
     SwitchboardProgram.connection := devnet;
     SwitchboardProgram.mint := wsol;
     SwitchboardProgram.programState :=
       {| ProgramState.publicKey := key 901; ProgramState.bump := 250 |};
     SwitchboardProgram.coder_decode := fun accountName data =>
       if String.eqb accountName "OracleAccountData"
       then match data with
            | [_] => inr oracle7
            | _ => inl (fault "invalid account data")
            end
       else inl (fault "unknown account") |}.

(** The same program handle used from another wallet. *)
Definition program' : SwitchboardProgram.t :=
  {| SwitchboardProgram.programId := key 900;
     SwitchboardProgram.walletPubkey := key 43;
     SwitchboardProgram.connection := devnet;
     SwitchboardProgram.mint := wsol;
     SwitchboardProgram.programState :=
       {| ProgramState.publicKey := key 901; ProgramState.bump := 250 |};
     SwitchboardProgram.coder_decode := fun _ _ => inl (fault "no coder") |}.

Definition oracle (k : N) : OracleAccount.t :=
  {| OracleAccount.program := program; OracleAccount.publicKey := key k |}.

Definition queue (k : N) : QueueAccount.t :=
  {| QueueAccount.program := program; QueueAccount.publicKey := key k |}.

Definition genesis : World N := {| state := 0; outbox := [] |}.

Definition no_stake : OracleStakeParams.t :=
  {| OracleStakeParams.stakeAmount := None;
     OracleStakeParams.funderTokenAccount := None;
     OracleStakeParams.funderAuthority := None |}.

Definition stake_of (amount : JS.number) : OracleStakeParams.t :=
  {| OracleStakeParams.stakeAmount := Some amount;
     OracleStakeParams.funderTokenAccount := None;
     OracleStakeParams.funderAuthority := None |}.

Definition create_params (name metadata : JS.optional JS.str) (stake : OracleStakeParams.t)
  : OracleAccount.CreateParams.t :=
  {| OracleAccount.CreateParams.queueAccount := queue 20;
     OracleAccount.CreateParams.init :=
       {| OracleInitParams.name := name;
          OracleInitParams.metadata := metadata;
          OracleInitParams.authority := None |};
     OracleAccount.CreateParams.stake := stake |}.

(** Forty code units, two of them outside ASCII. *)
Definition long_name : JS.str :=
  JS.lit "switchboard-oracle-" ++ [0xE9; 0x20AC] ++ JS.lit "-0123456789abcdefgh".

Definition stake_params (amount : JS.number) (tokenAccount : JS.optional PublicKey)
  : OracleAccount.StakeParams.t :=
  {| OracleAccount.StakeParams.stake := stake_of amount;
     OracleAccount.StakeParams.tokenAccount := tokenAccount |}.

(** Two anchor handles: the program state of the first has a token mint,
    that of the second has none. *)
Definition anchor_program : anchor.Program :=
  {| anchor.programId := key 1; anchor.provider_connection := devnet |}.

Definition anchor_program_without_mint : anchor.Program :=
  {| anchor.programId := key 5; anchor.provider_connection := devnet |}.

Definition heartbeat_params (queueKey : N) (authority : JS.optional Keypair.t)
  : OracleAccount.HeartbeatParams.t :=
  {| OracleAccount.HeartbeatParams.queueAccount := queue queueKey;
     OracleAccount.HeartbeatParams.tokenWallet := None;
     OracleAccount.HeartbeatParams.queueAuthority := None;
     OracleAccount.HeartbeatParams.queue := None;
     OracleAccount.HeartbeatParams.permission := None;
     OracleAccount.HeartbeatParams.authority := authority |}.

Definition more : Further N :=
  {| mint_getBalance := fun _ k s =>
       (inr (if _bn k =? 12 then Some (JS.Number 3) else None), s);
     toTokenAmountBN := fun mint amount => toTokenAmount lib mint amount;
     mint_getAssociatedAddress := fun mint owner =>
       key (_bn (Mint.address mint) + _bn owner);
     OracleAccountData_toJSON := fun data =>
       [("name", JSON_array []);
        ("oracleAuthority", JSON_key (types.oracleAuthority data));
        ("tokenAccount", JSON_key (types.tokenAccount data));
        ("queuePubkey", JSON_key (types.queuePubkey data))];
     PermissionAccountData_toJSON := fun data =>
       [("granter", JSON_key (types.granter data));
        ("grantee", JSON_key (types.grantee data));
        ("permissions", JSON_number (JS.Number (Z.of_N (types.permissions data))))] |}.

Definition withdraw_params (amount : JS.number) (withdrawAccount : JS.optional PublicKey)
    (authority : JS.optional Keypair.t) : OracleWithdrawParams.t :=
  {| OracleWithdrawParams.amount := amount;
     OracleWithdrawParams.withdrawAccount := withdrawAccount;
     OracleWithdrawParams.authority := authority |}.

End Demo.

(** A string of ASCII characters. *)
Definition ascii_only (s : JS.str) : Prop := Forall (fun c => c < 0x80) s.

(** The number that a sequence of bytes spells, most significant first. *)
Definition of_be_bytes (bytes : Buffer.t) : N :=
  fold_left (fun acc b => acc * 256 + Byte.to_N b) bytes 0.

(** The keys that web3.js accepts: below 2^256. *)
Definition valid_key (k : PublicKey) : Prop := _bn k < 2 ^ 256.

(** The demo cluster with a node that rejects every submission and cannot
    tell the balance of the key 66. *)
Definition rejecting_net : Cluster N :=
  {| Keypair_generate := Keypair_generate Demo.net;
     getMinimumBalanceForRentExemption := getMinimumBalanceForRentExemption Demo.net;
     getBalance := fun connection k s =>
       if _bn k =? 66 then (inl (Demo.fault "node is behind"), s)
       else getBalance Demo.net connection k s;
     OracleAccountData_fetch := OracleAccountData_fetch Demo.net;
     QueueAccount_loadData := QueueAccount_loadData Demo.net;
     QueueAccount_loadOracles := QueueAccount_loadOracles Demo.net;
     PermissionAccount_loadData := PermissionAccount_loadData Demo.net;
     getOrCreateWrappedUserInstructions := getOrCreateWrappedUserInstructions Demo.net;
     signAndSend_reply := fun _ _ s => (inl (Demo.fault "blockhash not found"), s + 1);
     getOrCreateAssociatedTokenAccount := getOrCreateAssociatedTokenAccount Demo.net;
     sendAndConfirmTransaction_reply := fun _ _ _ s =>
       (inl (Demo.fault "blockhash not found"), s + 1);
     getAccount := getAccount Demo.net;
     getTokenMint := getTokenMint Demo.net |}.

(** * Properties *)

(** ** Running asynchronous code *)

Section Running.

Variable S : Type.

Lemma bind_inr A B (m : Async S A) (k : A -> Async S B) w a w' :
  m w = (inr a, w') -> bind m k w = k a w'.
Proof. intros H. unfold bind. rewrite H. reflexivity. Qed.

Lemma bind_inl A B (m : Async S A) (k : A -> Async S B) w e w' :
  m w = (inl e, w') -> bind m k w = (inl e, w').
Proof. intros H. unfold bind. rewrite H. reflexivity. Qed.

Lemma await_answer A (f : S -> (Fault + A) * S) (w : World S) :
  await f w = (call (fst (f (state w))),
               {| state := snd (f (state w)); outbox := outbox w |}).
Proof. unfold await. destruct (f (state w)). reflexivity. Qed.

Lemma draw_answer A (f : S -> A * S) (w : World S) :
  draw f w = (inr (fst (f (state w))),
              {| state := snd (f (state w)); outbox := outbox w |}).
Proof. unfold draw. destruct (f (state w)). reflexivity. Qed.

(** Awaiting an answer submits nothing. *)
Lemma await_outbox A (f : S -> (Fault + A) * S) (w : World S) :
  outbox (snd (await f w)) = outbox w.
Proof. rewrite await_answer. reflexivity. Qed.

Lemma call_inr A (r : Fault + A) (a : A) : call r = inr a -> r = inr a.
Proof. destruct r; simpl; congruence. Qed.

Lemma call_not_Error_ A (r : Fault + A) message : call r <> inl (Error_ message).
Proof. destruct r; simpl; congruence. Qed.

(** The monad laws, at every world. *)
Lemma bind_ret_l A B (a : A) (k : A -> Async S B) w : bind (ret a) k w = k a w.
Proof. reflexivity. Qed.

Lemma bind_ret_r A (m : Async S A) w : bind m ret w = m w.
Proof. unfold bind, ret. destruct (m w) as [[e | a] w']; reflexivity. Qed.

Lemma bind_assoc A B C (m : Async S A) (k : A -> Async S B) (h : B -> Async S C) w :
  bind (bind m k) h w = bind m (fun a => bind (k a) h) w.
Proof. unfold bind. destruct (m w) as [[e | a] w']; reflexivity. Qed.

(** An exception skips the rest and keeps the world it was raised in. *)
Lemma bind_throw A B (e : Error) (k : A -> Async S B) w : bind (throw e) k w = (inl e, w).
Proof. reflexivity. Qed.

End Running.

Ltac inv H := inversion H; subst; clear H.

(** Case analysis on the next awaited answer of a run. *)
Ltac step :=
  match goal with
  | |- context [await ?f ?w] => rewrite (await_answer f w)
  | |- context [draw ?f ?w] => rewrite (draw_answer f w)
  | H : context [await ?f ?w] |- _ => rewrite (await_answer f w) in H
  | H : context [draw ?f ?w] |- _ => rewrite (draw_answer f w) in H
  end.

(** ** Payload of the oracle-init instruction *)

Lemma slice0_length (buf : Buffer.t) (n : nat) :
  (List.length (Buffer.slice0 buf n) <= n)%nat.
Proof. unfold Buffer.slice0. rewrite List.length_firstn. apply Nat.le_min_l. Qed.

(** A short encoding is kept whole. *)
Lemma slice0_short (buf : Buffer.t) (n : nat) :
  (List.length buf <= n)%nat -> Buffer.slice0 buf n = buf.
Proof. intros H. unfold Buffer.slice0. now apply List.firstn_all2. Qed.

Lemma encode_code_point_length (cp : N) :
  (List.length (Buffer.encode_code_point cp) <= 4)%nat.
Proof.
  unfold Buffer.encode_code_point.
  destruct (cp <? 0x80); [simpl; lia |].
  destruct (cp <? 0x800); [simpl; lia |].
  destruct (cp <? 0x10000); simpl; lia.
Qed.

(** A code unit gives at most four bytes. *)
Lemma from_utf8_length (s : JS.str) :
  (List.length (Buffer.from_utf8 s) <= 4 * List.length s)%nat.
Proof.
  assert (H : forall n (s : JS.str), (List.length s <= n)%nat ->
                (List.length (Buffer.from_utf8 s) <= 4 * List.length s)%nat).
  { induction n as [| n IH]; intros [| c rest] Hlen; simpl in Hlen; try (simpl; lia).
    assert (Hrest : (List.length (Buffer.from_utf8 rest) <= 4 * List.length rest)%nat)
      by (apply IH; lia).
    pose proof (encode_code_point_length c) as Hc.
    cbn [Buffer.from_utf8].
    destruct (Buffer.is_high_surrogate c).
    - destruct rest as [| d rest']; [simpl; lia |].
      destruct (Buffer.is_low_surrogate d).
      + assert (Hrest' : (List.length (Buffer.from_utf8 rest')
                          <= 4 * List.length rest')%nat)
          by (apply IH; simpl in Hlen; lia).
        rewrite List.length_app.
        pose proof (encode_code_point_length
                      (0x10000 + (c - 0xD800) * 0x400 + (d - 0xDC00))) as Hpair.
        cbn [List.length]. lia.
      + rewrite List.length_app. cbn [List.length] in *.
        change (List.length Buffer.replacement) with 3%nat. lia.
    - destruct (Buffer.is_low_surrogate c); rewrite List.length_app; cbn [List.length].
      + change (List.length Buffer.replacement) with 3%nat. lia.
      + lia. }
  apply (H (List.length s)). lia.
Qed.

(** A name of at most eight code units is kept whole. *)
Lemma short_name_kept (s : JS.str) :
  (List.length s <= 8)%nat -> Buffer.slice0 (Buffer.from_utf8 s) 32 = Buffer.from_utf8 s.
Proof.
  intros H. apply slice0_short. pose proof (from_utf8_length s). lia.
Qed.

(** C1. The array [txns] that [OracleAccount.createInstructions] hands to the
    packer starts with the oracle-init transaction; its fourth and only
    [oracleInit] instruction carries as [name] the first 32 bytes of the UTF-8
    encoding of [params.name] and as [metadata] the first 128 bytes of the
    encoding of [params.metadata], an absent string counting as the empty
    one.  So the two arrays are at most 32 and 128 bytes long. *)
Theorem createInstructions_name_metadata_bounded :
  forall S (lib : Library) (net : Cluster S) program payer params
         (w w' : World S) oracleAccount txns,
    OracleAccount.createInstructions_txns lib net program payer params w
    = (inr (oracleAccount, txns), w') ->
    exists oracleInitTxn rest args accounts,
      txns = oracleInitTxn :: rest /\
      nth_error (TransactionObject.ixns oracleInitTxn) 3 = Some (oracleInit args accounts) /\
      (forall a c, In (oracleInit a c) (TransactionObject.ixns oracleInitTxn) ->
                   a = args /\ c = accounts) /\
      types.init_name args
      = firstn 32 (Buffer.from_utf8
                     (JS.nullish (OracleInitParams.name
                                    (OracleAccount.CreateParams.init params)) [])) /\
      types.init_metadata args
      = firstn 128 (Buffer.from_utf8
                      (JS.nullish (OracleInitParams.metadata
                                     (OracleAccount.CreateParams.init params)) [])) /\
      (List.length (types.init_name args) <= 32)%nat /\
      (List.length (types.init_metadata args) <= 128)%nat.
Proof.
  intros S lib net program payer params w w' oracleAccount txns.
  unfold OracleAccount.createInstructions_txns.
  unfold bind at 1. step. cbv beta iota.
  destruct (OracleAccount.fromSeed lib program _ _) as [acct bump].
  unfold bind at 1. step.
  destruct (fst (getMinimumBalanceForRentExemption net _ _ _)) as [f | lamports];
    simpl call; cbv beta iota; [discriminate |].
  match goal with
  | |- context [oracleInit ?a ?c] => set (args := a); set (accounts := c)
  end.
  match goal with
  | |- context [{| TransactionObject.payer := ?p; TransactionObject.ixns := ?i;
                   TransactionObject.signers := ?s |}] =>
    set (first := {| TransactionObject.payer := p; TransactionObject.ixns := i;
                     TransactionObject.signers := s |})
  end.
  intros H.
  assert (Hshape : exists rest, txns = first :: rest).
  { destruct (_ && _).
    - unfold bind, ret in H.
      destruct (OracleAccount.stakeInstructions _ _ _ _ _) as [[e | dep] w1];
        inv H. now exists [dep].
    - unfold ret in H. inv H. now exists []. }
  destruct Hshape as [rest ->].
  exists first, rest, args, accounts.
  split; [reflexivity |]. split; [reflexivity |].
  split.
  { intros a c Hin. simpl in Hin.
    destruct Hin as [Hin | [Hin | [Hin | [Hin | []]]]]; try discriminate.
    inv Hin. split; reflexivity. }
  split; [reflexivity |]. split; [reflexivity |].
  split; apply slice0_length.
Qed.

Lemma createInstructions_name_metadata_bounded_witness :
  exists oracleInitTxn rest args accounts,
    [oracleInitTxn] = oracleInitTxn :: rest /\
    nth_error (TransactionObject.ixns oracleInitTxn) 3 = Some (oracleInit args accounts) /\
    (forall a c, In (oracleInit a c) (TransactionObject.ixns oracleInitTxn) ->
                 a = args /\ c = accounts) /\
    types.init_name args = firstn 32 (Buffer.from_utf8 Demo.long_name) /\
    types.init_metadata args = firstn 128 (Buffer.from_utf8 []) /\
    (List.length (types.init_name args) <= 32)%nat /\
    (List.length (types.init_metadata args) <= 128)%nat.
Proof.
  destruct (createInstructions_name_metadata_bounded Demo.lib Demo.net Demo.program
              (Demo.key 42) (Demo.create_params (Some Demo.long_name) None Demo.no_stake)
              Demo.genesis eq_refl)
    as (first & rest & args & accounts & Htx & H).
  exists first, rest, args, accounts. split; [| exact H].
  injection Htx as _ Hrest. rewrite <- Hrest. reflexivity.
Defined.

Example long_name_is_cut :
  List.length (Buffer.from_utf8 Demo.long_name) = 43%nat /\
  firstn 32 (Buffer.from_utf8 Demo.long_name)
  = Buffer.from_utf8 (JS.lit "switchboard-oracle-") ++
    map Buffer.u8 [0xC3; 0xA9; 0xE2; 0x82; 0xAC] ++ Buffer.from_utf8 (JS.lit "-0123456").
Proof. split; reflexivity. Qed.

(** ** The stake amount check *)

(** [!a || a <= 0] is the negation of [a > 0], whatever [a] holds. *)
Lemma stake_guard_gt0 (a : JS.optional JS.number) :
  negb (JS.truthy_opt a) || JS.le0 a = negb (JS.gt0 a).
Proof. destruct a as [[[] | [] | | [] m e] |]; reflexivity. Qed.

(** [a && a > 0] is [a > 0]. *)
Lemma stake_wanted_gt0 (a : JS.optional JS.number) :
  JS.truthy_opt a && JS.gt0 a = JS.gt0 a.
Proof. destruct a as [[[] | [] | | [] m e] |]; reflexivity. Qed.

Lemma gt0_false_cases (a : JS.optional JS.number) :
  JS.gt0 a = false <-> absent_zero_or_negative a = true \/ a = Some JS.NaN.
Proof.
  destruct a as [[[] | [] | | [] m e] |]; simpl; split; intros H;
    try discriminate; try reflexivity; auto.
  all: destruct H as [H | H]; discriminate.
Qed.

Section Stake.

Variable S : Type.
Variable lib : Library.
Variable net : Cluster S.

Lemma loadData_outcome (this : OracleAccount.t) (w : World S) :
  let r := OracleAccountData_fetch net (OracleAccount.program this)
             (OracleAccount.publicKey this) (state w) in
  OracleAccount.loadData net this w
  = (match fst r with
     | inl f => inl (Rejected f)
     | inr None => inl (AccountNotFoundError (OracleAccount.publicKey this))
     | inr (Some data) => inr data
     end,
     {| state := snd r; outbox := outbox w |}).
Proof.
  unfold OracleAccount.loadData, bind. step. cbv zeta.
  destruct (fst (OracleAccountData_fetch net _ _ _)) as [f | [data |]]; reflexivity.
Qed.

Lemma loadData_not_Error_ (this : OracleAccount.t) (w : World S) message :
  fst (OracleAccount.loadData net this w) <> inl (Error_ message).
Proof.
  rewrite loadData_outcome. cbv zeta.
  destruct (fst (OracleAccountData_fetch net _ _ _)) as [f | [data |]]; simpl; congruence.
Qed.

Lemma loadData_outbox (this : OracleAccount.t) (w : World S) :
  outbox (snd (OracleAccount.loadData net this w)) = outbox w.
Proof. rewrite loadData_outcome. reflexivity. Qed.

(** C2, as the code has it.  [stakeInstructions] raises 'stake amount should
    be greater than 0' exactly when [params.stakeAmount > 0] is false, that
    is when the amount is absent, zero, negative or NaN; nothing else changes
    then.  For an amount greater than 0 the check passes, and once the token
    wallet is known (given, or read from the oracle account) and the mint has
    answered with the funder's wallet and the wrapping transaction, the
    result is that transaction with the transfer of the stake appended. *)
Theorem stakeInstructions_preflight :
  forall (this : OracleAccount.t) (payer : PublicKey)
         (params : OracleAccount.StakeParams.t) (w : World S),
    let stakeAmount :=
      OracleStakeParams.stakeAmount (OracleAccount.StakeParams.stake params) in
    let funderAuthority :=
      OracleStakeParams.funderAuthority (OracleAccount.StakeParams.stake params) in
    (fst (OracleAccount.stakeInstructions lib net this payer params w)
     = inl (Error_ "stake amount should be greater than 0")
     <-> JS.gt0 stakeAmount = false) /\
    (JS.gt0 stakeAmount = false
     <-> absent_zero_or_negative stakeAmount = true \/ stakeAmount = Some JS.NaN) /\
    (JS.gt0 stakeAmount = false ->
     snd (OracleAccount.stakeInstructions lib net this payer params w) = w) /\
    (forall amount tokenWallet w1 funderTokenAccount wrapFundsTxn s2,
        stakeAmount = Some amount ->
        JS.gt amount JS.zero = true ->
        match OracleAccount.StakeParams.tokenAccount params with
        | Some k => ret k
        | None => bind (OracleAccount.loadData net this)
                       (fun data => ret (types.tokenAccount data))
        end w = (inr tokenWallet, w1) ->
        getOrCreateWrappedUserInstructions net (OracleAccount.program this) payer amount
          funderAuthority (state w1)
        = (inr (funderTokenAccount, wrapFundsTxn), s2) ->
        OracleAccount.stakeInstructions lib net this payer params w
        = (inr (TransactionObject.add wrapFundsTxn
                  (createTransferInstruction funderTokenAccount tokenWallet
                     (JS.nullish (option_map Keypair.publicKey funderAuthority) payer)
                     (amount_bigint
                        (toTokenAmount lib
                           (SwitchboardProgram.mint (OracleAccount.program this)) amount))
                     [] None)),
           {| state := s2; outbox := outbox w1 |})).
Proof.
  intros this payer params w stakeAmount funderAuthority.
  unfold OracleAccount.stakeInstructions.
  fold stakeAmount. fold funderAuthority.
  rewrite stake_guard_gt0.
  split; [| split; [apply gt0_false_cases | split]].
  - destruct (JS.gt0 stakeAmount) eqn:Hgt; simpl negb; cbv iota.
    + split; [| discriminate]. intros H. exfalso.
      destruct stakeAmount as [amount |]; [| discriminate Hgt].
      cbn [negb] in H. unfold bind in H.
      destruct (OracleAccount.StakeParams.tokenAccount params) as [k |].
      * unfold ret in H at 1. cbv iota beta in H. step.
        destruct (fst (getOrCreateWrappedUserInstructions net _ _ _ _ _))
          as [f | [fta wrap]]; simpl in H; discriminate.
      * pose proof (loadData_not_Error_ this w
                      (message := "stake amount should be greater than 0")) as Hload.
        destruct (OracleAccount.loadData net this w) as [[e | data] w1].
        -- simpl in H, Hload. congruence.
        -- unfold ret in H at 1. cbv iota beta in H. step.
           destruct (fst (getOrCreateWrappedUserInstructions net _ _ _ _ _))
          as [f | [fta wrap]]; simpl in H; discriminate.
    + split; reflexivity.
  - intros ->. reflexivity.
  - intros amount tokenWallet w1 fta wrap s2 Hamount Hgt Hwallet Hwrap.
    rewrite Hamount.
    change (JS.gt0 (Some amount)) with (JS.gt amount JS.zero).
    rewrite Hgt. cbn [negb].
    erewrite bind_inr by exact Hwallet.
    unfold bind. step. rewrite Hwrap. reflexivity.
Qed.

End Stake.

Lemma stakeInstructions_preflight_witness :
  JS.gt (JS.Number 1) JS.zero = true /\
  exists wrapFundsTxn,
    OracleAccount.stakeInstructions Demo.lib Demo.net (Demo.oracle 7) (Demo.key 42)
      (Demo.stake_params (JS.Number 1) None) Demo.genesis
    = (inr (TransactionObject.add wrapFundsTxn
              (createTransferInstruction (Demo.key 300) (Demo.key 12) (Demo.key 42)
                 (amount_bigint 1000000000) [] None)),
       Demo.genesis).
Proof.
  split; [reflexivity |].
  eexists.
  exact (proj2 (proj2 (proj2
           (stakeInstructions_preflight Demo.lib Demo.net (Demo.oracle 7) (Demo.key 42)
              (Demo.stake_params (JS.Number 1) None) Demo.genesis)))
           (JS.Number 1) (Demo.key 12) Demo.genesis (Demo.key 300) _ 0
           eq_refl eq_refl eq_refl eq_refl).
Defined.

(** C2, as stated, fails twice.  NaN is neither absent, zero nor negative,
    and is refused with the stake amount error.  An amount of 1 passes the
    check, yet with no token account given and no oracle account at the key
    no transaction object is built: the load of the account raises. *)
Lemma stakeInstructions_claim_counterexample :
  (fst (OracleAccount.stakeInstructions Demo.lib Demo.net (Demo.oracle 7) (Demo.key 42)
          (Demo.stake_params JS.NaN None) Demo.genesis)
   = inl (Error_ "stake amount should be greater than 0")
   /\ absent_zero_or_negative (Some JS.NaN) = false)
  /\
  (JS.gt0 (Some (JS.Number 1)) = true
   /\ fst (OracleAccount.stakeInstructions Demo.lib Demo.net (Demo.oracle 8) (Demo.key 42)
             (Demo.stake_params (JS.Number 1) None) Demo.genesis)
      = inl (AccountNotFoundError (Demo.key 8))).
Proof. repeat split; reflexivity. Qed.

(** ** Packing the creation transactions *)

Section Create.

Variable S : Type.
Variable lib : Library.
Variable net : Cluster S.

(** C3. When [OracleAccount.createInstructions] gets as far as the packer,
    what it packs is the oracle-init transaction of four instructions,
    followed by the transaction of [stakeInstructions] for the fresh token
    wallet exactly when [params.stakeAmount] is present and greater than 0.
    It raises 'Expected a single TransactionObject' exactly when the packer
    returns more than one transaction, and returns the one transaction when
    the packer returns one. *)
Theorem createInstructions_packs_into_one :
  forall (program : SwitchboardProgram.t) (payer : PublicKey)
         (params : OracleAccount.CreateParams.t) (w w' : World S)
         (oracleAccount : OracleAccount.t) (txns : list TransactionObject.t),
    OracleAccount.createInstructions_txns lib net program payer params w
    = (inr (oracleAccount, txns), w') ->
    let stake := OracleAccount.CreateParams.stake params in
    let packed := pack lib txns in
    let result := OracleAccount.createInstructions lib net program payer params w in
    (exists oracleInitTxn,
        List.length (TransactionObject.ixns oracleInitTxn) = 4%nat /\
        ((JS.gt0 (OracleStakeParams.stakeAmount stake) = false /\ txns = [oracleInitTxn])
         \/
         (JS.gt0 (OracleStakeParams.stakeAmount stake) = true /\
          exists depositTxn tokenWallet w1,
            txns = [oracleInitTxn; depositTxn] /\
            OracleAccount.stakeInstructions lib net oracleAccount payer
              {| OracleAccount.StakeParams.stake := stake;
                 OracleAccount.StakeParams.tokenAccount := Some tokenWallet |} w1
            = (inr depositTxn, w')))) /\
    (fst result = inl (Error_ "Expected a single TransactionObject")
     <-> (1 < List.length packed)%nat) /\
    (forall txn, packed = [txn] -> result = (inr (oracleAccount, Some txn), w')) /\
    snd result = w'.
Proof.
  intros program payer params w w' oracleAccount txns Htxns stake packed result.
  split.
  - revert Htxns. unfold OracleAccount.createInstructions_txns.
    fold stake. rewrite stake_wanted_gt0.
    unfold bind at 1. step. cbv beta iota.
    destruct (OracleAccount.fromSeed lib program _ _) as [acct bump].
    unfold bind at 1. step.
    destruct (fst (getMinimumBalanceForRentExemption net _ _ _)) as [f | lamports];
      simpl call; cbv beta iota; [discriminate |].
    match goal with
    | |- context [{| TransactionObject.payer := ?p; TransactionObject.ixns := ?i;
                     TransactionObject.signers := ?s |}] =>
      set (first := {| TransactionObject.payer := p; TransactionObject.ixns := i;
                       TransactionObject.signers := s |})
    end.
    intros H. exists first. split; [reflexivity |].
    destruct (JS.gt0 (OracleStakeParams.stakeAmount stake)).
    + right. split; [reflexivity |].
      unfold bind, ret in H.
      match type of H with
      | context [OracleAccount.stakeInstructions _ _ _ _
                   {| OracleAccount.StakeParams.stake := _;
                      OracleAccount.StakeParams.tokenAccount := Some ?k |} ?w0] =>
        destruct (OracleAccount.stakeInstructions lib net acct payer
                    {| OracleAccount.StakeParams.stake := stake;
                       OracleAccount.StakeParams.tokenAccount := Some k |} w0)
          as [[e | dep] w1] eqn:Hstake; inv H;
        exists dep, k, w0; split; [reflexivity | exact Hstake]
      end.
    + left. unfold ret in H. inv H. split; reflexivity.
  - assert (Hresult :
              result = (if (1 <? List.length packed)%nat
                        then inl (Error_ "Expected a single TransactionObject")
                        else inr (oracleAccount, JS.index packed 0), w')).
    { unfold result, packed, OracleAccount.createInstructions.
      erewrite bind_inr by exact Htxns. cbv beta iota zeta.
      destruct (1 <? List.length (pack lib txns))%nat; reflexivity. }
    rewrite Hresult. split; [| split].
    + destruct (1 <? List.length packed)%nat eqn:Hlen; simpl.
      * apply Nat.ltb_lt in Hlen. split; auto.
      * apply Nat.ltb_ge in Hlen. split; [discriminate | lia].
    + intros txn ->. reflexivity.
    + destruct (1 <? List.length packed)%nat; reflexivity.
Qed.

End Create.

Lemma createInstructions_packs_into_one_witness :
  exists oracleInitTxn,
    List.length (TransactionObject.ixns oracleInitTxn) = 4%nat /\
    OracleAccount.createInstructions Demo.lib Demo.net Demo.program (Demo.key 42)
      (Demo.create_params (Some Demo.long_name) None Demo.no_stake) Demo.genesis
    = (inr (fst (OracleAccount.fromSeed Demo.lib Demo.program (Demo.key 20) (Demo.key 5000)),
            Some oracleInitTxn),
       {| state := 1; outbox := [] |}).
Proof.
  eexists. split; [| refine (proj1 (proj2 (proj2
    (createInstructions_packs_into_one Demo.lib Demo.net Demo.program (Demo.key 42)
       (Demo.create_params (Some Demo.long_name) None Demo.no_stake) Demo.genesis
       eq_refl))) _ eq_refl)].
  reflexivity.
Defined.

(** With a stake the demo packer, which merges nothing, returns two
    transactions and the creation is refused. *)
Example createInstructions_refuses_two :
  fst (OracleAccount.createInstructions Demo.lib Demo.net Demo.program (Demo.key 42)
         (Demo.create_params None None (Demo.stake_of (JS.Number 1))) Demo.genesis)
  = inl (Error_ "Expected a single TransactionObject").
Proof. reflexivity. Qed.

(** ** Derived addresses *)

Example OracleAccountData_seed :
  Buffer.from_utf8 (JS.lit "OracleAccountData")
  = map Buffer.u8 [79; 114; 97; 99; 108; 101; 65; 99; 99; 111; 117; 110; 116;
                   68; 97; 116; 97].
Proof. reflexivity. Qed.

Example toBuffer_big_endian :
  toBuffer (Demo.key 0x0102) = repeat Byte.x00 30 ++ [Byte.x01; Byte.x02].
Proof. reflexivity. Qed.

Lemma be_bytes_length (len : nat) (n : N) : List.length (be_bytes len n) = len.
Proof.
  revert n. induction len as [| k IH]; intros n; simpl.
  - reflexivity.
  - rewrite List.length_app, IH. simpl. lia.
Qed.

(** C4. [OracleAccount.fromSeed] is a function of its arguments alone: it
    asks [findProgramAddressSync] for the address of the seeds
    'OracleAccountData', queue key, wallet key under the program identifier
    and returns the account at that address with the bump.  Two program
    handles with the same identifier give the same key and the same bump,
    whatever else they hold. *)
Theorem fromSeed_deterministic :
  forall (lib : Library) (program program' : SwitchboardProgram.t)
         (queue wallet : PublicKey),
    SwitchboardProgram.programId program = SwitchboardProgram.programId program' ->
    let derived :=
      findProgramAddressSync lib
        [Buffer.from_utf8 (JS.lit "OracleAccountData"); toBuffer queue; toBuffer wallet]
        (SwitchboardProgram.programId program) in
    OracleAccount.fromSeed lib program queue wallet
    = ({| OracleAccount.program := program; OracleAccount.publicKey := fst derived |},
       snd derived) /\
    OracleAccount.publicKey (fst (OracleAccount.fromSeed lib program' queue wallet))
    = OracleAccount.publicKey (fst (OracleAccount.fromSeed lib program queue wallet)) /\
    snd (OracleAccount.fromSeed lib program' queue wallet)
    = snd (OracleAccount.fromSeed lib program queue wallet).
Proof.
  intros lib program program' queue wallet Hid derived.
  unfold OracleAccount.fromSeed. rewrite <- Hid. fold derived.
  destruct derived as [key bump]. repeat split.
Qed.

Lemma fromSeed_deterministic_witness :
  Demo.program <> Demo.program' /\
  OracleAccount.publicKey
    (fst (OracleAccount.fromSeed Demo.lib Demo.program' (Demo.key 20) (Demo.key 12)))
  = OracleAccount.publicKey
      (fst (OracleAccount.fromSeed Demo.lib Demo.program (Demo.key 20) (Demo.key 12))) /\
  snd (OracleAccount.fromSeed Demo.lib Demo.program' (Demo.key 20) (Demo.key 12))
  = snd (OracleAccount.fromSeed Demo.lib Demo.program (Demo.key 20) (Demo.key 12)).
Proof.
  split; [intros H; discriminate (f_equal SwitchboardProgram.walletPubkey H) |].
  exact (proj2 (fromSeed_deterministic Demo.lib Demo.program Demo.program'
                  (Demo.key 20) (Demo.key 12) eq_refl)).
Defined.

(** ** Loading and decoding *)

Section Loading.

Variable S : Type.
Variable lib : Library.
Variable net : Cluster S.

(** C5. [OracleAccount.load] returns the account built for the key together
    with exactly what [loadData] returns for it, and fails as [loadData]
    fails.  [loadData] raises [AccountNotFoundError] exactly when the fetch
    answers [null], and returns the fetched fields otherwise.  A base58
    string is first turned into the key. *)
Theorem load_pairs_account_with_loadData :
  forall (program : SwitchboardProgram.t) (key : PublicKey) (w : World S),
    let account :=
      {| OracleAccount.program := program; OracleAccount.publicKey := key |} in
    let fetched := OracleAccountData_fetch net program key (state w) in
    let after := {| state := snd fetched; outbox := outbox w |} in
    (forall state w',
        OracleAccount.loadData net account w = (inr state, w') ->
        OracleAccount.load lib net program (inl key) w = (inr (account, state), w')) /\
    (forall e w',
        OracleAccount.loadData net account w = (inl e, w') ->
        OracleAccount.load lib net program (inl key) w = (inl e, w')) /\
    (forall base58,
        new_PublicKey lib base58 = inr key ->
        OracleAccount.load lib net program (inr base58) w
        = OracleAccount.load lib net program (inl key) w) /\
    ((exists address,
         fst (OracleAccount.loadData net account w) = inl (AccountNotFoundError address))
     <-> fst fetched = inr None) /\
    (fst fetched = inr None ->
     OracleAccount.loadData net account w = (inl (AccountNotFoundError key), after)) /\
    (forall data,
        fst fetched = inr (Some data) ->
        OracleAccount.loadData net account w = (inr data, after)).
Proof.
  intros program key w account fetched after.
  pose proof (loadData_outcome net account w) as Hload.
  cbv zeta in Hload. simpl OracleAccount.program in Hload.
  simpl OracleAccount.publicKey in Hload. fold fetched in Hload. fold after in Hload.
  repeat split.
  - intros state w' H. unfold OracleAccount.load, lift, bind at 1.
    fold account. erewrite bind_inr by exact H. reflexivity.
  - intros e w' H. unfold OracleAccount.load, lift, bind at 1.
    fold account. erewrite bind_inl by exact H. reflexivity.
  - intros base58 H. unfold OracleAccount.load. rewrite H. reflexivity.
  - intros [address H]. rewrite Hload in H.
    destruct (fst fetched) as [f | [data |]]; simpl in H; congruence.
  - intros H. exists key. rewrite Hload, H. reflexivity.
  - intros H. rewrite Hload, H. reflexivity.
  - intros data H. rewrite Hload, H. reflexivity.
Qed.

(** C10. When the generated codec decodes the buffer, [OracleAccount.decode]
    returns its result, and the coder of the program has no part in it.
    When the generated codec raises, the result is that of the coder for the
    account name 'OracleAccountData', value or exception. *)
Theorem decode_prefers_generated_codec :
  forall (this : OracleAccount.t) (data : Buffer.t),
    (forall decoded,
        OracleAccountData_decode lib data = inr decoded ->
        OracleAccount.decode lib this data = inr decoded /\
        forall other : OracleAccount.t,
          OracleAccount.decode lib other data = OracleAccount.decode lib this data) /\
    (forall f,
        OracleAccountData_decode lib data = inl f ->
        OracleAccount.decode lib this data
        = call (SwitchboardProgram.coder_decode (OracleAccount.program this)
                  "OracleAccountData" data)).
Proof.
  intros this data. unfold OracleAccount.decode, OracleAccount.accountName. split.
  - intros decoded H. rewrite H. simpl. split; reflexivity.
  - intros f H. rewrite H. reflexivity.
Qed.

End Loading.

Lemma load_pairs_account_with_loadData_witness :
  OracleAccount.load Demo.lib Demo.net Demo.program (inl (Demo.key 7)) Demo.genesis
  = (inr (Demo.oracle 7, Demo.oracle7), Demo.genesis) /\
  OracleAccount.load Demo.lib Demo.net Demo.program (inr (JS.lit "7")) Demo.genesis
  = (inr (Demo.oracle 7, Demo.oracle7), Demo.genesis) /\
  OracleAccount.loadData Demo.net (Demo.oracle 8) Demo.genesis
  = (inl (AccountNotFoundError (Demo.key 8)), Demo.genesis).
Proof.
  pose proof (load_pairs_account_with_loadData Demo.lib Demo.net Demo.program
                (Demo.key 7) Demo.genesis) as (Hok & _ & Hstr & _).
  pose proof (load_pairs_account_with_loadData Demo.lib Demo.net Demo.program
                (Demo.key 8) Demo.genesis) as (_ & _ & _ & _ & Hnull & _).
  split; [exact (Hok Demo.oracle7 Demo.genesis eq_refl) |].
  split; [| exact (Hnull eq_refl)].
  rewrite (Hstr (JS.lit "7") eq_refl).
  exact (Hok Demo.oracle7 Demo.genesis eq_refl).
Defined.

Lemma decode_prefers_generated_codec_witness :
  OracleAccount.decode Demo.lib (Demo.oracle 7) [Byte.x01; Byte.x02] = inr Demo.oracle7 /\
  OracleAccount.decode Demo.lib (Demo.oracle 7) []
  = inl (Rejected (Demo.fault "invalid account data")).
Proof.
  pose proof (decode_prefers_generated_codec Demo.lib (Demo.oracle 7)
                [Byte.x01; Byte.x02]) as (Hok & _).
  pose proof (decode_prefers_generated_codec Demo.lib (Demo.oracle 7) [])
    as (_ & Hfail).
  split.
  - exact (proj1 (Hok Demo.oracle7 eq_refl)).
  - exact (Hfail (Demo.fault "invalid account discriminator") eq_refl).
Defined.

(** ** Token utilities *)

Section Token.

Variable S : Type.
Variable lib : Library.
Variable net : Cluster S.

Variable u64 : Z -> Fault + Buffer.t.

(** The two builders accept an amount together or refuse it together, with
    the same exception. *)
Lemma amount_builders (amount : JS.number)
    (fromPubkey toPubkey source destination owner programId : PublicKey)
    (multiSigners : list Keypair.t) :
  match token.encode_amount u64 amount with
  | inl e =>
    token.SystemProgram_transfer_call u64 fromPubkey toPubkey amount = inl e /\
    token.createTransferInstruction_call u64 source destination owner amount
      multiSigners programId = inl e
  | inr _ =>
    token.SystemProgram_transfer_call u64 fromPubkey toPubkey amount
    = inr (SystemProgram_transfer fromPubkey toPubkey amount) /\
    token.createTransferInstruction_call u64 source destination owner amount
      multiSigners programId
    = inr (createTransferInstruction source destination owner (amount_number amount)
             multiSigners (Some programId))
  end.
Proof.
  unfold token.SystemProgram_transfer_call, token.createTransferInstruction_call.
  destruct (token.encode_amount u64 amount); split; reflexivity.
Qed.

(** [transferWrappedSol] once the reads have answered: the builders, then
    the submission and the final read. *)
Lemma transferWrappedSol_after_reads
    (connection : Connection) (payerKeypair : Keypair.t) (amount : JS.number)
    (w : World S) payerBalance s0 account s1 ephemeralAccount s2 ephemeralWallet :
  let payer := Keypair.publicKey payerKeypair in
  let tx :=
    [ createAssociatedTokenAccountInstruction payer ephemeralWallet payer
        (NATIVE_MINT lib) (TOKEN_PROGRAM_ID lib) (ASSOCIATED_TOKEN_PROGRAM_ID lib);
      SystemProgram_transfer payer ephemeralWallet amount;
      createSyncNativeInstruction ephemeralWallet (TOKEN_PROGRAM_ID lib);
      createTransferInstruction ephemeralWallet (spl.address account) payer
        (amount_number amount) [payerKeypair; ephemeralAccount]
        (Some (TOKEN_PROGRAM_ID lib));
      createCloseAccountInstruction ephemeralWallet payer payer
        [payerKeypair; ephemeralAccount] (TOKEN_PROGRAM_ID lib) ] in
  let signers := [payerKeypair; ephemeralAccount] in
  getBalance net connection payer (state w) = (inr payerBalance, s0) ->
  getOrCreateAssociatedTokenAccount net connection payerKeypair (NATIVE_MINT lib) payer s0
  = (inr account, s1) ->
  Keypair_generate net s1 = (ephemeralAccount, s2) ->
  getAssociatedTokenAddress lib (NATIVE_MINT lib) (Keypair.publicKey ephemeralAccount)
  = inr ephemeralWallet ->
  token.transferWrappedSol lib net u64 connection payerKeypair amount w
  = match token.encode_amount u64 amount with
    | inl e => (inl e, {| state := s2; outbox := outbox w |})
    | inr _ =>
      let sent := sendAndConfirmTransaction_reply net connection tx signers s2 in
      let read := getAccount net connection (spl.address account) (snd sent) in
      let out := outbox w ++ [Sent_and_confirmed connection tx signers] in
      match fst sent with
      | inl f => (inl (Rejected f), {| state := snd sent; outbox := out |})
      | inr _ =>
        (match fst read with
         | inl f => inl (Rejected f)
         | inr finalBalance => inr (JS.Number (spl.amount finalBalance))
         end,
         {| state := snd read; outbox := out |})
      end
    end.
Proof.
  intros payer tx signers Hbalance Hwallet Hgenerate Haddress.
  unfold token.transferWrappedSol, token.sendAndConfirmTransaction, submit, lift.
  unfold bind at 1. step. fold payer. rewrite Hbalance. simpl.
  unfold bind at 1. unfold bind at 1. step. simpl state. rewrite Hwallet. simpl.
  unfold bind at 1. step. simpl state. rewrite Hgenerate. simpl.
  unfold bind at 1. rewrite Haddress. simpl call. cbv beta iota.
  fold payer.
  pose proof (amount_builders amount payer ephemeralWallet ephemeralWallet
                (spl.address account) payer (TOKEN_PROGRAM_ID lib)
                [payerKeypair; ephemeralAccount]) as Hbuilders.
  destruct (token.encode_amount u64 amount) as [e | bytes];
    destruct Hbuilders as [Htransfer Htoken].
  - unfold bind at 1. rewrite Htransfer. reflexivity.
  - unfold bind at 1. rewrite Htransfer. cbv beta iota.
    unfold bind at 1. rewrite Htoken. cbv beta iota.
    unfold bind at 1. unfold bind at 1. cbv beta iota. step. simpl state.
    fold tx. fold signers. cbv zeta.
    destruct (fst (sendAndConfirmTransaction_reply net connection tx signers s2))
      as [f | signature]; simpl call; cbv beta iota; [reflexivity |].
    unfold bind at 1. step. simpl state. simpl outbox.
    destruct (fst (getAccount net connection (spl.address account) _))
      as [f | finalBalance]; reflexivity.
Qed.

(** Whatever the cluster answers, [transferWrappedSol] submits nothing or
    one transaction. *)
Lemma transferWrappedSol_outbox
    (connection : Connection) (payerKeypair : Keypair.t) (amount : JS.number)
    (w : World S) :
  exists sent,
    outbox (snd (token.transferWrappedSol lib net u64 connection payerKeypair amount w))
    = outbox w ++ sent /\ (List.length sent <= 1)%nat.
Proof.
  destruct (getBalance net connection (Keypair.publicKey payerKeypair) (state w))
    as [[f | payerBalance] s0] eqn:Hbalance.
  { exists []. rewrite List.app_nil_r. split; [| simpl; lia].
    unfold token.transferWrappedSol. unfold bind at 1. step. rewrite Hbalance.
    reflexivity. }
  destruct (getOrCreateAssociatedTokenAccount net connection payerKeypair (NATIVE_MINT lib)
              (Keypair.publicKey payerKeypair) s0) as [[f | account] s1] eqn:Hwallet.
  { exists []. rewrite List.app_nil_r. split; [| simpl; lia].
    unfold token.transferWrappedSol. unfold bind at 1. step. rewrite Hbalance. simpl.
    unfold bind at 1. unfold bind at 1. step. simpl state. rewrite Hwallet.
    reflexivity. }
  destruct (Keypair_generate net s1) as [ephemeralAccount s2] eqn:Hgenerate.
  destruct (getAssociatedTokenAddress lib (NATIVE_MINT lib)
              (Keypair.publicKey ephemeralAccount)) as [f | ephemeralWallet] eqn:Haddress.
  { exists []. rewrite List.app_nil_r. split; [| simpl; lia].
    unfold token.transferWrappedSol, lift. unfold bind at 1. step. rewrite Hbalance. simpl.
    unfold bind at 1. unfold bind at 1. step. simpl state. rewrite Hwallet. simpl.
    unfold bind at 1. step. simpl state. rewrite Hgenerate. simpl.
    unfold bind at 1. rewrite Haddress. reflexivity. }
  rewrite (transferWrappedSol_after_reads connection payerKeypair amount w
             Hbalance Hwallet Hgenerate Haddress).
  cbv zeta. destruct (token.encode_amount u64 amount) as [e | bytes].
  { exists []. rewrite List.app_nil_r. split; [reflexivity | simpl; lia]. }
  destruct (fst (sendAndConfirmTransaction_reply net _ _ _ _)).
  - eexists [_]. split; [reflexivity | simpl; lia].
  - eexists [_]. split; [reflexivity | simpl; lia].
Qed.

(** C6, as the code has it.  Once the reads have answered, what
    [transferWrappedSol] does depends on the amount.  The two builders that
    carry it convert it with [BigInt] and write it in 64 bits: for an amount
    that is not an integer, and for one the layout refuses, the exception of
    the builder is raised and nothing is submitted.  For an amount they
    accept, and when the submission and the final read answer, one
    transaction is submitted, signed by the payer and the ephemeral keypair,
    whose instructions are in this order: create the ephemeral associated
    account of the native mint, transfer [amount] lamports from the payer to
    it, sync its native balance, transfer [amount] tokens from it to the
    payer's associated wallet, close it towards the payer.  The result is
    then the amount that [getAccount] reports for the payer's associated
    wallet after the confirmation, as a number. *)
Theorem transferWrappedSol_single_transaction :
  forall (connection : Connection) (payerKeypair : Keypair.t) (amount : JS.number)
         (w : World S)
         payerBalance s0 account s1 ephemeralAccount s2 ephemeralWallet,
    let payer := Keypair.publicKey payerKeypair in
    let tx :=
      [ createAssociatedTokenAccountInstruction payer ephemeralWallet payer
          (NATIVE_MINT lib) (TOKEN_PROGRAM_ID lib) (ASSOCIATED_TOKEN_PROGRAM_ID lib);
        SystemProgram_transfer payer ephemeralWallet amount;
        createSyncNativeInstruction ephemeralWallet (TOKEN_PROGRAM_ID lib);
        createTransferInstruction ephemeralWallet (spl.address account) payer
          (amount_number amount) [payerKeypair; ephemeralAccount]
          (Some (TOKEN_PROGRAM_ID lib));
        createCloseAccountInstruction ephemeralWallet payer payer
          [payerKeypair; ephemeralAccount] (TOKEN_PROGRAM_ID lib) ] in
    let result := token.transferWrappedSol lib net u64 connection payerKeypair amount w in
    getBalance net connection payer (state w) = (inr payerBalance, s0) ->
    getOrCreateAssociatedTokenAccount net connection payerKeypair (NATIVE_MINT lib) payer s0
    = (inr account, s1) ->
    Keypair_generate net s1 = (ephemeralAccount, s2) ->
    getAssociatedTokenAddress lib (NATIVE_MINT lib) (Keypair.publicKey ephemeralAccount)
    = inr ephemeralWallet ->
    (forall z bytes signature s3 finalBalance s4,
        JS.BigInt amount = Some z ->
        u64 z = inr bytes ->
        sendAndConfirmTransaction_reply net connection tx [payerKeypair; ephemeralAccount]
          s2 = (inr signature, s3) ->
        getAccount net connection (spl.address account) s3 = (inr finalBalance, s4) ->
        result
        = (inr (JS.Number (spl.amount finalBalance)),
           {| state := s4;
              outbox := outbox w ++
                        [Sent_and_confirmed connection tx
                           [payerKeypair; ephemeralAccount]] |})) /\
    (JS.BigInt amount = None ->
     result = (inl (Rejected token.RangeError), {| state := s2; outbox := outbox w |})) /\
    (forall z f,
        JS.BigInt amount = Some z ->
        u64 z = inl f ->
        result = (inl (Rejected f), {| state := s2; outbox := outbox w |})).
Proof.
  intros connection payerKeypair amount w payerBalance s0 account s1 ephemeralAccount s2
         ephemeralWallet payer tx result Hbalance Hwallet Hgenerate Haddress.
  pose proof (transferWrappedSol_after_reads connection payerKeypair amount w
                Hbalance Hwallet Hgenerate Haddress) as Hrun.
  cbv zeta in Hrun. fold payer in Hrun. fold tx in Hrun. fold result in Hrun.
  unfold token.encode_amount in Hrun.
  split; [| split].
  - intros z bytes signature s3 finalBalance s4 Hz Hbytes Hsend Hfinal.
    rewrite Hrun, Hz, Hbytes. simpl call. cbv iota.
    rewrite Hsend. simpl fst. simpl snd. cbv iota. rewrite Hfinal. reflexivity.
  - intros Hz. rewrite Hrun, Hz. reflexivity.
  - intros z f Hz Hf. rewrite Hrun, Hz, Hf. reflexivity.
Qed.

(** C7. [getOrCreateSwitchboardTokenAccount] asks for the associated token
    account of the payer for the given mint and returns its address; without
    a mint it asks the program state account derived from the program for
    its token mint and uses that one.  It raises 'failed to get associated
    token account' exactly when no mint is given and the program state
    answers with none. *)
Theorem getOrCreateSwitchboardTokenAccount_cases :
  forall (program : anchor.Program) (switchboardMint : JS.optional Mint.t)
         (payer : JS.optional Keypair.t) (w : World S),
    let payer' := JS.nullish payer (programWallet lib program) in
    let programState := fst (ProgramStateAccount_fromSeed lib program) in
    let minted := getTokenMint net programState (state w) in
    let associated (mint : Mint.t) (s : S) :=
      getOrCreateAssociatedTokenAccount net (anchor.provider_connection program) payer'
        (Mint.address mint) (Keypair.publicKey payer') s in
    let address_of (r : (Fault + spl.Account) * S) : Result PublicKey * World S :=
      (match fst r with inl f => inl (Rejected f) | inr a => inr (spl.address a) end,
       {| state := snd r; outbox := outbox w |}) in
    let result :=
      token.getOrCreateSwitchboardTokenAccount lib net program switchboardMint payer w in
    (forall mint, switchboardMint = Some mint ->
                  result = address_of (associated mint (state w))) /\
    (forall mint, switchboardMint = None -> fst minted = inr (Some mint) ->
                  result = address_of (associated mint (snd minted))) /\
    (fst result = inl (Error_ "failed to get associated token account")
     <-> switchboardMint = None /\ fst minted = inr None).
Proof.
  intros program switchboardMint payer w payer' programState minted associated
         address_of result.
  assert (Hassoc : forall mint (w0 : World S), outbox w0 = outbox w ->
             token.getAssociatedAddress net program payer' mint w0
             = address_of (associated mint (state w0))).
  { intros mint w0 Hout. unfold token.getAssociatedAddress, bind. step.
    unfold address_of, associated. rewrite <- Hout.
    destruct (fst (getOrCreateAssociatedTokenAccount net _ _ _ _ _)); reflexivity. }
  assert (Hnot : forall r, fst (address_of r)
                           <> inl (Error_ "failed to get associated token account")).
  { intros r. unfold address_of. simpl. destruct (fst r); congruence. }
  unfold result, token.getOrCreateSwitchboardTokenAccount. fold payer'.
  destruct switchboardMint as [mint |].
  - split; [| split].
    + intros mint' H. inv H. apply Hassoc. reflexivity.
    + intros mint' H. discriminate H.
    + rewrite Hassoc by reflexivity. split.
      * intros H. exfalso. exact (Hnot _ H).
      * intros [H _]. discriminate H.
  - fold programState.
    destruct (ProgramStateAccount_fromSeed lib program) as [ps bump] eqn:Hps.
    simpl in programState. subst programState.
    unfold bind. step. fold minted.
    destruct (fst minted) as [f | [mint |]] eqn:Hminted; simpl call; cbv beta iota.
    + split; [| split].
      * intros mint' H. discriminate H.
      * intros mint' _ H. discriminate H.
      * simpl. split; [discriminate |]. intros [_ H]. discriminate H.
    + split; [| split].
      * intros mint' H. discriminate H.
      * intros mint' _ H. inv H. apply Hassoc. reflexivity.
      * rewrite Hassoc by reflexivity. split.
        -- intros H. exfalso. exact (Hnot _ H).
        -- intros [_ H]. discriminate H.
    + split; [| split].
      * intros mint' H. discriminate H.
      * intros mint' _ H. discriminate H.
      * simpl. split; auto.
Qed.

End Token.

Lemma transferWrappedSol_single_transaction_witness :
  exists tx,
    token.transferWrappedSol Demo.lib Demo.net Demo.u64 Demo.devnet (Demo.keypair 42)
      (JS.Number 1000) Demo.genesis
    = (inr (JS.Number 2),
       {| state := 2;
          outbox := [Sent_and_confirmed Demo.devnet tx
                       [Demo.keypair 42; Demo.keypair 5000]] |}) /\
    List.length tx = 5%nat.
Proof.
  eexists. split.
  - exact (proj1 (transferWrappedSol_single_transaction Demo.lib Demo.net Demo.u64
                    Demo.devnet (Demo.keypair 42) (JS.Number 1000) Demo.genesis
                    (payerBalance := JS.Number 1000000000) (s0 := 0)
                    (account := {| spl.address := Demo.key 1045;
                                   spl.owner := Demo.key 42; spl.amount := 0 |})
                    (s1 := 0) (ephemeralAccount := Demo.keypair 5000) (s2 := 1)
                    (ephemeralWallet := Demo.key 6003)
                    eq_refl eq_refl eq_refl eq_refl)
             1000%Z (rev (be_bytes 8 1000)) "signature" 2
             {| spl.address := Demo.key 1045; spl.owner := Demo.key 42; spl.amount := 2 |}
             2 eq_refl eq_refl eq_refl eq_refl).
  - reflexivity.
Defined.

(** C6, as stated, fails at the amount 1.5: the reads answer, the builder of
    the lamport transfer raises the RangeError of [BigInt(1.5)], nothing is
    submitted and no balance is returned. *)
Lemma transferWrappedSol_claim_counterexample :
  JS.BigInt Demo.one_and_a_half = None /\
  JS.gt Demo.one_and_a_half (JS.Number 1) = true /\
  JS.gt (JS.Number 2) Demo.one_and_a_half = true /\
  token.transferWrappedSol Demo.lib Demo.net Demo.u64 Demo.devnet (Demo.keypair 42)
    Demo.one_and_a_half Demo.genesis
  = (inl (Rejected token.RangeError), {| state := 1; outbox := [] |}).
Proof. repeat split; reflexivity. Qed.

Example BigInt_examples :
  JS.BigInt (JS.Number 1000) = Some 1000%Z /\
  JS.BigInt (JS.Number (-7)) = Some (-7)%Z /\
  JS.BigInt (JS.Number 18446744073709551616) = Some 18446744073709551616%Z /\
  JS.BigInt JS.zero = Some 0%Z /\
  JS.BigInt JS.NaN = None /\
  JS.BigInt (S754_infinity false) = None /\
  JS.BigInt (S754_finite false 1 (-1)) = None.
Proof. repeat split; reflexivity. Qed.

Lemma getOrCreateSwitchboardTokenAccount_cases_witness :
  token.getOrCreateSwitchboardTokenAccount Demo.lib Demo.net Demo.anchor_program
    (Some Demo.wsol) None Demo.genesis
  = (inr (Demo.key 1045), Demo.genesis) /\
  token.getOrCreateSwitchboardTokenAccount Demo.lib Demo.net Demo.anchor_program
    None (Some (Demo.keypair 50)) Demo.genesis
  = (inr (Demo.key 1053), Demo.genesis) /\
  fst (token.getOrCreateSwitchboardTokenAccount Demo.lib Demo.net
         Demo.anchor_program_without_mint None None Demo.genesis)
  = inl (Error_ "failed to get associated token account").
Proof.
  split; [| split].
  - exact (proj1 (getOrCreateSwitchboardTokenAccount_cases Demo.lib Demo.net
                    Demo.anchor_program (Some Demo.wsol) None Demo.genesis)
             Demo.wsol eq_refl).
  - exact (proj1 (proj2 (getOrCreateSwitchboardTokenAccount_cases Demo.lib Demo.net
                           Demo.anchor_program None (Some (Demo.keypair 50))
                           Demo.genesis))
             Demo.wsol eq_refl eq_refl).
  - exact (proj2 (proj2 (proj2 (getOrCreateSwitchboardTokenAccount_cases Demo.lib
                                  Demo.net Demo.anchor_program_without_mint None None
                                  Demo.genesis)))
             (conj eq_refl eq_refl)).
Defined.

(** ** Heartbeat *)

Lemma index_Some_iff T (a : list T) (i : N) :
  (exists x, JS.index a i = Some x) <-> i < N.of_nat (List.length a).
Proof.
  unfold JS.index. split.
  - intros [x H].
    assert (Hlt : (N.to_nat i < List.length a)%nat).
    { apply List.nth_error_Some. congruence. }
    lia.
  - intros H. destruct (nth_error a (N.to_nat i)) as [x |] eqn:E.
    + now exists x.
    + apply List.nth_error_None in E. lia.
Qed.

Lemma index_None_iff T (a : list T) (i : N) :
  JS.index a i = None <-> N.of_nat (List.length a) <= i.
Proof.
  unfold JS.index. rewrite List.nth_error_None. lia.
Qed.

(** [heartbeatInstruction] passes [gcOracle] on as it is. *)
Lemma heartbeatInstruction_gcOracle this payer params :
  exists args accounts,
    OracleAccount.heartbeatInstruction this payer params = oracleHeartbeat args accounts /\
    types.hb_gcOracle accounts = OracleAccount.HeartbeatIxParams.gcOracle params /\
    types.hb_oracle accounts = OracleAccount.publicKey this.
Proof.
  unfold OracleAccount.heartbeatInstruction.
  destruct (OracleAccount.HeartbeatIxParams.permission params) as [account bump].
  do 2 eexists. repeat split.
Qed.

Section Heartbeat.

Variable S : Type.
Variable lib : Library.
Variable net : Cluster S.

Variable this : OracleAccount.t.
Variable params : JS.optional OracleAccount.HeartbeatParams.t.

(** What [heartbeat] does once the oracle, the queue and the list of oracles
    have been read. *)
Lemma heartbeat_after_reads
    (w w1 w2 : World S) oracle queue oracles (s3 : S) :
  OracleAccount.loadData net this w = (inr oracle, w1) ->
  match OracleAccount.opt_field params OracleAccount.HeartbeatParams.queue with
  | Some q => ret q
  | None => await (QueueAccount_loadData net (heartbeat_queueAccount this params oracle))
  end w1 = (inr queue, w2) ->
  QueueAccount_loadOracles net (heartbeat_queueAccount this params oracle) (state w2)
  = (inr oracles, s3) ->
  let loaded :=
    PermissionAccount_loadData net
      (fst (heartbeat_permission lib this params oracle queue)) s3 in
  let w4 := {| state := snd loaded; outbox := outbox w |} in
  let send :=
    OracleAccount.signAndSend net (OracleAccount.program this)
      (Some (heartbeat_transaction lib this params oracle queue oracles)) w4 in
  OracleAccount.heartbeat lib net this params w
  = match fst loaded with
    | inl _ =>
      (inl (Error_ "A requested oracle permission pda account has not been initialized."),
       w4)
    | inr _ =>
      match OracleAccount.opt_field params OracleAccount.HeartbeatParams.authority with
      | Some authority =>
        if PublicKey_equals (types.oracleAuthority oracle) (Keypair.publicKey authority)
        then send
        else (inl (IncorrectAuthority (types.oracleAuthority oracle)
                     (Keypair.publicKey authority)), w4)
      | None => send
      end
    end.
Proof.
  intros Hload Hqueue Horacles loaded w4 send.
  assert (Hw1 : outbox w1 = outbox w).
  { pose proof (loadData_outbox net this w) as H. rewrite Hload in H. exact H. }
  assert (Hw2 : outbox w2 = outbox w).
  { rewrite <- Hw1.
    destruct (OracleAccount.opt_field params OracleAccount.HeartbeatParams.queue).
    - unfold ret in Hqueue. now inv Hqueue.
    - pose proof (await_outbox
                    (QueueAccount_loadData net (heartbeat_queueAccount this params oracle))
                    w1) as H.
      rewrite Hqueue in H. exact H. }
  subst send w4 loaded.
  unfold heartbeat_transaction, heartbeat_permission, heartbeat_queueAccount in *.
  unfold OracleAccount.heartbeat.
  erewrite bind_inr by exact Hload.
  erewrite bind_inr by exact Hqueue.
  unfold bind at 1. step. rewrite Horacles. simpl call. cbv beta iota. simpl state.
  assert (Hlast : (if negb (List.length oracles =? 0)%nat
                   then JS.index oracles (types.gcIdx queue)
                   else Some (OracleAccount.publicKey this))
                  = match oracles with
                    | [] => Some (OracleAccount.publicKey this)
                    | _ :: _ => JS.index oracles (types.gcIdx queue)
                    end).
  { destruct oracles; reflexivity. }
  rewrite Hlast. clear Hlast.
  unfold OracleAccount.heartbeatInstruction.
  destruct (JS.nullish
              (OracleAccount.opt_field params OracleAccount.HeartbeatParams.permission) _)
    as [permissionAccount permissionBump].
  simpl fst. simpl snd. cbv beta iota.
  unfold bind at 1. unfold try_await at 1. step. simpl state. simpl outbox.
  rewrite Hw2.
  destruct (fst (PermissionAccount_loadData net permissionAccount s3))
    as [f | permission]; simpl call; cbv beta iota.
  - reflexivity.
  - unfold bind at 1.
    destruct (OracleAccount.opt_field params OracleAccount.HeartbeatParams.authority)
      as [authority |].
    + destruct (PublicKey_equals _ _); reflexivity.
    + reflexivity.
Qed.

Lemma signAndSend_outcome (program : SwitchboardProgram.t)
    (txn : JS.optional TransactionObject.t) (w : World S) :
  let reply := signAndSend_reply net program txn (state w) in
  OracleAccount.signAndSend net program txn w
  = (call (fst reply),
     {| state := snd reply; outbox := outbox w ++ [Signed_and_sent program txn] |}).
Proof.
  unfold OracleAccount.signAndSend, submit, bind. step. cbv zeta. simpl.
  destruct (call _); reflexivity.
Qed.

(** In every run, [heartbeat] submits nothing, or it submits one transaction
    and ends with the answer to that submission. *)
Lemma heartbeat_outbox (w : World S) :
  let r := OracleAccount.heartbeat lib net this params w in
  outbox (snd r) = outbox w \/
  exists txn reply,
    fst r = call reply /\
    outbox (snd r) = outbox w ++ [Signed_and_sent (OracleAccount.program this) (Some txn)].
Proof.
  cbv zeta.
  pose proof (loadData_outbox net this w) as Hw1.
  destruct (OracleAccount.loadData net this w) as [[e | oracle] w1] eqn:Hload;
    simpl in Hw1.
  { left. unfold OracleAccount.heartbeat. erewrite bind_inl by exact Hload. exact Hw1. }
  destruct (match OracleAccount.opt_field params OracleAccount.HeartbeatParams.queue with
            | Some q => ret q
            | None =>
              await (QueueAccount_loadData net (heartbeat_queueAccount this params oracle))
            end w1) as [[e | queue] w2] eqn:Hqueue.
  { left. unfold OracleAccount.heartbeat. erewrite bind_inr by exact Hload.
    unfold heartbeat_queueAccount in Hqueue.
    erewrite bind_inl by exact Hqueue. simpl. rewrite <- Hw1.
    destruct (OracleAccount.opt_field params OracleAccount.HeartbeatParams.queue).
    - discriminate Hqueue.
    - rewrite await_answer in Hqueue. now inv Hqueue. }
  assert (Hw2 : outbox w2 = outbox w).
  { rewrite <- Hw1.
    destruct (OracleAccount.opt_field params OracleAccount.HeartbeatParams.queue).
    - unfold ret in Hqueue. now inv Hqueue.
    - rewrite await_answer in Hqueue. now inv Hqueue. }
  destruct (QueueAccount_loadOracles net (heartbeat_queueAccount this params oracle)
              (state w2)) as [[f | oracles] s3] eqn:Horacles.
  { left. unfold OracleAccount.heartbeat. erewrite bind_inr by exact Hload.
    unfold heartbeat_queueAccount in Hqueue, Horacles.
    erewrite bind_inr by exact Hqueue.
    unfold bind at 1. step. rewrite Horacles. simpl. exact Hw2. }
  rewrite (heartbeat_after_reads w Hload Hqueue Horacles). cbv zeta.
  rewrite signAndSend_outcome. cbv zeta. simpl state. simpl outbox.
  destruct (fst (PermissionAccount_loadData net _ s3)) as [f | permission].
  { left. reflexivity. }
  destruct (OracleAccount.opt_field params OracleAccount.HeartbeatParams.authority)
    as [authority |].
  - destruct (PublicKey_equals _ _).
    + right. do 2 eexists. split; reflexivity.
    + left. reflexivity.
  - right. do 2 eexists. split; reflexivity.
Qed.

(** C8. When [heartbeat] gets as far as its transaction, that transaction is
    the single heartbeat instruction, and its [gcOracle] is the key of the
    oracle itself when the list of oracles of the queue is empty and the
    entry of the list at [queue.gcIdx] otherwise.  That entry exists when
    [gcIdx] is below the length of the list; from the length on, the lookup
    gives [undefined]. *)
Theorem heartbeat_gcOracle :
  forall (w w1 w2 : World S) oracle queue oracles (s3 : S) permission (s4 : S),
    OracleAccount.loadData net this w = (inr oracle, w1) ->
    match OracleAccount.opt_field params OracleAccount.HeartbeatParams.queue with
    | Some q => ret q
    | None => await (QueueAccount_loadData net (heartbeat_queueAccount this params oracle))
    end w1 = (inr queue, w2) ->
    QueueAccount_loadOracles net (heartbeat_queueAccount this params oracle) (state w2)
    = (inr oracles, s3) ->
    PermissionAccount_loadData net
      (fst (heartbeat_permission lib this params oracle queue)) s3
    = (inr permission, s4) ->
    (forall authority,
        OracleAccount.opt_field params OracleAccount.HeartbeatParams.authority
        = Some authority ->
        PublicKey_equals (types.oracleAuthority oracle) (Keypair.publicKey authority)
        = true) ->
    exists heartbeatTxn args accounts,
      OracleAccount.heartbeat lib net this params w
      = OracleAccount.signAndSend net (OracleAccount.program this) (Some heartbeatTxn)
          {| state := s4; outbox := outbox w |} /\
      outbox (snd (OracleAccount.heartbeat lib net this params w))
      = outbox w ++ [Signed_and_sent (OracleAccount.program this) (Some heartbeatTxn)] /\
      TransactionObject.ixns heartbeatTxn = [oracleHeartbeat args accounts] /\
      (oracles = [] ->
       types.hb_gcOracle accounts = Some (OracleAccount.publicKey this)) /\
      (oracles <> [] ->
       types.hb_gcOracle accounts = JS.index oracles (types.gcIdx queue)) /\
      (oracles <> [] -> types.gcIdx queue < N.of_nat (List.length oracles) ->
       exists entry,
         nth_error oracles (N.to_nat (types.gcIdx queue)) = Some entry /\
         types.hb_gcOracle accounts = Some entry) /\
      (oracles <> [] -> N.of_nat (List.length oracles) <= types.gcIdx queue ->
       types.hb_gcOracle accounts = None).
Proof.
  intros w w1 w2 oracle queue oracles s3 permission s4
         Hload Hqueue Horacles Hpermission Hauthority.
  assert (Hrun : OracleAccount.heartbeat lib net this params w
                 = OracleAccount.signAndSend net (OracleAccount.program this)
                     (Some (heartbeat_transaction lib this params oracle queue oracles))
                     {| state := s4; outbox := outbox w |}).
  { rewrite (heartbeat_after_reads w Hload Hqueue Horacles). cbv zeta.
    rewrite Hpermission. simpl fst. simpl snd.
    destruct (OracleAccount.opt_field params OracleAccount.HeartbeatParams.authority)
      as [authority |]; [| reflexivity].
    rewrite (Hauthority authority eq_refl). reflexivity. }
  eexists. do 2 eexists. split; [exact Hrun |].
  split; [rewrite Hrun, signAndSend_outcome; reflexivity |].
  split; [reflexivity |]. cbn [types.hb_gcOracle].
  split; [intros ->; reflexivity |].
  split; [| split].
  - destruct oracles; [congruence | reflexivity].
  - intros Hnonempty Hlt.
    apply index_Some_iff in Hlt. destruct Hlt as [entry Hentry].
    exists entry. split; [exact Hentry |].
    destruct oracles; [congruence | exact Hentry].
  - intros Hnonempty Hge. apply index_None_iff in Hge.
    destruct oracles; [congruence | exact Hge].
Qed.

(** C9. Once the oracle, the queue and the list of oracles are read: if the
    permission account cannot be loaded, [heartbeat] raises 'A requested
    oracle permission pda account has not been initialized.'; if it is loaded
    and [params.authority] is given with a key other than the authority of
    the oracle, [heartbeat] raises [IncorrectAuthority] with the two keys.
    In both cases, and whenever [heartbeat] ends with one of these two
    exceptions, nothing has been handed over for signature or submission. *)
Theorem heartbeat_throws_before_submitting :
  forall (w : World S),
    (forall (w1 w2 : World S) oracle queue oracles (s3 : S),
        OracleAccount.loadData net this w = (inr oracle, w1) ->
        match OracleAccount.opt_field params OracleAccount.HeartbeatParams.queue with
        | Some q => ret q
        | None =>
          await (QueueAccount_loadData net (heartbeat_queueAccount this params oracle))
        end w1 = (inr queue, w2) ->
        QueueAccount_loadOracles net (heartbeat_queueAccount this params oracle) (state w2)
        = (inr oracles, s3) ->
        let loaded :=
          PermissionAccount_loadData net
            (fst (heartbeat_permission lib this params oracle queue)) s3 in
        let w4 := {| state := snd loaded; outbox := outbox w |} in
        (forall f,
            fst loaded = inl f ->
            OracleAccount.heartbeat lib net this params w
            = (inl (Error_ "A requested oracle permission pda account has not been initialized."),
               w4)) /\
        (forall permission authority,
            fst loaded = inr permission ->
            OracleAccount.opt_field params OracleAccount.HeartbeatParams.authority
            = Some authority ->
            PublicKey_equals (types.oracleAuthority oracle) (Keypair.publicKey authority)
            = false ->
            OracleAccount.heartbeat lib net this params w
            = (inl (IncorrectAuthority (types.oracleAuthority oracle)
                      (Keypair.publicKey authority)), w4))) /\
    (forall e,
        fst (OracleAccount.heartbeat lib net this params w) = inl e ->
        e = Error_ "A requested oracle permission pda account has not been initialized."
        \/ (exists expected received, e = IncorrectAuthority expected received) ->
        outbox (snd (OracleAccount.heartbeat lib net this params w)) = outbox w).
Proof.
  intros w. split.
  - intros w1 w2 oracle queue oracles s3 Hload Hqueue Horacles loaded w4.
    pose proof (heartbeat_after_reads w Hload Hqueue Horacles) as Hrun.
    cbv zeta in Hrun. fold loaded in Hrun. fold w4 in Hrun. split.
    + intros f Hf. rewrite Hrun, Hf. reflexivity.
    + intros permission authority Hp Ha Hneq. rewrite Hrun, Hp, Ha, Hneq. reflexivity.
  - intros e He Hkind.
    destruct (heartbeat_outbox w) as [Hsame | (txn & reply & Hreply & _)];
      [exact Hsame |].
    exfalso. rewrite Hreply in He.
    destruct reply as [f | signature]; simpl in He; [| discriminate].
    inv He. destruct Hkind as [H | (a & b & H)]; discriminate H.
Qed.

End Heartbeat.

Lemma heartbeat_gcOracle_witness :
  exists heartbeatTxn args accounts,
    OracleAccount.heartbeat Demo.lib Demo.net (Demo.oracle 7) None Demo.genesis
    = OracleAccount.signAndSend Demo.net Demo.program (Some heartbeatTxn) Demo.genesis /\
    TransactionObject.ixns heartbeatTxn = [oracleHeartbeat args accounts] /\
    types.hb_gcOracle accounts = Some (Demo.key 7).
Proof.
  destruct (heartbeat_gcOracle Demo.lib Demo.net (Demo.oracle 7) None Demo.genesis
              (w1 := Demo.genesis) (w2 := Demo.genesis) (oracle := Demo.oracle7)
              (queue := Demo.queue20) (oracles := [Demo.key 6; Demo.key 7; Demo.key 8])
              (s3 := 0)
              (permission := {| types.granter := Demo.key 20; types.grantee := Demo.key 7;
                                types.permissions := 1 |})
              (s4 := 0)
              eq_refl eq_refl eq_refl eq_refl
              ltac:(intros authority H; discriminate H))
    as (txn & args & accounts & Hrun & _ & Hixns & _ & _ & Hentry & _).
  exists txn, args, accounts. split; [exact Hrun |]. split; [exact Hixns |].
  destruct (Hentry ltac:(discriminate) eq_refl) as (entry & Hnth & Hgc).
  rewrite Hgc. exact (eq_sym Hnth).
Defined.

(** On the queue without oracles the oracle names itself. *)
Example heartbeat_empty_queue :
  exists txn accounts args,
    outbox (snd (OracleAccount.heartbeat Demo.lib Demo.net (Demo.oracle 7)
                   (Some (Demo.heartbeat_params 60 None)) Demo.genesis))
    = [Signed_and_sent Demo.program (Some txn)] /\
    TransactionObject.ixns txn = [oracleHeartbeat args accounts] /\
    types.hb_gcOracle accounts = Some (Demo.key 7) /\
    types.hb_oracleQueue accounts = Demo.key 60.
Proof. do 3 eexists. repeat split. Qed.

Lemma heartbeat_throws_before_submitting_witness :
  OracleAccount.heartbeat Demo.lib Demo.net (Demo.oracle 7)
    (Some (Demo.heartbeat_params 200 None)) Demo.genesis
  = (inl (Error_ "A requested oracle permission pda account has not been initialized."),
     Demo.genesis) /\
  OracleAccount.heartbeat Demo.lib Demo.net (Demo.oracle 7)
    (Some (Demo.heartbeat_params 20 (Some (Demo.keypair 99)))) Demo.genesis
  = (inl (IncorrectAuthority (Demo.key 11) (Demo.key 99)), Demo.genesis).
Proof.
  split.
  - exact (proj1 (proj1 (heartbeat_throws_before_submitting Demo.lib Demo.net
                           (Demo.oracle 7) (Some (Demo.heartbeat_params 200 None))
                           Demo.genesis)
                    Demo.genesis Demo.genesis Demo.oracle7 Demo.queue20
                    [Demo.key 6; Demo.key 7; Demo.key 8] 0 eq_refl eq_refl eq_refl)
             (Demo.fault "account not found") eq_refl).
  - exact (proj2 (proj1 (heartbeat_throws_before_submitting Demo.lib Demo.net
                           (Demo.oracle 7)
                           (Some (Demo.heartbeat_params 20 (Some (Demo.keypair 99))))
                           Demo.genesis)
                    Demo.genesis Demo.genesis Demo.oracle7 Demo.queue20
                    [Demo.key 6; Demo.key 7; Demo.key 8] 0 eq_refl eq_refl eq_refl)
             {| types.granter := Demo.key 20; types.grantee := Demo.key 7;
                types.permissions := 1 |}
             (Demo.keypair 99) eq_refl eq_refl eq_refl).
Defined.

(** ** Encoding examples *)

Example utf8_ascii :
  Buffer.from_utf8 (JS.lit "Oracle") = map Buffer.u8 [79; 114; 97; 99; 108; 101].
Proof. reflexivity. Qed.

(** U+00E9, U+20AC and the pair D83D DE00 for U+1F600. *)
Example utf8_multibyte :
  Buffer.from_utf8 [0xE9; 0x20AC; 0xD83D; 0xDE00]
  = map Buffer.u8 [0xC3; 0xA9; 0xE2; 0x82; 0xAC; 0xF0; 0x9F; 0x98; 0x80].
Proof. reflexivity. Qed.

Example utf8_lone_surrogate :
  Buffer.from_utf8 [0xD83D; 0x41] = map Buffer.u8 [0xEF; 0xBF; 0xBD; 0x41].
Proof. reflexivity. Qed.

Example number_comparisons :
  JS.gt (JS.Number 1) JS.zero = true /\ JS.gt JS.NaN JS.zero = false /\
  JS.le JS.NaN JS.zero = false /\ JS.le (JS.Number (-3)) JS.zero = true /\
  JS.truthy JS.NaN = false /\ JS.truthy (JS.Number 5) = true /\
  JS.Number 9007199254740993 = JS.Number 9007199254740992.
Proof. repeat split; reflexivity. Qed.

(** * Further properties *)

(** ** Names and their encoding *)

Lemma from_utf8_ascii_app (p rest : JS.str) :
  ascii_only p -> Buffer.from_utf8 (p ++ rest) = map Buffer.u8 p ++ Buffer.from_utf8 rest.
Proof.
  induction 1 as [| c p Hc _ IH]; [reflexivity |].
  cbn [app map Buffer.from_utf8].
  assert (Hhigh : Buffer.is_high_surrogate c = false).
  { unfold Buffer.is_high_surrogate.
    destruct (N.leb_spec 0xD800 c); [lia | reflexivity]. }
  assert (Hlow : Buffer.is_low_surrogate c = false).
  { unfold Buffer.is_low_surrogate.
    destruct (N.leb_spec 0xDC00 c); [lia | reflexivity]. }
  rewrite Hhigh, Hlow. unfold Buffer.encode_code_point.
  destruct (N.ltb_spec c 0x80); [| lia].
  rewrite IH. reflexivity.
Qed.

Lemma from_utf8_ascii (s : JS.str) :
  ascii_only s -> Buffer.from_utf8 s = map Buffer.u8 s.
Proof.
  intros H. rewrite <- (List.app_nil_r s) at 1.
  rewrite (from_utf8_ascii_app [] H). apply List.app_nil_r.
Qed.

(** A code unit from U+0080 to U+07FF gives a lead byte and one continuation
    byte. *)
Lemma from_utf8_two_bytes (c : N) (rest : JS.str) :
  0x80 <= c < 0x800 ->
  Buffer.from_utf8 (c :: rest)
  = Buffer.u8 (N.lor 0xC0 (N.shiftr c 6)) :: Buffer.u8 (N.lor 0x80 (N.land c 0x3F))
      :: Buffer.from_utf8 rest.
Proof.
  intros [Hlo Hhi]. cbn [Buffer.from_utf8].
  assert (Hhigh : Buffer.is_high_surrogate c = false).
  { unfold Buffer.is_high_surrogate.
    destruct (N.leb_spec 0xD800 c); [lia | reflexivity]. }
  assert (Hlow : Buffer.is_low_surrogate c = false).
  { unfold Buffer.is_low_surrogate.
    destruct (N.leb_spec 0xDC00 c); [lia | reflexivity]. }
  rewrite Hhigh, Hlow. unfold Buffer.encode_code_point.
  destruct (N.ltb_spec c 0x80); [lia |].
  destruct (N.ltb_spec c 0x800); [| lia].
  reflexivity.
Qed.

Section CreatePayload.

Variable S : Type.
Variable lib : Library.
Variable net : Cluster S.

(** The whole of what [createInstructions] hands to the packer, from the
    answers it got: the fresh keypair and the rent. *)
Lemma createInstructions_txns_built
    (program : SwitchboardProgram.t) (payer : PublicKey)
    (params : OracleAccount.CreateParams.t) (w w' : World S)
    (oracleAccount : OracleAccount.t) (txns : list TransactionObject.t) :
  OracleAccount.createInstructions_txns lib net program payer params w
  = (inr (oracleAccount, txns), w') ->
  let init := OracleAccount.CreateParams.init params in
  let queue := QueueAccount.publicKey (OracleAccount.CreateParams.queueAccount params) in
  let tokenWallet := fst (Keypair_generate net (state w)) in
  let wallet := Keypair.publicKey tokenWallet in
  let authority :=
    JS.nullish (option_map Keypair.publicKey (OracleInitParams.authority init)) payer in
  let programState :=
    ProgramState.publicKey (SwitchboardProgram.programState program) in
  exists lamports rest,
    oracleAccount = fst (OracleAccount.fromSeed lib program queue wallet) /\
    txns =
      {| TransactionObject.payer := payer;
         TransactionObject.ixns :=
           [ SystemProgram_createAccount payer wallet (ACCOUNT_SIZE lib) lamports
               (TOKEN_PROGRAM_ID lib);
             createInitializeAccountInstruction wallet
               (Mint.address (SwitchboardProgram.mint program)) authority;
             createSetAuthorityInstruction wallet authority AccountOwner programState;
             oracleInit
               {| types.init_name :=
                    Buffer.slice0
                      (Buffer.from_utf8 (JS.nullish (OracleInitParams.name init) [])) 32;
                  types.init_metadata :=
                    Buffer.slice0
                      (Buffer.from_utf8 (JS.nullish (OracleInitParams.metadata init) []))
                      128;
                  types.oracleBump :=
                    snd (OracleAccount.fromSeed lib program queue wallet);
                  types.stateBump :=
                    ProgramState.bump (SwitchboardProgram.programState program) |}
               {| types.init_oracle := OracleAccount.publicKey oracleAccount;
                  types.init_oracleAuthority := authority;
                  types.init_wallet := wallet;
                  types.init_programState := programState;
                  types.init_queue := queue;
                  types.init_payer := payer;
                  types.init_systemProgram := SystemProgram_programId lib |} ];
         TransactionObject.signers :=
           match OracleInitParams.authority init with
           | Some authority => [authority; tokenWallet]
           | None => [tokenWallet]
           end |} :: rest.
Proof.
  intros H init queue tokenWallet wallet authority programState. revert H.
  unfold OracleAccount.createInstructions_txns.
  unfold bind at 1. step. cbv beta iota.
  fold tokenWallet. fold wallet. fold init. fold queue. fold authority.
  destruct (OracleAccount.fromSeed lib program queue wallet) as [acct bump].
  unfold bind at 1. step.
  destruct (fst (getMinimumBalanceForRentExemption net _ _ _)) as [f | lamports];
    simpl call; cbv beta iota; [discriminate |].
  intros H. exists lamports.
  destruct (_ && _).
  - unfold bind, ret in H.
    destruct (OracleAccount.stakeInstructions _ _ _ _ _) as [[e | dep] w1]; inv H.
    exists [dep]. split; reflexivity.
  - unfold ret in H. inv H. exists []. split; reflexivity.
Qed.

(** X1. An ASCII name of at most 32 characters reaches the oracle-init
    instruction unchanged, one byte per character. *)
Theorem createInstructions_ascii_name_unchanged :
  forall (program : SwitchboardProgram.t) (payer : PublicKey)
         (params : OracleAccount.CreateParams.t) (w w' : World S)
         (oracleAccount : OracleAccount.t) (txns : list TransactionObject.t)
         (name : JS.str),
    OracleAccount.createInstructions_txns lib net program payer params w
    = (inr (oracleAccount, txns), w') ->
    OracleInitParams.name (OracleAccount.CreateParams.init params) = Some name ->
    ascii_only name ->
    (List.length name <= 32)%nat ->
    exists oracleInitTxn rest args accounts,
      txns = oracleInitTxn :: rest /\
      nth_error (TransactionObject.ixns oracleInitTxn) 3 = Some (oracleInit args accounts) /\
      types.init_name args = map Buffer.u8 name.
Proof.
  intros program payer params w w' oracleAccount txns name Hrun Hname Hascii Hlen.
  destruct (createInstructions_txns_built _ _ _ _ Hrun) as (lamports & rest & _ & ->).
  do 4 eexists. split; [reflexivity |]. split; [reflexivity |].
  cbn [types.init_name]. rewrite Hname. cbn [JS.nullish].
  rewrite (from_utf8_ascii Hascii). apply slice0_short.
  rewrite List.length_map. exact Hlen.
Qed.

(** X2. The cut at 32 bytes does not look at character boundaries.  When 31
    ASCII characters are followed by a character from U+0080 to U+07FF, the
    name in the oracle-init instruction ends with the lead byte of that
    character, without its continuation byte. *)
Theorem createInstructions_name_cut_inside_character :
  forall (program : SwitchboardProgram.t) (payer : PublicKey)
         (params : OracleAccount.CreateParams.t) (w w' : World S)
         (oracleAccount : OracleAccount.t) (txns : list TransactionObject.t)
         (prefix rest : JS.str) (c : N),
    OracleAccount.createInstructions_txns lib net program payer params w
    = (inr (oracleAccount, txns), w') ->
    OracleInitParams.name (OracleAccount.CreateParams.init params)
    = Some (prefix ++ c :: rest) ->
    ascii_only prefix ->
    List.length prefix = 31%nat ->
    0x80 <= c < 0x800 ->
    exists oracleInitTxn others args accounts,
      txns = oracleInitTxn :: others /\
      nth_error (TransactionObject.ixns oracleInitTxn) 3 = Some (oracleInit args accounts) /\
      types.init_name args
      = map Buffer.u8 prefix ++ [Buffer.u8 (N.lor 0xC0 (N.shiftr c 6))].
Proof.
  intros program payer params w w' oracleAccount txns prefix rest c
         Hrun Hname Hascii Hlen Hc.
  destruct (createInstructions_txns_built _ _ _ _ Hrun) as (lamports & others & _ & ->).
  do 4 eexists. split; [reflexivity |]. split; [reflexivity |].
  cbn [types.init_name]. rewrite Hname. cbn [JS.nullish].
  rewrite (from_utf8_ascii_app _ Hascii), (from_utf8_two_bytes _ Hc).
  unfold Buffer.slice0.
  rewrite List.firstn_app, List.length_map, Hlen.
  rewrite List.firstn_all2 by (rewrite List.length_map; lia).
  reflexivity.
Qed.

End CreatePayload.

Lemma createInstructions_ascii_name_unchanged_witness :
  exists oracleInitTxn rest args accounts,
    [oracleInitTxn] = oracleInitTxn :: rest /\
    nth_error (TransactionObject.ixns oracleInitTxn) 3 = Some (oracleInit args accounts) /\
    types.init_name args = map Buffer.u8 (JS.lit "oracle-1").
Proof.
  destruct (createInstructions_ascii_name_unchanged Demo.lib Demo.net Demo.program
              (Demo.key 42) (Demo.create_params (Some (JS.lit "oracle-1")) None Demo.no_stake)
              Demo.genesis (name := JS.lit "oracle-1") eq_refl eq_refl
              ltac:(unfold ascii_only; repeat (constructor; [reflexivity |]); constructor)
              ltac:(simpl; lia))
    as (first & rest & args & accounts & Htx & H).
  exists first, rest, args, accounts. split; [| exact H].
  injection Htx as _ Hrest. rewrite <- Hrest. reflexivity.
Defined.

Lemma createInstructions_name_cut_inside_character_witness :
  exists oracleInitTxn rest args accounts,
    [oracleInitTxn] = oracleInitTxn :: rest /\
    nth_error (TransactionObject.ixns oracleInitTxn) 3 = Some (oracleInit args accounts) /\
    types.init_name args
    = map Buffer.u8 (JS.lit "0123456789012345678901234567890") ++ [Byte.xc3].
Proof.
  destruct (createInstructions_name_cut_inside_character Demo.lib Demo.net Demo.program
              (Demo.key 42)
              (Demo.create_params
                 (Some (JS.lit "0123456789012345678901234567890" ++ 0xE9 :: JS.lit "tat"))
                 None Demo.no_stake)
              Demo.genesis
              (prefix := JS.lit "0123456789012345678901234567890")
              (JS.lit "tat") (c := 0xE9) eq_refl eq_refl
              ltac:(unfold ascii_only; repeat (constructor; [reflexivity |]); constructor)
              eq_refl ltac:(lia))
    as (first & rest & args & accounts & Htx & H).
  exists first, rest, args, accounts. split; [| exact H].
  injection Htx as _ Hrest. rewrite <- Hrest. reflexivity.
Defined.

(** ** Building and submitting *)

Section Building.

Variable S : Type.
Variable lib : Library.
Variable net : Cluster S.

(** [stakeInstructions] for a given token wallet and an amount above 0: one
    call, to the mint. *)
Lemma stakeInstructions_given_wallet
    (this : OracleAccount.t) (payer : PublicKey) (stake : OracleStakeParams.t)
    (tokenWallet : PublicKey) (amount : JS.number) (w : World S) :
  OracleStakeParams.stakeAmount stake = Some amount ->
  JS.gt amount JS.zero = true ->
  let wrapped :=
    getOrCreateWrappedUserInstructions net (OracleAccount.program this) payer amount
      (OracleStakeParams.funderAuthority stake) (state w) in
  OracleAccount.stakeInstructions lib net this payer
    {| OracleAccount.StakeParams.stake := stake;
       OracleAccount.StakeParams.tokenAccount := Some tokenWallet |} w
  = (match fst wrapped with
     | inl f => inl (Rejected f)
     | inr (funderTokenAccount, wrapFundsTxn) =>
       inr (TransactionObject.add wrapFundsTxn
              (createTransferInstruction funderTokenAccount tokenWallet
                 (JS.nullish
                    (option_map Keypair.publicKey (OracleStakeParams.funderAuthority stake))
                    payer)
                 (amount_bigint
                    (toTokenAmount lib
                       (SwitchboardProgram.mint (OracleAccount.program this)) amount))
                 [] None))
     end,
     {| state := snd wrapped; outbox := outbox w |}).
Proof.
  intros Hamount Hgt wrapped.
  unfold OracleAccount.stakeInstructions. rewrite stake_guard_gt0.
  cbn [OracleAccount.StakeParams.stake OracleAccount.StakeParams.tokenAccount].
  rewrite Hamount. change (JS.gt0 (Some amount)) with (JS.gt amount JS.zero).
  rewrite Hgt. cbn [negb]. unfold bind at 1. unfold ret at 1. cbv beta iota.
  unfold bind. step. fold wrapped.
  destruct (fst wrapped) as [f | [fta wrap]]; reflexivity.
Qed.

Lemma stakeInstructions_outbox
    (this : OracleAccount.t) (payer : PublicKey) (params : OracleAccount.StakeParams.t)
    (w : World S) :
  outbox (snd (OracleAccount.stakeInstructions lib net this payer params w)) = outbox w.
Proof.
  unfold OracleAccount.stakeInstructions.
  destruct (negb _ || _); [reflexivity |].
  destruct (OracleStakeParams.stakeAmount _) as [amount |]; [| reflexivity].
  unfold bind at 1.
  assert (Hwallet :
            forall r w1,
              match OracleAccount.StakeParams.tokenAccount params with
              | Some k => ret k
              | None => bind (OracleAccount.loadData net this)
                             (fun data => ret (types.tokenAccount data))
              end w = (r, w1) -> outbox w1 = outbox w).
  { intros r w1. destruct (OracleAccount.StakeParams.tokenAccount params).
    - unfold ret. intros H. now inv H.
    - unfold bind. pose proof (loadData_outbox net this w) as Hload.
      destruct (OracleAccount.loadData net this w) as [[e | data] w2];
        unfold ret; intros H; inv H; exact Hload. }
  destruct (match OracleAccount.StakeParams.tokenAccount params with
            | Some k => ret k
            | None => _
            end w) as [[e | tokenWallet] w1]; pose proof (Hwallet _ _ eq_refl) as Hout.
  - exact Hout.
  - unfold bind. step.
    destruct (fst (getOrCreateWrappedUserInstructions net _ _ _ _ _))
      as [f | [fta wrap]]; exact Hout.
Qed.

Lemma createInstructions_txns_outbox
    (program : SwitchboardProgram.t) (payer : PublicKey)
    (params : OracleAccount.CreateParams.t) (w : World S) :
  outbox (snd (OracleAccount.createInstructions_txns lib net program payer params w))
  = outbox w.
Proof.
  unfold OracleAccount.createInstructions_txns.
  unfold bind at 1. step. cbv beta iota.
  destruct (OracleAccount.fromSeed lib program _ _) as [acct bump].
  unfold bind at 1. step.
  destruct (fst (getMinimumBalanceForRentExemption net _ _ _)) as [f | lamports];
    simpl call; cbv beta iota; [reflexivity |].
  destruct (_ && _); [| reflexivity].
  unfold bind.
  match goal with
  | |- context [OracleAccount.stakeInstructions lib net ?a ?p ?q ?w0] =>
    pose proof (stakeInstructions_outbox a p q w0) as Hstake;
    destruct (OracleAccount.stakeInstructions lib net a p q w0) as [[e | dep] w1]
  end; exact Hstake.
Qed.

Lemma createInstructions_outbox
    (program : SwitchboardProgram.t) (payer : PublicKey)
    (params : OracleAccount.CreateParams.t) (w : World S) :
  outbox (snd (OracleAccount.createInstructions lib net program payer params w))
  = outbox w.
Proof.
  unfold OracleAccount.createInstructions, bind.
  pose proof (createInstructions_txns_outbox program payer params w) as H.
  destruct (OracleAccount.createInstructions_txns lib net program payer params w)
    as [[e | [acct txns]] w1]; [exact H |].
  destruct (1 <? List.length (pack lib txns))%nat; exact H.
Qed.

Lemma getPermissions_outbox (this : OracleAccount.t) _oracle _queueAccount _queue
    (w : World S) :
  outbox (snd (OracleAccount.getPermissions lib net this _oracle _queueAccount _queue w))
  = outbox w.
Proof.
  unfold OracleAccount.getPermissions. unfold bind at 1.
  assert (Horacle : forall r w1,
             match _oracle with
             | Some o => ret o
             | None => OracleAccount.loadData net this
             end w = (r, w1) -> outbox w1 = outbox w).
  { intros r w1. destruct _oracle.
    - unfold ret. intros H. now inv H.
    - pose proof (loadData_outbox net this w) as Hload. intros H.
      rewrite H in Hload. exact Hload. }
  destruct (match _oracle with
            | Some o => ret o
            | None => OracleAccount.loadData net this
            end w) as [[e | oracle] w1]; pose proof (Horacle _ _ eq_refl) as Hout;
    [exact Hout |].
  unfold bind at 1.
  destruct _queue as [queue |].
  - unfold ret at 1. cbv beta iota.
    destruct (PermissionAccount_fromSeed lib _ _ _ _) as [account bump].
    unfold bind. step.
    destruct (fst (PermissionAccount_loadData net _ _)); exact Hout.
  - step.
    destruct (fst (QueueAccount_loadData net _ _)) as [f | queue];
      simpl call; cbv beta iota; [exact Hout |].
    destruct (PermissionAccount_fromSeed lib _ _ _ _) as [account bump].
    unfold bind. step.
    destruct (fst (PermissionAccount_loadData net _ _)); exact Hout.
Qed.

(** X3. The functions that build or read hand nothing over for signature:
    whatever the cluster answers, and whether they return or raise,
    [createInstructions], [stakeInstructions] and [getPermissions] leave the
    list of submissions as it was. *)
Theorem builders_never_submit :
  forall (program : SwitchboardProgram.t) (this : OracleAccount.t) (payer : PublicKey)
         (create : OracleAccount.CreateParams.t) (stake : OracleAccount.StakeParams.t)
         _oracle _queueAccount _queue (w : World S),
    outbox (snd (OracleAccount.createInstructions lib net program payer create w))
    = outbox w /\
    outbox (snd (OracleAccount.stakeInstructions lib net this payer stake w))
    = outbox w /\
    outbox (snd (OracleAccount.getPermissions lib net this _oracle _queueAccount _queue w))
    = outbox w.
Proof.
  intros. split; [apply createInstructions_outbox |].
  split; [apply stakeInstructions_outbox | apply getPermissions_outbox].
Qed.

(** X4. In the oracle-init transaction the key of the keypair that
    [Keypair.generate] returned plays every part of the token wallet: it is
    the account that is created with the size of a token account, the rent
    that the cluster answered and the token program as owner, that is
    initialised for the mint of the program, that is handed over to the
    program state, and that is named as [wallet] of the oracle.  The
    returned oracle account and its bump are the address derived from the
    queue and that key.  The generated keypair always signs; the oracle
    authority is [params.authority], which then signs first, or else the
    payer. *)
Theorem createInstructions_wallet_consistent :
  forall (program : SwitchboardProgram.t) (payer : PublicKey)
         (params : OracleAccount.CreateParams.t) (w w' : World S)
         (oracleAccount : OracleAccount.t) (txns : list TransactionObject.t),
    OracleAccount.createInstructions_txns lib net program payer params w
    = (inr (oracleAccount, txns), w') ->
    let queue := QueueAccount.publicKey (OracleAccount.CreateParams.queueAccount params) in
    let given :=
      OracleInitParams.authority (OracleAccount.CreateParams.init params) in
    let generated := Keypair_generate net (state w) in
    let tokenWallet := fst generated in
    let wallet := Keypair.publicKey tokenWallet in
    let authority := JS.nullish (option_map Keypair.publicKey given) payer in
    let programState :=
      ProgramState.publicKey (SwitchboardProgram.programState program) in
    exists lamports rest args accounts,
      fst (getMinimumBalanceForRentExemption net (SwitchboardProgram.connection program)
             (ACCOUNT_SIZE lib) (snd generated)) = inr lamports /\
      txns =
        {| TransactionObject.payer := payer;
           TransactionObject.ixns :=
             [ SystemProgram_createAccount payer wallet (ACCOUNT_SIZE lib) lamports
                 (TOKEN_PROGRAM_ID lib);
               createInitializeAccountInstruction wallet
                 (Mint.address (SwitchboardProgram.mint program)) authority;
               createSetAuthorityInstruction wallet authority AccountOwner programState;
               oracleInit args accounts ];
           TransactionObject.signers :=
             match given with
             | Some keypair => [keypair; tokenWallet]
             | None => [tokenWallet]
             end |} :: rest /\
      accounts =
        {| types.init_oracle := OracleAccount.publicKey oracleAccount;
           types.init_oracleAuthority := authority;
           types.init_wallet := wallet;
           types.init_programState := programState;
           types.init_queue := queue;
           types.init_payer := payer;
           types.init_systemProgram := SystemProgram_programId lib |} /\
      (oracleAccount, types.oracleBump args)
      = OracleAccount.fromSeed lib program queue wallet /\
      types.stateBump args
      = ProgramState.bump (SwitchboardProgram.programState program).
Proof.
  intros program payer params w w' oracleAccount txns Hrun queue given generated
         tokenWallet wallet authority programState.
  revert Hrun. unfold OracleAccount.createInstructions_txns.
  unfold bind at 1. step. cbv beta iota.
  fold generated. fold tokenWallet. fold wallet. fold given. fold queue. fold authority.
  destruct (OracleAccount.fromSeed lib program queue wallet) as [acct bump] eqn:Hseed.
  unfold bind at 1. step. simpl state.
  destruct (fst (getMinimumBalanceForRentExemption net _ _ (snd generated)))
    as [f | lamports] eqn:Hrent; simpl call; cbv beta iota; [discriminate |].
  intros H. exists lamports.
  destruct (_ && _).
  - unfold bind, ret in H.
    destruct (OracleAccount.stakeInstructions _ _ _ _ _) as [[e | dep] w1]; inv H.
    exists [dep]. do 2 eexists.
    split; [reflexivity |]. split; [reflexivity |]. split; [reflexivity |].
    split; reflexivity.
  - unfold ret in H. inv H. exists []. do 2 eexists.
    split; [reflexivity |]. split; [reflexivity |]. split; [reflexivity |].
    split; reflexivity.
Qed.

(** X5. Creating with a stake never reads the oracle account, which does not
    exist yet: after the fresh keypair and the rent, the only call is the one
    to the mint, and the deposit is the mint's wrapping transaction followed
    by the transfer of the stake into the fresh token wallet. *)
Theorem createInstructions_stakes_into_fresh_wallet :
  forall (program : SwitchboardProgram.t) (payer : PublicKey)
         (params : OracleAccount.CreateParams.t) (w : World S)
         amount tokenWallet s1 lamports s2 funderTokenAccount wrapFundsTxn s3,
    let stake := OracleAccount.CreateParams.stake params in
    OracleStakeParams.stakeAmount stake = Some amount ->
    JS.gt amount JS.zero = true ->
    Keypair_generate net (state w) = (tokenWallet, s1) ->
    getMinimumBalanceForRentExemption net (SwitchboardProgram.connection program)
      (ACCOUNT_SIZE lib) s1 = (inr lamports, s2) ->
    getOrCreateWrappedUserInstructions net program payer amount
      (OracleStakeParams.funderAuthority stake) s2
    = (inr (funderTokenAccount, wrapFundsTxn), s3) ->
    exists oracleAccount oracleInitTxn,
      OracleAccount.createInstructions_txns lib net program payer params w
      = (inr (oracleAccount,
              [ oracleInitTxn;
                TransactionObject.add wrapFundsTxn
                  (createTransferInstruction funderTokenAccount
                     (Keypair.publicKey tokenWallet)
                     (JS.nullish
                        (option_map Keypair.publicKey
                           (OracleStakeParams.funderAuthority stake)) payer)
                     (amount_bigint
                        (toTokenAmount lib (SwitchboardProgram.mint program) amount))
                     [] None) ]),
         {| state := s3; outbox := outbox w |}).
Proof.
  intros program payer params w amount tokenWallet s1 lamports s2 fta wrap s3 stake
         Hamount Hgt Hgen Hrent Hwrap.
  unfold OracleAccount.createInstructions_txns. fold stake.
  rewrite stake_wanted_gt0, Hamount.
  change (JS.gt0 (Some amount)) with (JS.gt amount JS.zero). rewrite Hgt.
  unfold bind at 1. step. rewrite Hgen. cbv beta iota. simpl fst. simpl snd.
  destruct (OracleAccount.fromSeed lib program _ _) as [acct bump] eqn:Hseed.
  unfold bind at 1. step. simpl state. rewrite Hrent. simpl call. cbv beta iota.
  unfold bind at 1.
  rewrite (stakeInstructions_given_wallet acct payer stake
             (Keypair.publicKey tokenWallet) _ Hamount Hgt).
  cbv zeta. simpl state. simpl outbox.
  assert (Hprogram : OracleAccount.program acct = program).
  { unfold OracleAccount.fromSeed in Hseed.
    destruct (findProgramAddressSync lib _ _) in Hseed. now inv Hseed. }
  rewrite Hprogram, Hwrap. simpl. do 2 eexists. reflexivity.
Qed.

(** X6. [create] submits exactly what [createInstructions] built for the
    wallet of the program, once.  If [createInstructions] raises, [create]
    raises the same and submits nothing.  If the submission is rejected,
    [create] raises that and the derived account is not returned. *)
Theorem create_submits_what_it_built :
  forall (program : SwitchboardProgram.t) (params : OracleAccount.CreateParams.t)
         (w : World S),
    let built :=
      OracleAccount.createInstructions lib net program
        (SwitchboardProgram.walletPubkey program) params w in
    (forall e,
        fst built = inl e ->
        OracleAccount.create lib net program params w = (inl e, snd built) /\
        outbox (snd built) = outbox w) /\
    (forall oracleAccount txn,
        fst built = inr (oracleAccount, txn) ->
        let reply := signAndSend_reply net program txn (state (snd built)) in
        OracleAccount.create lib net program params w
        = (match fst reply with
           | inl f => inl (Rejected f)
           | inr signature => inr (oracleAccount, signature)
           end,
           {| state := snd reply;
              outbox := outbox w ++ [Signed_and_sent program txn] |})).
Proof.
  intros program params w built.
  pose proof (createInstructions_outbox program
                (SwitchboardProgram.walletPubkey program) params w) as Hout.
  subst built. unfold OracleAccount.create.
  destruct (OracleAccount.createInstructions lib net program
              (SwitchboardProgram.walletPubkey program) params w)
    as [[e | [acct txn]] w1] eqn:Hbuilt; cbn [fst snd] in *.
  - split; [| intros ? ? H; discriminate H].
    intros e' H. inv H. erewrite bind_inl by exact Hbuilt.
    split; [reflexivity | exact Hout].
  - split; [intros ? H; discriminate H |].
    intros acct' txn' H. inv H. erewrite bind_inr by exact Hbuilt.
    unfold bind at 1. rewrite signAndSend_outcome. cbv zeta. rewrite Hout.
    destruct (fst (signAndSend_reply net program txn' (state w1))); reflexivity.
Qed.

(** X7. [stake] refuses an amount that is not above 0 before doing anything:
    no call is made and nothing is submitted.  Otherwise it submits exactly
    the transaction of [stakeInstructions] for the wallet of the program,
    once, and returns the answer to that submission. *)
Theorem stake_submits_what_it_built :
  forall (this : OracleAccount.t) (params : OracleAccount.StakeParams.t) (w : World S),
    let program := OracleAccount.program this in
    let built :=
      OracleAccount.stakeInstructions lib net this
        (SwitchboardProgram.walletPubkey program) params w in
    (JS.gt0 (OracleStakeParams.stakeAmount (OracleAccount.StakeParams.stake params))
     = false ->
     OracleAccount.stake lib net this params w
     = (inl (Error_ "stake amount should be greater than 0"), w)) /\
    (forall e,
        fst built = inl e ->
        OracleAccount.stake lib net this params w = (inl e, snd built) /\
        outbox (snd built) = outbox w) /\
    (forall stakeTxn,
        fst built = inr stakeTxn ->
        let reply := signAndSend_reply net program (Some stakeTxn) (state (snd built)) in
        OracleAccount.stake lib net this params w
        = (call (fst reply),
           {| state := snd reply;
              outbox := outbox w ++ [Signed_and_sent program (Some stakeTxn)] |})).
Proof.
  intros this params w program built.
  pose proof (stakeInstructions_outbox this
                (SwitchboardProgram.walletPubkey program) params w) as Hout.
  split; [| split].
  - intros Hgt. unfold OracleAccount.stake, OracleAccount.stakeInstructions, bind.
    rewrite stake_guard_gt0, Hgt. reflexivity.
  - subst built. intros e H. unfold OracleAccount.stake. fold program.
    destruct (OracleAccount.stakeInstructions lib net this
                (SwitchboardProgram.walletPubkey program) params w)
      as [[e' | txn] w1] eqn:Hbuilt; cbn [fst snd] in *; [| discriminate H].
    inv H. erewrite bind_inl by exact Hbuilt. split; [reflexivity | exact Hout].
  - subst built. intros stakeTxn H. unfold OracleAccount.stake. fold program.
    destruct (OracleAccount.stakeInstructions lib net this
                (SwitchboardProgram.walletPubkey program) params w)
      as [[e' | txn] w1] eqn:Hbuilt; cbn [fst snd] in *; [discriminate H |].
    inv H. erewrite bind_inr by exact Hbuilt.
    rewrite signAndSend_outcome. cbv zeta. rewrite Hout. reflexivity.
Qed.

End Building.

(** X8. Two documented parameters are never read.  Whatever
    [params.funderTokenAccount] holds, [stakeInstructions] and
    [createInstructions] give the same result in the same world: the
    funder's token account is always the one the mint answers with.
    Whatever [params.queueAuthority] holds, [heartbeat] does the same. *)
Theorem unread_parameters_have_no_effect :
  forall S (lib : Library) (net : Cluster S)
         (program : SwitchboardProgram.t) (this : OracleAccount.t) (payer : PublicKey)
         queueAccount init stakeAmount funderAuthority tokenAccount
         tokenWallet queue permission authority
         (one other : JS.optional PublicKey) (w : World S),
    let stake_with funderTokenAccount :=
      {| OracleStakeParams.stakeAmount := stakeAmount;
         OracleStakeParams.funderTokenAccount := funderTokenAccount;
         OracleStakeParams.funderAuthority := funderAuthority |} in
    let heartbeat_with queueAuthority :=
      Some {| OracleAccount.HeartbeatParams.queueAccount := queueAccount;
              OracleAccount.HeartbeatParams.tokenWallet := tokenWallet;
              OracleAccount.HeartbeatParams.queueAuthority := queueAuthority;
              OracleAccount.HeartbeatParams.queue := queue;
              OracleAccount.HeartbeatParams.permission := permission;
              OracleAccount.HeartbeatParams.authority := authority |} in
    OracleAccount.stakeInstructions lib net this payer
      {| OracleAccount.StakeParams.stake := stake_with one;
         OracleAccount.StakeParams.tokenAccount := tokenAccount |} w
    = OracleAccount.stakeInstructions lib net this payer
        {| OracleAccount.StakeParams.stake := stake_with other;
           OracleAccount.StakeParams.tokenAccount := tokenAccount |} w
    /\
    OracleAccount.createInstructions lib net program payer
      {| OracleAccount.CreateParams.queueAccount := queueAccount;
         OracleAccount.CreateParams.init := init;
         OracleAccount.CreateParams.stake := stake_with one |} w
    = OracleAccount.createInstructions lib net program payer
        {| OracleAccount.CreateParams.queueAccount := queueAccount;
           OracleAccount.CreateParams.init := init;
           OracleAccount.CreateParams.stake := stake_with other |} w
    /\
    OracleAccount.heartbeat lib net this (heartbeat_with one) w
    = OracleAccount.heartbeat lib net this (heartbeat_with other) w.
Proof. intros. repeat split. Qed.

(** ** What a heartbeat submits *)

Section HeartbeatSubmission.

Variable S : Type.
Variable lib : Library.
Variable net : Cluster S.
Variable this : OracleAccount.t.
Variable params : JS.optional OracleAccount.HeartbeatParams.t.

(** X9. In every run [heartbeat] submits nothing, or one transaction.  The
    one transaction is paid by the wallet of the program and holds the single
    heartbeat instruction for this oracle, whose authority is the one read
    from the oracle account, never the wallet.  A supplied authority is the
    only listed signer and has the key of the authority of the oracle; with
    none supplied no signer is listed. *)
Theorem heartbeat_submission :
  forall (w : World S),
    let r := OracleAccount.heartbeat lib net this params w in
    outbox (snd r) = outbox w \/
    exists oracle txn args accounts,
      fst (OracleAccount.loadData net this w) = inr oracle /\
      outbox (snd r)
      = outbox w ++ [Signed_and_sent (OracleAccount.program this) (Some txn)] /\
      TransactionObject.payer txn
      = SwitchboardProgram.walletPubkey (OracleAccount.program this) /\
      TransactionObject.ixns txn = [oracleHeartbeat args accounts] /\
      types.hb_oracle accounts = OracleAccount.publicKey this /\
      types.hb_oracleAuthority accounts = types.oracleAuthority oracle /\
      match OracleAccount.opt_field params OracleAccount.HeartbeatParams.authority with
      | Some authority =>
        TransactionObject.signers txn = [authority] /\
        PublicKey_equals (types.oracleAuthority oracle) (Keypair.publicKey authority)
        = true
      | None => TransactionObject.signers txn = []
      end.
Proof.
  intros w. cbv zeta.
  pose proof (loadData_outbox net this w) as Hw1.
  destruct (OracleAccount.loadData net this w) as [[e | oracle] w1] eqn:Hload;
    simpl in Hw1.
  { left. unfold OracleAccount.heartbeat. erewrite bind_inl by exact Hload. exact Hw1. }
  destruct (match OracleAccount.opt_field params OracleAccount.HeartbeatParams.queue with
            | Some q => ret q
            | None =>
              await (QueueAccount_loadData net (heartbeat_queueAccount this params oracle))
            end w1) as [[e | queue] w2] eqn:Hqueue.
  { left. unfold OracleAccount.heartbeat. erewrite bind_inr by exact Hload.
    unfold heartbeat_queueAccount in Hqueue.
    erewrite bind_inl by exact Hqueue. simpl. rewrite <- Hw1.
    destruct (OracleAccount.opt_field params OracleAccount.HeartbeatParams.queue).
    - discriminate Hqueue.
    - rewrite await_answer in Hqueue. now inv Hqueue. }
  assert (Hw2 : outbox w2 = outbox w).
  { rewrite <- Hw1.
    destruct (OracleAccount.opt_field params OracleAccount.HeartbeatParams.queue).
    - unfold ret in Hqueue. now inv Hqueue.
    - rewrite await_answer in Hqueue. now inv Hqueue. }
  destruct (QueueAccount_loadOracles net (heartbeat_queueAccount this params oracle)
              (state w2)) as [[f | oracles] s3] eqn:Horacles.
  { left. unfold OracleAccount.heartbeat. erewrite bind_inr by exact Hload.
    unfold heartbeat_queueAccount in Hqueue, Horacles.
    erewrite bind_inr by exact Hqueue.
    unfold bind at 1. step. rewrite Horacles. simpl. exact Hw2. }
  rewrite (heartbeat_after_reads lib net this params w Hload Hqueue Horacles). cbv zeta.
  rewrite signAndSend_outcome. cbv zeta. simpl state. simpl outbox.
  destruct (fst (PermissionAccount_loadData net _ s3)) as [f | permission].
  { left. reflexivity. }
  destruct (OracleAccount.opt_field params OracleAccount.HeartbeatParams.authority)
    as [authority |] eqn:Hauthority.
  - destruct (PublicKey_equals _ _) eqn:Hequal.
    + right. exists oracle. do 3 eexists.
      split; [reflexivity |]. split; [reflexivity |]. split; [reflexivity |].
      split; [reflexivity |]. split; [reflexivity |]. split; [reflexivity |].
      simpl. rewrite Hauthority. split; [reflexivity | exact Hequal].
    + left. reflexivity.
  - right. exists oracle. do 3 eexists.
    split; [reflexivity |]. split; [reflexivity |]. split; [reflexivity |].
    split; [reflexivity |]. split; [reflexivity |]. split; [reflexivity |].
    simpl. rewrite Hauthority. reflexivity.
Qed.

End HeartbeatSubmission.

(** ** Object literals *)

Section ObjectLiterals.

Variable V : Type.

Lemma get_set_same (k : string) (v : V) (o : JSObject.t V) :
  JSObject.get k (JSObject.set k v o) = Some v.
Proof.
  induction o as [| [k' v'] rest IH]; simpl.
  - now rewrite String.eqb_refl.
  - destruct (String.eqb k k') eqn:E; simpl.
    + now rewrite String.eqb_refl.
    + now rewrite E.
Qed.

Lemma get_set_other (k k' : string) (v : V) (o : JSObject.t V) :
  k <> k' -> JSObject.get k (JSObject.set k' v o) = JSObject.get k o.
Proof.
  intros Hne. apply String.eqb_neq in Hne.
  induction o as [| [k0 v0] rest IH]; simpl.
  - now rewrite Hne.
  - destruct (String.eqb k' k0) eqn:E; simpl.
    + apply String.eqb_eq in E. subst k0. now rewrite Hne.
    + now rewrite IH.
Qed.

Lemma get_app (k : string) (o1 o2 : JSObject.t V) :
  JSObject.get k (o1 ++ o2)
  = match JSObject.get k o1 with Some v => Some v | None => JSObject.get k o2 end.
Proof.
  induction o1 as [| [k' v'] rest IH]; simpl; [reflexivity |].
  destruct (String.eqb k k'); [reflexivity | exact IH].
Qed.

(** In [{ ...dst, ...src }] the last property of [src] with the name wins,
    and [dst] shows through where [src] has none. *)
Lemma get_spread (k : string) (src dst : JSObject.t V) :
  JSObject.get k (JSObject.spread src dst)
  = match JSObject.get k (rev src) with
    | Some v => Some v
    | None => JSObject.get k dst
    end.
Proof.
  unfold JSObject.spread. revert dst.
  induction src as [| [k1 v1] rest IH]; intros dst; simpl; [reflexivity |].
  rewrite IH, get_app. simpl.
  destruct (JSObject.get k (rev rest)); [reflexivity |].
  destruct (String.eqb k k1) eqn:E.
  - apply String.eqb_eq in E. subst k1. apply get_set_same.
  - apply String.eqb_neq in E. now apply get_set_other.
Qed.

End ObjectLiterals.

(** ** Balance, withdrawal and the JSON form *)

Section FurtherProperties.

Variable S : Type.
Variable lib : Library.
Variable net : Cluster S.
Variable more : Further S.

(** [getPermissions] with the oracle, the queue account and the queue at
    hand: the permission account is derived and loaded, nothing else. *)
Lemma getPermissions_supplied (this : OracleAccount.t) oracle queueAccount queue
    (w : World S) :
  let derived :=
    PermissionAccount_fromSeed lib (OracleAccount.program this) (types.authority queue)
      (QueueAccount.publicKey queueAccount) (OracleAccount.publicKey this) in
  let loaded := PermissionAccount_loadData net (fst derived) (state w) in
  OracleAccount.getPermissions lib net this (Some oracle) (Some queueAccount) (Some queue) w
  = (match fst loaded with
     | inl f => inl (Rejected f)
     | inr permission => inr (fst derived, snd derived, permission)
     end,
     {| state := snd loaded; outbox := outbox w |}).
Proof.
  cbv zeta. unfold OracleAccount.getPermissions.
  unfold bind at 1. unfold ret at 1. cbv beta iota.
  unfold bind at 1. unfold ret at 1. cbv beta iota. cbn [JS.nullish].
  destruct (PermissionAccount_fromSeed lib _ _ _ _) as [account bump].
  unfold bind. step. simpl fst. simpl snd.
  destruct (fst (PermissionAccount_loadData net account (state w))); reflexivity.
Qed.

(** X10. [getBalance] asks the mint for the balance of the given staking
    wallet without reading the oracle account, or else of the token account
    of the oracle.  It raises 'Failed to fetch oracle staking wallet balance'
    exactly when the wallet is known and the mint answers [null].  Nothing is
    submitted. *)
Theorem getBalance_cases :
  forall (this : OracleAccount.t) (stakingWallet : JS.optional PublicKey) (w : World S),
    let result := OracleAccount.getBalance net more this stakingWallet w in
    let asked (tokenAccount : PublicKey) (w0 : World S) :=
      let answer := mint_getBalance more (OracleAccount.program this) tokenAccount
                      (state w0) in
      (match fst answer with
       | inl f => inl (Rejected f)
       | inr None => inl (Error_ "Failed to fetch oracle staking wallet balance")
       | inr (Some amount) => inr amount
       end,
       {| state := snd answer; outbox := outbox w |}) in
    (forall tokenAccount, stakingWallet = Some tokenAccount ->
                          result = asked tokenAccount w) /\
    (forall oracle w1,
        stakingWallet = None ->
        OracleAccount.loadData net this w = (inr oracle, w1) ->
        result = asked (types.tokenAccount oracle) w1) /\
    (forall e w1,
        stakingWallet = None ->
        OracleAccount.loadData net this w = (inl e, w1) ->
        result = (inl e, w1)) /\
    (fst result = inl (Error_ "Failed to fetch oracle staking wallet balance") ->
     exists tokenAccount w0,
       result = asked tokenAccount w0 /\
       fst (mint_getBalance more (OracleAccount.program this) tokenAccount (state w0))
       = inr None) /\
    outbox (snd result) = outbox w.
Proof.
  intros this stakingWallet w result asked.
  assert (Hasked : forall k (w0 : World S), outbox w0 = outbox w ->
             bind (await (mint_getBalance more (OracleAccount.program this) k))
               (fun amount =>
                  match amount with
                  | None => throw (Error_ "Failed to fetch oracle staking wallet balance")
                  | Some amount => ret amount
                  end) w0
             = asked k w0).
  { intros k w0 Hout. unfold bind, asked. step. cbv zeta. rewrite Hout.
    destruct (fst (mint_getBalance more _ k (state w0))) as [f | [amount |]];
      reflexivity. }
  assert (Hnull : forall k w0,
             fst (asked k w0)
             = inl (Error_ "Failed to fetch oracle staking wallet balance") ->
             fst (mint_getBalance more (OracleAccount.program this) k (state w0))
             = inr None).
  { intros k w0. unfold asked. cbv zeta. simpl.
    destruct (fst (mint_getBalance more _ k (state w0))) as [f | [amount |]];
      simpl; congruence. }
  assert (Hout : forall k w0, outbox (snd (asked k w0)) = outbox w) by reflexivity.
  destruct stakingWallet as [k |].
  - assert (Hres : result = asked k w).
    { subst result. unfold OracleAccount.getBalance.
      unfold bind at 1. unfold ret at 1. cbv beta iota. now apply Hasked. }
    clearbody result. subst result.
    split; [intros ? H; now inv H |].
    split; [intros ? ? H; discriminate H |].
    split; [intros ? ? H; discriminate H |].
    split; [| apply Hout].
    intros H. exists k, w. split; [reflexivity | now apply Hnull].
  - pose proof (loadData_outbox net this w) as Hw1.
    pose proof (loadData_not_Error_ net this w
                  (message := "Failed to fetch oracle staking wallet balance")) as Hnot.
    destruct (OracleAccount.loadData net this w) as [[e | oracle] w1] eqn:Hload;
      cbn [fst snd] in *.
    + assert (Hres : result = (inl e, w1)).
      { subst result. unfold OracleAccount.getBalance.
        unfold bind at 1. erewrite bind_inl by exact Hload. reflexivity. }
      clearbody result. subst result.
      split; [intros ? H; discriminate H |].
      split; [intros ? ? _ H; discriminate H |].
      split; [intros ? ? _ H; now inv H |].
      split; [| exact Hw1]. intros H. simpl in H. congruence.
    + assert (Hres : result = asked (types.tokenAccount oracle) w1).
      { subst result. unfold OracleAccount.getBalance.
        unfold bind at 1. erewrite bind_inr by exact Hload.
        unfold ret at 1. cbv beta iota. now apply Hasked. }
      clearbody result. subst result.
      split; [intros ? H; discriminate H |].
      split; [intros ? ? _ H; now inv H |].
      split; [intros ? ? _ H; discriminate H |].
      split; [| apply Hout].
      intros H. exists (types.tokenAccount oracle), w1.
      split; [reflexivity | now apply Hnull].
Qed.

(** X11. [withdrawInstruction] reads the oracle, its queue and the permission
    account derived for them, and submits nothing.  A permission account that
    cannot be loaded makes it raise the exception of the load itself.
    Otherwise the result is one withdraw instruction paid by the payer: the
    amount is the mint's conversion of [params.amount], the funds leave the
    token account of the oracle for [params.withdrawAccount] or else the
    payer's associated account, and the authority is the one of the oracle.
    A supplied authority is listed as signer without being compared with
    it. *)
Theorem withdrawInstruction_built :
  forall (this : OracleAccount.t) (payer : PublicKey) (params : OracleWithdrawParams.t)
         (w w1 : World S) oracle queue (s2 : S),
    let program := OracleAccount.program this in
    let queueAccount :=
      {| QueueAccount.program := program;
         QueueAccount.publicKey := types.queuePubkey oracle |} in
    let derived :=
      PermissionAccount_fromSeed lib program (types.authority queue)
        (types.queuePubkey oracle) (OracleAccount.publicKey this) in
    let loaded := PermissionAccount_loadData net (fst derived) s2 in
    let after := {| state := snd loaded; outbox := outbox w |} in
    let result := OracleAccount.withdrawInstruction lib net more this payer params w in
    OracleAccount.loadData net this w = (inr oracle, w1) ->
    QueueAccount_loadData net queueAccount (state w1) = (inr queue, s2) ->
    (forall f, fst loaded = inl f -> result = (inl (Rejected f), after)) /\
    (forall permission,
        fst loaded = inr permission ->
        exists args accounts,
          result
          = (inr {| OracleWithdraw.txn_payer := payer;
                    OracleWithdraw.txn_ixns := [OracleWithdraw.oracleWithdraw args accounts];
                    OracleWithdraw.txn_signers :=
                      match OracleWithdrawParams.authority params with
                      | Some authority => [authority]
                      | None => []
                      end |},
             after) /\
          OracleWithdraw.amount args
          = toTokenAmountBN more (SwitchboardProgram.mint program)
              (OracleWithdrawParams.amount params) /\
          OracleWithdraw.permissionBump args = snd derived /\
          OracleWithdraw.permission accounts = PermissionAccount.publicKey (fst derived) /\
          OracleWithdraw.oracle accounts = OracleAccount.publicKey this /\
          OracleWithdraw.oracleAuthority accounts = types.oracleAuthority oracle /\
          OracleWithdraw.tokenAccount accounts = types.tokenAccount oracle /\
          OracleWithdraw.oracleQueue accounts = types.queuePubkey oracle /\
          OracleWithdraw.payer accounts = payer /\
          OracleWithdraw.withdrawAccount accounts
          = JS.nullish (OracleWithdrawParams.withdrawAccount params)
              (mint_getAssociatedAddress more (SwitchboardProgram.mint program) payer)).
Proof.
  intros this payer params w w1 oracle queue s2 program queueAccount derived loaded after
         result Hload Hqueue.
  assert (Hw1 : outbox w1 = outbox w).
  { pose proof (loadData_outbox net this w) as H. rewrite Hload in H. exact H. }
  assert (Hresult :
            result
            = match fst loaded with
              | inl f => (inl (Rejected f), after)
              | inr _ =>
                (inr {| OracleWithdraw.txn_payer := payer;
                        OracleWithdraw.txn_ixns :=
                          [OracleWithdraw.oracleWithdraw
                             {| OracleWithdraw.stateBump :=
                                  ProgramState.bump
                                    (SwitchboardProgram.programState program);
                                OracleWithdraw.permissionBump := snd derived;
                                OracleWithdraw.amount :=
                                  toTokenAmountBN more (SwitchboardProgram.mint program)
                                    (OracleWithdrawParams.amount params) |}
                             {| OracleWithdraw.oracle := OracleAccount.publicKey this;
                                OracleWithdraw.oracleAuthority :=
                                  types.oracleAuthority oracle;
                                OracleWithdraw.tokenAccount := types.tokenAccount oracle;
                                OracleWithdraw.withdrawAccount :=
                                  JS.nullish (OracleWithdrawParams.withdrawAccount params)
                                    (mint_getAssociatedAddress more
                                       (SwitchboardProgram.mint program) payer);
                                OracleWithdraw.oracleQueue := types.queuePubkey oracle;
                                OracleWithdraw.permission :=
                                  PermissionAccount.publicKey (fst derived);
                                OracleWithdraw.tokenProgram := TOKEN_PROGRAM_ID lib;
                                OracleWithdraw.programState :=
                                  ProgramState.publicKey
                                    (SwitchboardProgram.programState program);
                                OracleWithdraw.payer := payer;
                                OracleWithdraw.systemProgram :=
                                  SystemProgram_programId lib |}];
                        OracleWithdraw.txn_signers :=
                          match OracleWithdrawParams.authority params with
                          | Some authority => [authority]
                          | None => []
                          end |}, after)
              end).
  { subst result. unfold OracleAccount.withdrawInstruction. cbv zeta.
    erewrite bind_inr by exact Hload.
    fold program. fold queueAccount.
    unfold bind at 1. step. rewrite Hqueue. simpl call. cbv beta iota. simpl fst.
    simpl snd. unfold bind at 1.
    rewrite getPermissions_supplied. cbv zeta. simpl state. simpl outbox.
    fold program. cbn [QueueAccount.publicKey queueAccount]. fold derived. fold loaded.
    rewrite Hw1. fold after.
    destruct (fst loaded) as [f | permission]; [reflexivity |].
    destruct derived as [account bump]. reflexivity. }
  rewrite Hresult. split.
  - intros f ->. reflexivity.
  - intros permission ->. do 2 eexists. split; [reflexivity |].
    repeat split.
Qed.

(** X12. [toAccountsJSON] with the oracle data at hand.  A permission account
    supplied without its data, or data without the account, is dropped: both
    are derived and loaded again.  With both supplied the only call is the
    balance query, and a [null] balance counts as 0.  In the result the
    property [permission] is always the permission object; every other
    property of the JSON form of the oracle is found with its value, also
    when it is named [publicKey] or [balance]; otherwise [publicKey] is the
    key of this account and [balance] the balance. *)
Theorem toAccountsJSON_supplied :
  forall (this : OracleAccount.t) (oracle : types.OracleAccountData)
         (permissionAccount : PermissionAccount.t)
         (permission : types.PermissionAccountData) (w : World S),
    let answer :=
      mint_getBalance more (OracleAccount.program this) (types.tokenAccount oracle)
        (state w) in
    let after := {| state := snd answer; outbox := outbox w |} in
    let run _permissionAccount _permission :=
      OracleAccount.toAccountsJSON lib net more this (Some oracle)
        _permissionAccount _permission w in
    let oracle_json := OracleAccountData_toJSON more oracle in
    (run (Some permissionAccount) None = run None None /\
     run None (Some permission) = run None None) /\
    (forall f,
        fst answer = inl f ->
        run (Some permissionAccount) (Some permission) = (inl (Rejected f), after)) /\
    (forall balance,
        fst answer = inr balance ->
        exists json,
          run (Some permissionAccount) (Some permission) = (inr json, after) /\
          JSObject.get "permission" json
          = Some (JSON_object
                    (JSObject.spread (PermissionAccountData_toJSON more permission)
                       [("publicKey",
                         JSON_key (PermissionAccount.publicKey permissionAccount))])) /\
          (forall k v,
              k <> "permission" ->
              JSObject.get k (rev oracle_json) = Some v ->
              JSObject.get k json = Some v) /\
          (JSObject.get "balance" (rev oracle_json) = None ->
           JSObject.get "balance" json = Some (JSON_number (JS.nullish balance JS.zero))) /\
          (JSObject.get "publicKey" (rev oracle_json) = None ->
           JSObject.get "publicKey" json
           = Some (JSON_key (OracleAccount.publicKey this)))).
Proof.
  intros this oracle permissionAccount permission w answer after run oracle_json.
  split; [split; reflexivity |].
  assert (Hrun :
            run (Some permissionAccount) (Some permission)
            = (match fst answer with
               | inl f => inl (Rejected f)
               | inr balance =>
                 inr (JSObject.set "permission"
                        (JSON_object
                           (JSObject.spread (PermissionAccountData_toJSON more permission)
                              (JSObject.set "publicKey"
                                 (JSON_key (PermissionAccount.publicKey permissionAccount))
                                 [])))
                        (JSObject.spread oracle_json
                           (JSObject.set "balance"
                              (JSON_number (JS.nullish balance JS.zero))
                              (JSObject.set "publicKey"
                                 (JSON_key (OracleAccount.publicKey this)) []))))
               end, after)).
  { subst run. cbv beta. unfold OracleAccount.toAccountsJSON.
    unfold bind at 1. unfold ret at 1. cbv beta iota.
    unfold bind at 1. unfold ret at 1. cbv beta iota.
    unfold bind at 1. unfold bind at 1. step. fold answer. fold after.
    destruct (fst answer) as [f | balance]; reflexivity. }
  rewrite Hrun. split.
  - intros f ->. reflexivity.
  - intros balance ->. eexists. split; [reflexivity |].
    split; [apply get_set_same |].
    split; [| split].
    + intros k v Hk Hv. rewrite get_set_other by exact Hk.
      rewrite get_spread, Hv. reflexivity.
    + intros Hnone. rewrite get_set_other by discriminate.
      rewrite get_spread, Hnone. reflexivity.
    + intros Hnone. rewrite get_set_other by discriminate.
      rewrite get_spread, Hnone. reflexivity.
Qed.

End FurtherProperties.

(** ** Failures of the wrapped transfer *)

Section TransferFailures.

Variable S : Type.
Variable lib : Library.
Variable net : Cluster S.
Variable u64 : Z -> Fault + Buffer.t.

(** X13. [transferWrappedSol] reads the balance of the payer and never uses
    it, yet when that read fails the transfer is given up before anything is
    built.  When the builders accept the amount and the submission itself is
    rejected, the transaction has been handed over once, the exception is the
    one of the submission, and the token balance is not read. *)
Theorem transferWrappedSol_failures :
  forall (connection : Connection) (payerKeypair : Keypair.t) (amount : JS.number)
         (w : World S),
    let payer := Keypair.publicKey payerKeypair in
    let balance := getBalance net connection payer (state w) in
    let result := token.transferWrappedSol lib net u64 connection payerKeypair amount w in
    (forall f,
        fst balance = inl f ->
        result = (inl (Rejected f), {| state := snd balance; outbox := outbox w |})) /\
    (forall payerBalance account s1 ephemeralAccount s2 ephemeralWallet z bytes f s3,
        let tx :=
          [ createAssociatedTokenAccountInstruction payer ephemeralWallet payer
              (NATIVE_MINT lib) (TOKEN_PROGRAM_ID lib) (ASSOCIATED_TOKEN_PROGRAM_ID lib);
            SystemProgram_transfer payer ephemeralWallet amount;
            createSyncNativeInstruction ephemeralWallet (TOKEN_PROGRAM_ID lib);
            createTransferInstruction ephemeralWallet (spl.address account) payer
              (amount_number amount) [payerKeypair; ephemeralAccount]
              (Some (TOKEN_PROGRAM_ID lib));
            createCloseAccountInstruction ephemeralWallet payer payer
              [payerKeypair; ephemeralAccount] (TOKEN_PROGRAM_ID lib) ] in
        fst balance = inr payerBalance ->
        getOrCreateAssociatedTokenAccount net connection payerKeypair (NATIVE_MINT lib)
          payer (snd balance) = (inr account, s1) ->
        Keypair_generate net s1 = (ephemeralAccount, s2) ->
        getAssociatedTokenAddress lib (NATIVE_MINT lib)
          (Keypair.publicKey ephemeralAccount) = inr ephemeralWallet ->
        JS.BigInt amount = Some z ->
        u64 z = inr bytes ->
        sendAndConfirmTransaction_reply net connection tx
          [payerKeypair; ephemeralAccount] s2 = (inl f, s3) ->
        result
        = (inl (Rejected f),
           {| state := s3;
              outbox := outbox w ++
                        [Sent_and_confirmed connection tx
                           [payerKeypair; ephemeralAccount]] |})).
Proof.
  intros connection payerKeypair amount w payer balance result. split.
  - intros f Hf. subst result.
    unfold token.transferWrappedSol. unfold bind at 1. step.
    fold payer. fold balance. rewrite Hf. reflexivity.
  - intros payerBalance account s1 ephemeralAccount s2 ephemeralWallet z bytes f s3 tx
           Hbalance Hwallet Hgenerate Haddress Hz Hbytes Hsend.
    assert (Hread : getBalance net connection payer (state w)
                    = (inr payerBalance, snd balance)).
    { fold balance. destruct balance as [r s0]. simpl in *. now subst r. }
    subst result.
    rewrite (transferWrappedSol_after_reads lib net u64 connection payerKeypair amount w
               Hread Hwallet Hgenerate Haddress).
    cbv zeta. unfold token.encode_amount. rewrite Hz, Hbytes. simpl call. cbv iota.
    fold payer. fold tx. rewrite Hsend. reflexivity.
Qed.

End TransferFailures.

(** ** Seeds of the oracle address *)

Lemma to_N_u8 (n : N) : Byte.to_N (Buffer.u8 n) = n mod 256.
Proof.
  unfold Buffer.u8.
  assert (Hland : N.land n 255 = n mod 256).
  { change 255 with (N.ones 8). rewrite N.land_ones. reflexivity. }
  rewrite Hland.
  pose proof (Byte.to_of_N_option_map (n mod 256)) as H.
  assert (Hle : (n mod 256 <=? 255) = true).
  { apply N.leb_le. pose proof (N.mod_upper_bound n 256). lia. }
  rewrite Hle in H.
  destruct (Byte.of_N (n mod 256)) as [b |]; simpl in H; congruence.
Qed.

Lemma of_be_bytes_snoc (bytes : Buffer.t) (b : Byte.byte) :
  of_be_bytes (bytes ++ [b]) = of_be_bytes bytes * 256 + Byte.to_N b.
Proof. unfold of_be_bytes. rewrite List.fold_left_app. reflexivity. Qed.

(** Reading back what [be_bytes] wrote. *)
Lemma of_be_bytes_be_bytes (len : nat) (n : N) :
  n < 256 ^ N.of_nat len -> of_be_bytes (be_bytes len n) = n.
Proof.
  revert n. induction len as [| k IH]; intros n Hn.
  - change (n < 1) in Hn. cbn [be_bytes]. unfold of_be_bytes. cbn [fold_left]. lia.
  - cbn [be_bytes]. rewrite of_be_bytes_snoc, to_N_u8.
    rewrite N.shiftr_div_pow2. change (2 ^ 8) with 256.
    rewrite IH.
    + pose proof (N.div_mod n 256). lia.
    + rewrite Nnat.Nat2N.inj_succ, N.pow_succ_r' in Hn.
      apply N.Div0.div_lt_upper_bound. lia.
Qed.

Lemma toBuffer_injective (a b : PublicKey) :
  valid_key a -> valid_key b -> toBuffer a = toBuffer b -> a = b.
Proof.
  unfold valid_key, toBuffer. intros Ha Hb H.
  apply (f_equal of_be_bytes) in H.
  rewrite !of_be_bytes_be_bytes in H
    by (change (256 ^ N.of_nat 32) with (2 ^ 256); assumption).
  destruct a, b. simpl in H. now subst.
Qed.

(** X14. The seeds of the oracle address tell the queue and the wallet
    apart: if [fromSeed] gives the same account and bump for two pairs of
    keys whatever the address derivation is, the two queues are the same key
    and the two wallets are the same key. *)
Theorem fromSeed_separates_inputs :
  forall (program : SwitchboardProgram.t) (queue wallet queue' wallet' : PublicKey),
    valid_key queue -> valid_key wallet -> valid_key queue' -> valid_key wallet' ->
    (forall lib : Library,
        OracleAccount.fromSeed lib program queue wallet
        = OracleAccount.fromSeed lib program queue' wallet') ->
    queue = queue' /\ wallet = wallet'.
Proof.
  intros program queue wallet queue' wallet' Hq Hw Hq' Hw' H.
  specialize (H {| ACCOUNT_SIZE := 0;
                   TOKEN_PROGRAM_ID := queue;
                   ASSOCIATED_TOKEN_PROGRAM_ID := queue;
                   NATIVE_MINT := queue;
                   SystemProgram_programId := queue;
                   findProgramAddressSync := fun seeds _ =>
                     ({| _bn := of_be_bytes (nth 1 seeds []) |},
                      of_be_bytes (nth 2 seeds []));
                   new_PublicKey := fun _ => inr queue;
                   OracleAccountData_decode := fun _ => inl {| reason := "" |};
                   PermissionAccount_fromSeed := fun p _ _ k =>
                     ({| PermissionAccount.program := p;
                         PermissionAccount.publicKey := k |}, 0);
                   pack := fun txns => txns;
                   toTokenAmount := fun _ _ => 0%Z;
                   programWallet := fun _ =>
                     {| Keypair.publicKey := queue; Keypair.secretKey := [] |};
                   ProgramStateAccount_fromSeed := fun p =>
                     ({| ProgramStateAccount.program := p;
                         ProgramStateAccount.publicKey := queue |}, 0);
                   getAssociatedTokenAddress := fun _ k => inr k |}).
  unfold OracleAccount.fromSeed in H.
  cbn [findProgramAddressSync nth] in H.
  injection H as Hkey Hbump.
  unfold toBuffer in Hkey, Hbump.
  rewrite !of_be_bytes_be_bytes in Hkey, Hbump
    by (change (256 ^ N.of_nat 32) with (2 ^ 256); assumption).
  destruct queue, wallet, queue', wallet'. simpl in *. now subst.
Qed.

(** X15. Whatever the keys are, [fromSeed] hands three seeds to the address
    derivation, of 17, 32 and 32 bytes: the account name and the two keys,
    each padded to its full width. *)
Theorem fromSeed_seed_lengths :
  forall (program : SwitchboardProgram.t) (queue wallet : PublicKey),
    exists seeds,
      (forall lib : Library,
          OracleAccount.fromSeed lib program queue wallet
          = ({| OracleAccount.program := program;
                OracleAccount.publicKey :=
                  fst (findProgramAddressSync lib seeds
                         (SwitchboardProgram.programId program)) |},
             snd (findProgramAddressSync lib seeds
                    (SwitchboardProgram.programId program)))) /\
      map (@List.length Byte.byte) seeds = [17; 32; 32]%nat.
Proof.
  intros program queue wallet.
  exists [Buffer.from_utf8 (JS.lit "OracleAccountData"); toBuffer queue; toBuffer wallet].
  split.
  - intros lib. unfold OracleAccount.fromSeed.
    destruct (findProgramAddressSync lib _ _). reflexivity.
  - cbn [map]. unfold toBuffer. rewrite !be_bytes_length. reflexivity.
Qed.

(** ** The further properties on the demo cluster *)

Lemma createInstructions_wallet_consistent_witness :
  exists rest args accounts,
    match fst (OracleAccount.createInstructions_txns Demo.lib Demo.net Demo.program
                 (Demo.key 42) (Demo.create_params None None Demo.no_stake)
                 Demo.genesis) with
    | inr (_, txns) => txns
    | inl _ => []
    end
    = {| TransactionObject.payer := Demo.key 42;
         TransactionObject.ixns :=
           [ SystemProgram_createAccount (Demo.key 42) (Demo.key 5000) 165
               (JS.Number 2039280) (Demo.key 1001);
             createInitializeAccountInstruction (Demo.key 5000) (Demo.key 1003)
               (Demo.key 42);
             createSetAuthorityInstruction (Demo.key 5000) (Demo.key 42)
               AccountOwner (Demo.key 901);
             oracleInit args accounts ];
         TransactionObject.signers := [Demo.keypair 5000] |} :: rest /\
    types.init_wallet accounts = Demo.key 5000.
Proof.
  destruct (createInstructions_wallet_consistent Demo.lib Demo.net Demo.program
              (Demo.key 42) (Demo.create_params None None Demo.no_stake)
              Demo.genesis eq_refl)
    as (lamports & rest & args & accounts & Hrent & Htxns & Haccounts & _ & _).
  assert (Hlamports : JS.Number 2039280 = lamports) by (now injection Hrent).
  subst lamports.
  exists rest, args, accounts. split.
  - exact Htxns.
  - rewrite Haccounts. reflexivity.
Defined.

Lemma createInstructions_stakes_into_fresh_wallet_witness :
  exists oracleAccount oracleInitTxn wrapFundsTxn,
    OracleAccount.createInstructions_txns Demo.lib Demo.net Demo.program (Demo.key 42)
      (Demo.create_params None None (Demo.stake_of (JS.Number 2))) Demo.genesis
    = (inr (oracleAccount,
            [ oracleInitTxn;
              TransactionObject.add wrapFundsTxn
                (createTransferInstruction (Demo.key 300) (Demo.key 5000) (Demo.key 42)
                   (amount_bigint 2000000000) [] None) ]),
       {| state := 1; outbox := [] |}).
Proof.
  destruct (createInstructions_stakes_into_fresh_wallet Demo.lib Demo.net Demo.program
              (Demo.key 42) (Demo.create_params None None (Demo.stake_of (JS.Number 2)))
              Demo.genesis
              (amount := JS.Number 2) (tokenWallet := Demo.keypair 5000) (s1 := 1)
              (lamports := JS.Number 2039280) (s2 := 1)
              (funderTokenAccount := Demo.key 300) (s3 := 1)
              eq_refl eq_refl eq_refl eq_refl eq_refl)
    as (oracleAccount & oracleInitTxn & H).
  exists oracleAccount, oracleInitTxn. eexists. exact H.
Defined.

Lemma create_submits_what_it_built_witness :
  exists oracleAccount txn,
    OracleAccount.create Demo.lib Demo.net Demo.program
      (Demo.create_params None None Demo.no_stake) Demo.genesis
    = (inr (oracleAccount, "signature"),
       {| state := 2; outbox := [Signed_and_sent Demo.program txn] |}) /\
    fst (OracleAccount.create Demo.lib Demo.net Demo.program
           (Demo.create_params None None (Demo.stake_of (JS.Number 1))) Demo.genesis)
    = inl (Error_ "Expected a single TransactionObject").
Proof.
  pose proof (create_submits_what_it_built Demo.lib Demo.net Demo.program
                (Demo.create_params None None Demo.no_stake) Demo.genesis)
    as (_ & Hsent).
  pose proof (create_submits_what_it_built Demo.lib Demo.net Demo.program
                (Demo.create_params None None (Demo.stake_of (JS.Number 1))) Demo.genesis)
    as (Hraised & _).
  do 2 eexists. split.
  - exact (Hsent _ _ eq_refl).
  - rewrite (proj1 (Hraised _ eq_refl)). reflexivity.
Defined.

Lemma stake_submits_what_it_built_witness :
  OracleAccount.stake Demo.lib Demo.net (Demo.oracle 7)
    (Demo.stake_params JS.zero None) Demo.genesis
  = (inl (Error_ "stake amount should be greater than 0"), Demo.genesis) /\
  exists stakeTxn,
    OracleAccount.stake Demo.lib Demo.net (Demo.oracle 7)
      (Demo.stake_params (JS.Number 1) None) Demo.genesis
    = (inr "signature",
       {| state := 1; outbox := [Signed_and_sent Demo.program (Some stakeTxn)] |}).
Proof.
  split.
  - exact (proj1 (stake_submits_what_it_built Demo.lib Demo.net (Demo.oracle 7)
                    (Demo.stake_params JS.zero None) Demo.genesis) eq_refl).
  - eexists.
    exact (proj2 (proj2 (stake_submits_what_it_built Demo.lib Demo.net (Demo.oracle 7)
                           (Demo.stake_params (JS.Number 1) None) Demo.genesis))
             _ eq_refl).
Defined.

Lemma getBalance_cases_witness :
  OracleAccount.getBalance Demo.net Demo.more (Demo.oracle 7) None Demo.genesis
  = (inr (JS.Number 3), Demo.genesis) /\
  OracleAccount.getBalance Demo.net Demo.more (Demo.oracle 8) (Some (Demo.key 13))
    Demo.genesis
  = (inl (Error_ "Failed to fetch oracle staking wallet balance"), Demo.genesis) /\
  OracleAccount.getBalance Demo.net Demo.more (Demo.oracle 8) None Demo.genesis
  = (inl (AccountNotFoundError (Demo.key 8)), Demo.genesis).
Proof.
  split; [| split].
  - exact (proj1 (proj2 (getBalance_cases Demo.net Demo.more (Demo.oracle 7) None
                           Demo.genesis))
             Demo.oracle7 Demo.genesis eq_refl eq_refl).
  - exact (proj1 (getBalance_cases Demo.net Demo.more (Demo.oracle 8)
                    (Some (Demo.key 13)) Demo.genesis)
             (Demo.key 13) eq_refl).
  - exact (proj1 (proj2 (proj2 (getBalance_cases Demo.net Demo.more (Demo.oracle 8) None
                                  Demo.genesis)))
             (AccountNotFoundError (Demo.key 8)) Demo.genesis eq_refl eq_refl).
Defined.

Lemma withdrawInstruction_built_witness :
  exists args accounts,
    OracleAccount.withdrawInstruction Demo.lib Demo.net Demo.more (Demo.oracle 7)
      (Demo.key 42) (Demo.withdraw_params (JS.Number 1) None (Some (Demo.keypair 99)))
      Demo.genesis
    = (inr {| OracleWithdraw.txn_payer := Demo.key 42;
              OracleWithdraw.txn_ixns := [OracleWithdraw.oracleWithdraw args accounts];
              OracleWithdraw.txn_signers := [Demo.keypair 99] |},
       Demo.genesis) /\
    OracleWithdraw.oracleAuthority accounts = Demo.key 11 /\
    OracleWithdraw.withdrawAccount accounts = Demo.key 1045 /\
    OracleWithdraw.amount args = 1000000000%Z.
Proof.
  destruct (proj2 (withdrawInstruction_built Demo.lib Demo.net Demo.more (Demo.oracle 7)
                     (Demo.key 42)
                     (Demo.withdraw_params (JS.Number 1) None (Some (Demo.keypair 99)))
                     Demo.genesis (w1 := Demo.genesis) (oracle := Demo.oracle7)
                     (queue := Demo.queue20) (s2 := 0) eq_refl eq_refl)
              {| types.granter := Demo.key 20; types.grantee := Demo.key 7;
                 types.permissions := 1 |} eq_refl)
    as (args & accounts & Hrun & Hamount & _ & _ & _ & Hauthority & _ & _ & _ & Hto).
  exists args, accounts.
  split; [exact Hrun |]. split; [exact Hauthority |].
  split; [exact Hto | exact Hamount].
Defined.

Lemma toAccountsJSON_supplied_witness :
  exists json,
    OracleAccount.toAccountsJSON Demo.lib Demo.net Demo.more (Demo.oracle 7)
      (Some Demo.oracle7)
      (Some {| PermissionAccount.program := Demo.program;
               PermissionAccount.publicKey := Demo.key 27 |})
      (Some {| types.granter := Demo.key 20; types.grantee := Demo.key 7;
               types.permissions := 1 |})
      Demo.genesis
    = (inr json, Demo.genesis) /\
    JSObject.get "balance" json = Some (JSON_number (JS.Number 3)) /\
    JSObject.get "publicKey" json = Some (JSON_key (Demo.key 7)) /\
    JSObject.get "tokenAccount" json = Some (JSON_key (Demo.key 12)).
Proof.
  destruct (proj2 (proj2 (toAccountsJSON_supplied Demo.lib Demo.net Demo.more
                            (Demo.oracle 7) Demo.oracle7
                            {| PermissionAccount.program := Demo.program;
                               PermissionAccount.publicKey := Demo.key 27 |}
                            {| types.granter := Demo.key 20; types.grantee := Demo.key 7;
                               types.permissions := 1 |}
                            Demo.genesis))
              (Some (JS.Number 3)) eq_refl)
    as (json & Hrun & _ & Hfield & Hbalance & Hkey).
  exists json. split; [exact Hrun |].
  split; [exact (Hbalance eq_refl) |].
  split; [exact (Hkey eq_refl) |].
  exact (Hfield "tokenAccount" (JSON_key (Demo.key 12)) ltac:(discriminate) eq_refl).
Defined.

Lemma transferWrappedSol_failures_witness :
  fst (token.transferWrappedSol Demo.lib rejecting_net Demo.u64 Demo.devnet
         (Demo.keypair 66) (JS.Number 1000) Demo.genesis)
  = inl (Rejected (Demo.fault "node is behind")) /\
  exists tx,
    token.transferWrappedSol Demo.lib rejecting_net Demo.u64 Demo.devnet (Demo.keypair 42)
      (JS.Number 1000) Demo.genesis
    = (inl (Rejected (Demo.fault "blockhash not found")),
       {| state := 2;
          outbox := [Sent_and_confirmed Demo.devnet tx
                       [Demo.keypair 42; Demo.keypair 5000]] |}).
Proof.
  split.
  - rewrite (proj1 (transferWrappedSol_failures Demo.lib rejecting_net Demo.u64
                      Demo.devnet (Demo.keypair 66) (JS.Number 1000) Demo.genesis)
               (Demo.fault "node is behind") eq_refl).
    reflexivity.
  - eexists.
    exact (proj2 (transferWrappedSol_failures Demo.lib rejecting_net Demo.u64
                    Demo.devnet (Demo.keypair 42) (JS.Number 1000) Demo.genesis)
             (JS.Number 1000000000)
             {| spl.address := Demo.key 1045; spl.owner := Demo.key 42; spl.amount := 0 |}
             0 (Demo.keypair 5000) 1 (Demo.key 6003) 1000%Z (rev (be_bytes 8 1000))
             (Demo.fault "blockhash not found") 2
             eq_refl eq_refl eq_refl eq_refl eq_refl eq_refl eq_refl).
Defined.

Lemma fromSeed_separates_inputs_witness :
  valid_key (Demo.key 20) /\ valid_key (Demo.key 12) /\
  (Demo.key 20 = Demo.key 20 /\ Demo.key 12 = Demo.key 12).
Proof.
  assert (H20 : valid_key (Demo.key 20)) by reflexivity.
  assert (H12 : valid_key (Demo.key 12)) by reflexivity.
  split; [exact H20 |]. split; [exact H12 |].
  exact (fromSeed_separates_inputs Demo.program H20 H12 H20 H12 (fun lib => eq_refl)).
Defined.
